(** * Frame-level inference and scoring of the surgical-video pipeline

    A shallow embedding of [ml_pipeline/config.py], [ml_pipeline/ranking.py]
    and [ml_pipeline/inference_service.py].

    Conventions of the embedding:
    - Python [float]s are exact rationals ([Q]); equality of scores is
      [Qeq] ([==]).  Rounding, infinities and NaN are outside this
      model; where rounding decides a property, the code is evaluated
      on IEEE binary64 as well ([Binary64], [Binary64Summary]).
    - Python [int]s are [Z] (class indices, pixel codes) or [nat] (counts,
      array extents).
    - A [dict] that is iterated is an insertion-ordered association list
      with unique keys ([dict]); a [dict] that is only queried with [.get]
      is a [gmap].
    - A call that can raise returns a [result]. *)

From Stdlib Require Import QArith Qminmax Lqa ZArith List String Sorting.Sorted Permutation.
From Stdlib Require Import Floats.PrimFloat Floats.SpecFloat Floats.FloatOps.
From Stdlib Require Import Numbers.Cyclic.Int63.Uint63.
From stdpp Require Import gmap strings list sorting pretty.

Local Open Scope string_scope.
Set Warnings "-inexact-float".

(** ** Python values *)

Module Py.

(** Exceptions that the modelled code can raise.  All of them are
    subclasses of Python's [Exception]. *)
Inductive exn : Type :=
| RuntimeError (msg : string)
| ValueError (msg : string)
| TypeError (msg : string)
| OverflowError (msg : string)
| SystemError (msg : string)
| ZeroDivisionError.

Inductive result (A : Type) : Type :=
| Ok (a : A)
| Raise (e : exn).
Arguments Ok {A} a.
Arguments Raise {A} e.

Definition bind {A B} (r : result A) (k : A -> result B) : result B :=
  match r with
  | Ok a => k a
  | Raise e => Raise e
  end.

#[global] Instance result_bind : MBind result := fun A B k r => bind r k.
#[global] Instance result_ret : MRet result := fun A a => Ok a.

Definition str (e : exn) : string :=
  match e with
  | RuntimeError msg | ValueError msg | TypeError msg
  | OverflowError msg | SystemError msg => msg
  | ZeroDivisionError => "division by zero"
  end.

(** [mapM]: a comprehension whose element expression can raise. *)
Fixpoint traverse {A B} (f : A -> result B) (l : list A) : result (list B) :=
  match l with
  | [] => Ok []
  | a :: l' =>
      b ← f a; bs ← traverse f l'; Ok (b :: bs)
  end.

(** Insertion-ordered dictionary with string keys. *)
Abbreviation dict V := (list (string * V)).

Fixpoint dict_get {V} (d : dict V) (k : string) : option V :=
  match d with
  | [] => None
  | (k', v) :: d' => if decide (k' = k) then Some v else dict_get d' k
  end.

(** [d[k] = v]: an existing key keeps its position, a new key goes last. *)
Fixpoint dict_set {V} (d : dict V) (k : string) (v : V) : dict V :=
  match d with
  | [] => [(k, v)]
  | (k', v') :: d' =>
      if decide (k' = k) then (k, v) :: d' else (k', v') :: dict_set d' k v
  end.

(** [{k: v for k, v in pairs}]. *)
Definition dict_of_pairs {V} (pairs : list (string * V)) : dict V :=
  fold_left (fun d kv => dict_set d kv.1 kv.2) pairs [].

Definition keys {V} (d : dict V) : list string := map fst d.

(** [enumerate(l)] with [int] indices. *)
Definition enumerate {A} (l : list A) : list (Z * A) :=
  imap (fun i a => (Z.of_nat i, a)) l.

(** Two-argument [min] and [max] of Python: the first argument is kept
    unless the second is strictly smaller (resp. strictly greater). *)
Definition min (a b : Q) : Q := if Qlt_le_dec b a then b else a.
Definition max (a b : Q) : Q := if Qlt_le_dec a b then b else a.

(** [max(iterable, key=get)]: the first element whose key is maximal;
    [ValueError] on an empty iterable, [TypeError] when [get] yields
    [None] for an element that has to be compared. *)
Fixpoint max_loop (get : string -> option Q) (best : string) (best_key : Q)
    (rest : list string) : result string :=
  match rest with
  | [] => Ok best
  | k :: rest' =>
      match get k with
      | None => Raise (TypeError "'>' not supported for NoneType")
      | Some v =>
          if Qlt_le_dec best_key v
          then max_loop get k v rest'
          else max_loop get best best_key rest'
      end
  end.

Definition max_by_key (get : string -> option Q) (l : list string) : result string :=
  match l with
  | [] => Raise (ValueError "max() arg is an empty sequence")
  | k :: rest =>
      match get k, rest with
      | Some v, _ => max_loop get k v rest
      | None, [] => Ok k
      | None, _ :: _ => Raise (TypeError "'>' not supported for NoneType")
      end
  end.

(** [sorted(l, key=key, reverse=True)].  Python's sort is stable, also
    with [reverse=True]: elements with equal keys keep their input
    order.  The stable descending arrangement is unique; it is computed
    here by insertion from the right. *)
Fixpoint insert_desc {A} (key : A -> Q) (x : A) (l : list A) : list A :=
  match l with
  | [] => [x]
  | y :: l' =>
      if Qlt_le_dec (key x) (key y)
      then y :: insert_desc key x l'
      else x :: y :: l'
  end.

Fixpoint sorted_reverse {A} (key : A -> Q) (l : list A) : list A :=
  match l with
  | [] => []
  | x :: l' => insert_desc key x (sorted_reverse key l')
  end.

End Py.

(** ** [ml_pipeline/config.py] *)

Module Config.

Definition PIXEL_VALUE_TO_LABEL : list (Z * string) :=
  [ (0%Z, "background");
    (11%Z, "liver");
    (12%Z, "gallbladder");
    (21%Z, "cystic_duct");
    (22%Z, "cystic_artery");
    (23%Z, "common_bile_duct");
    (31%Z, "grasper");
    (32%Z, "hook");
    (50%Z, "scissors") ].

Definition PHASE_DEFINITIONS : list (string * Q) :=
  [ ("pre_op", 0.10%Q);
    ("port_setup", 0.10%Q);
    ("exposure", 0.20%Q);
    ("critical_dissection", 0.35%Q);
    ("clip_and_divide", 0.15%Q);
    ("closure", 0.10%Q) ].

Abbreviation path := string.

(** The fields of [TrainingConfig] that inference reads. *)
Record TrainingConfig : Type := {
  artifacts_dir : path;
  image_size : Z;
  endovit_segmentation_checkpoint : option path;
}.

End Config.

(** ** [ml_pipeline/ranking.py] *)

Module Ranking.
Import Config.
Local Open Scope Q_scope.

Definition PHASE_WEIGHTS : gmap string Q :=
  list_to_map
    [ ("pre_op", 0.2);
      ("port_setup", 0.4);
      ("exposure", 0.6);
      ("critical_dissection", 0.9);
      ("clip_and_divide", 1.0);
      ("closure", 0.5) ].

Definition OBJECT_PRIORITIES : gmap string Q :=
  list_to_map
    [ ("cystic_duct", 1.0);
      ("cystic_artery", 1.0);
      ("common_bile_duct", 0.9);
      ("grasper", 0.6);
      ("hook", 0.5);
      ("scissors", 0.7);
      ("gallbladder", 0.8);
      ("liver", 0.4) ].

Definition calculate_phase_score (phase_probabilities : Py.dict Q) : Q :=
  let score :=
    fold_left
      (fun score '(phase, prob) =>
         let weight := default 0.3 (PHASE_WEIGHTS !! phase) in
         score + prob * weight)
      phase_probabilities 0 in
  Py.min score 1.0.

Definition calculate_object_score (objects : list string) : Q :=
  let total :=
    fold_left
      (fun total obj => total + default 0.2 (OBJECT_PRIORITIES !! obj))
      objects 0 in
  Py.min total 3.0 / 3.0.

(** [ai_bonus] is a keyword argument with default [0.1]; [None] stands
    for a call that does not pass it. *)
Definition compute_importance (quality_score phase_score object_score : Q)
    (ai_bonus : option Q) : Q :=
  let ai_bonus := default 0.1 ai_bonus in
  let normalized_quality := quality_score / 100.0 in
  let combined :=
    0.4 * normalized_quality + 0.35 * phase_score + 0.25 * object_score
    + ai_bonus in
  Py.max 0.0 (Py.min 1.0 combined) * 100.0.

Definition empty_phase_probabilities : Py.result (Py.dict Q) :=
  let phases := map fst PHASE_DEFINITIONS in
  match phases with
  | [] => Py.Raise Py.ZeroDivisionError
  | _ :: _ =>
      let baseline := 1.0 / inject_Z (Z.of_nat (length phases)) in
      Py.Ok (Py.dict_of_pairs (map (fun phase => (phase, baseline)) phases))
  end.

End Ranking.

(** ** [ml_pipeline/ranking.py] on IEEE binary64

    The same three functions on the floating-point numbers that Python
    computes with, to evaluate the scenario of the specification without
    the idealisation to rationals. *)

Module Binary64.
Local Open Scope float_scope.

Definition min (a b : float) : float := if PrimFloat.ltb b a then b else a.
Definition max (a b : float) : float := if PrimFloat.ltb a b then b else a.

Definition PHASE_WEIGHTS : gmap string float :=
  list_to_map
    [ ("pre_op", 0.2);
      ("port_setup", 0.4);
      ("exposure", 0.6);
      ("critical_dissection", 0.9);
      ("clip_and_divide", 1.0);
      ("closure", 0.5) ].

Definition OBJECT_PRIORITIES : gmap string float :=
  list_to_map
    [ ("cystic_duct", 1.0);
      ("cystic_artery", 1.0);
      ("common_bile_duct", 0.9);
      ("grasper", 0.6);
      ("hook", 0.5);
      ("scissors", 0.7);
      ("gallbladder", 0.8);
      ("liver", 0.4) ].

Definition calculate_phase_score (phase_probabilities : list (string * float)) : float :=
  let score :=
    fold_left
      (fun score '(phase, prob) =>
         let weight := default 0.3 (PHASE_WEIGHTS !! phase) in
         score + prob * weight)
      phase_probabilities 0.0 in
  min score 1.0.

Definition calculate_object_score (objects : list string) : float :=
  let total :=
    fold_left
      (fun total obj => total + default 0.2 (OBJECT_PRIORITIES !! obj))
      objects 0.0 in
  min total 3.0 / 3.0.

Definition compute_importance (quality_score phase_score object_score : float)
    (ai_bonus : option float) : float :=
  let ai_bonus := default 0.1 ai_bonus in
  let normalized_quality := quality_score / 100.0 in
  let combined :=
    0.4 * normalized_quality + 0.35 * phase_score + 0.25 * object_score
    + ai_bonus in
  max 0.0 (min 1.0 combined) * 100.0.

Definition scenario_phase_probabilities : list (string * float) :=
  [ ("pre_op", 0.0); ("port_setup", 0.0); ("exposure", 0.0);
    ("critical_dissection", 0.0); ("clip_and_divide", 1.0); ("closure", 0.0) ].

End Binary64.

(** ** [ml_pipeline/inference_service.py] *)

Module Inference.
Import Config Ranking.
Local Open Scope Q_scope.

(** *** Arrays and tensors *)

(** A NumPy array handed in by the caller: its [shape], its elements
    in row-major order, and the error with which [torch.from_numpy]
    refuses it, if it does: a [TypeError] for an element type that
    PyTorch does not have, a [ValueError] for a view with a negative
    stride, such as [frame[:, :, ::-1]]. *)
Record ndarray : Type := {
  nd_shape : list nat;
  nd_data : list Z;
  nd_torch_error : option Py.exn;
}.

(** A preprocessed frame.  Its shape is computed; its values are a
    function of the image it was made from and are only looked at by
    the two networks. *)
Record tensor : Type := {
  t_shape : list nat;
  t_image : ndarray;
}.

(** A segmentation mask: a two-dimensional array of class indices,
    given by its rows. *)
Abbreviation mask := (list (list Z)).


(** [seg_mask.size] *)
Definition size (m : mask) : nat := length (concat m).


(** [int((seg_mask == class_idx).sum())] *)
Definition count_eq (m : mask) (class_idx : Z) : nat :=
  length (filter (fun v => v = class_idx) (concat m)).

(** [a / b] on two [int]s. *)
Definition true_div (a b : nat) : Py.result Q :=
  if decide (b = 0%nat) then Py.Raise Py.ZeroDivisionError
  else Py.Ok (inject_Z (Z.of_nat a) / inject_Z (Z.of_nat b)).

(** *** Shapes under the tensor operations of [preprocess_image] *)

Definition permute_2_0_1 (s : list nat) : Py.result (list nat) :=
  match s with
  | [d0; d1; d2] => Py.Ok [d2; d0; d1]
  | _ => Py.Raise (Py.RuntimeError "permute: number of dims does not match")
  end.

Definition unsqueeze_0 (s : list nat) : list nat := 1%nat :: s.

(** [F.interpolate(t, size=(oh, ow), mode="bilinear")] takes a
    four-dimensional input with non-empty channel and spatial extents
    and positive output sizes. *)
Definition interpolate_bilinear (s : list nat) (oh ow : Z) : Py.result (list nat) :=
  match s with
  | [n; c; h; w] =>
      if decide (c ≠ 0 ∧ h ≠ 0 ∧ w ≠ 0 ∧ (0 < oh)%Z ∧ (0 < ow)%Z)%nat
      then Py.Ok [n; c; Z.to_nat oh; Z.to_nat ow]
      else Py.Raise (Py.RuntimeError "Input and output sizes should be greater than 0")
  | _ => Py.Raise (Py.ValueError "bilinear interpolation needs a 4D input")
  end.

Definition broadcast_dim (a b : nat) : Py.result nat :=
  if decide (a = b) then Py.Ok a
  else if decide (a = 1%nat) then Py.Ok b
  else if decide (b = 1%nat) then Py.Ok a
  else Py.Raise (Py.RuntimeError "The size of tensor a must match the size of tensor b").

(** Broadcasting aligns the trailing dimensions. *)
Fixpoint broadcast_rev (a b : list nat) : Py.result (list nat) :=
  match a, b with
  | [], _ => Py.Ok b
  | _, [] => Py.Ok a
  | x :: a', y :: b' =>
      d ← broadcast_dim x y; r ← broadcast_rev a' b'; Py.Ok (d :: r)
  end.

Definition broadcast (a b : list nat) : Py.result (list nat) :=
  r ← broadcast_rev (rev a) (rev b); Py.Ok (rev r).

(** *** The analyzer *)

(** The segmentation path of [analyze_frame] up to [seg_mask] (forward
    pass, resize of the logits to the input resolution, arg-max over
    the classes) and the phase path up to [phase_probs] (forward pass,
    softmax) are given by the loaded networks. *)
Definition segmentation_net : Type := tensor -> Py.result mask.
Definition phase_net : Type := tensor -> Py.result (list Q).

Record SurgicalSceneAnalyzer : Type := {
  config : TrainingConfig;
  device : string;
  segmentation_backend : string;
  segmentation_model : segmentation_net;
  phase_model : phase_net;
}.

(** [self.label_list], which the constructor sets to
    [list(PIXEL_VALUE_TO_LABEL.values())]. *)
Definition label_list : list string := map snd PIXEL_VALUE_TO_LABEL.

(** *** Construction *)

(** What the constructor asks of the file system and of the libraries. *)
Record World : Type := {
  path_exists : path -> bool;
  cuda_is_available : bool;
  (** [ENDOVIT_IMPORT_ERROR]; the optional dependency is present exactly
      when this is [None]. *)
  endovit_import_error : option Py.exn;
  (** [EndoVITSemanticSegmenter(num_classes, checkpoint_path, device)] *)
  EndoVITSemanticSegmenter : nat -> path -> string -> Py.result segmentation_net;
  (** The lines that this call prints before it returns or raises: those
      of [_load_checkpoint] about missing and unexpected keys, and
      whatever the EndoViT library prints. *)
  endovit_output : nat -> path -> string -> list string;
  (** [UNetSegmenter(num_classes).to(device)] *)
  UNetSegmenter : nat -> string -> Py.result segmentation_net;
  (** [PhaseClassifier(num_classes).to(device)] *)
  PhaseClassifier : nat -> string -> Py.result phase_net;
  (** [artifacts_dir.mkdir(parents=True, exist_ok=True)] *)
  mkdir : path -> Py.result ();
  (** [model.load_state_dict(torch.load(path, map_location)["model_state"])] *)
  load_segmentation_state : segmentation_net -> path -> string -> Py.result segmentation_net;
  load_phase_state : phase_net -> path -> string -> Py.result phase_net;
}.

Definition is_endovit_supported (w : World) : bool :=
  match endovit_import_error w with None => true | Some _ => false end.

Definition endovit_support_error (w : World) : string :=
  match endovit_import_error w with None => "None" | Some e => Py.str e end.

Definition segmentation_checkpoint (cfg : TrainingConfig) : path :=
  artifacts_dir cfg ++ "/segmentation_unet.pt".

Definition phase_checkpoint (cfg : TrainingConfig) : path :=
  artifacts_dir cfg ++ "/phase_classifier.pt".

(** The outcome of [_build_segmentation_model]: the returned network,
    the value it leaves in [self.segmentation_backend], and the lines
    printed during the call, by the function itself and by the
    constructor of the EndoViT model. *)
Record built : Type := {
  built_model : segmentation_net;
  built_backend : string;
  built_log : list string;
}.

Definition build_unet (w : World) (dev : string) (num_classes : nat)
    (log : list string) : Py.result built :=
  model ← UNetSegmenter w num_classes dev;
  Py.Ok {| built_model := model; built_backend := "unet"; built_log := log |}.

Definition _build_segmentation_model (w : World) (cfg : TrainingConfig)
    (dev : string) (num_classes : nat) : Py.result built :=
  match endovit_segmentation_checkpoint cfg with
  | Some ckpt =>
      if path_exists w ckpt then
        if is_endovit_supported w then
          let printed := endovit_output w num_classes ckpt dev in
          match EndoVITSemanticSegmenter w num_classes ckpt dev with
          | Py.Ok model =>
              Py.Ok {| built_model := model; built_backend := "endovit";
                       built_log := printed |}
          | Py.Raise exc =>
              build_unet w dev num_classes
                (app printed
                   ["[WARN] Failed to initialize EndoViT segmentation: " ++ Py.str exc])
          end
        else
          build_unet w dev num_classes
            ["[WARN] EndoViT checkpoint detected but dependencies are missing. "
             ++ endovit_support_error w]
      else build_unet w dev num_classes []
  | None => build_unet w dev num_classes []
  end.

Definition _load_weights (w : World) (cfg : TrainingConfig) (dev : string)
    (backend : string) (seg : segmentation_net) (ph : phase_net)
    : Py.result (segmentation_net * phase_net) :=
  seg' ← (if decide (backend = "unet") then
            if path_exists w (segmentation_checkpoint cfg)
            then load_segmentation_state w seg (segmentation_checkpoint cfg) dev
            else Py.Ok seg
          else Py.Ok seg);
  ph' ← (if path_exists w (phase_checkpoint cfg)
         then load_phase_state w ph (phase_checkpoint cfg) dev
         else Py.Ok ph);
  Py.Ok (seg', ph').

(** [device or ("cuda" if torch.cuda.is_available() else "cpu")]: [None]
    and the empty string are falsy. *)
Definition device_or_default (w : World) (dev : option string) : string :=
  match dev with
  | Some d => if decide (d = "") then (if cuda_is_available w then "cuda" else "cpu") else d
  | None => if cuda_is_available w then "cuda" else "cpu"
  end.

(** [SurgicalSceneAnalyzer(config, device)] for a given [config]; the
    second component is what the constructor printed. *)
Definition __init__ (w : World) (cfg : TrainingConfig) (dev : option string)
    : Py.result (SurgicalSceneAnalyzer * list string) :=
  let dev := device_or_default w dev in
  _ ← mkdir w (artifacts_dir cfg);
  let num_classes := length PIXEL_VALUE_TO_LABEL in
  b ← _build_segmentation_model w cfg dev num_classes;
  ph ← PhaseClassifier w (length PHASE_DEFINITIONS) dev;
  '(seg', ph') ← _load_weights w cfg dev (built_backend b) (built_model b) ph;
  Py.Ok ({| config := cfg; device := dev;
            segmentation_backend := built_backend b;
            segmentation_model := seg'; phase_model := ph' |},
         built_log b).

(** *** Per-frame analysis *)

(** [torch.from_numpy(image)] *)
Definition from_numpy (image : ndarray) : Py.result () :=
  match nd_torch_error image with
  | Some e => Py.Raise e
  | None => Py.Ok ()
  end.

Definition preprocess_image (self : SurgicalSceneAnalyzer) (image : ndarray)
    : Py.result tensor :=
  _ ← from_numpy image;
  let s := nd_shape image in
  s ← permute_2_0_1 s;
  s ← interpolate_bilinear (unsqueeze_0 s)
        (image_size (config self)) (image_size (config self));
  (* mean and std are viewed as (1, 3, 1, 1) *)
  s ← broadcast s [1; 3; 1; 1]%nat;
  s ← broadcast s [1; 3; 1; 1]%nat;
  Py.Ok {| t_shape := s; t_image := image |}.

Definition _phase_probabilities_dict (probs : list Q) : Py.result (Py.dict Q) :=
  let phases := map fst PHASE_DEFINITIONS in
  if decide (length probs ≠ length phases) then empty_phase_probabilities
  else Py.Ok (Py.dict_of_pairs (zip phases probs)).

Definition _summarize_objects (seg_mask : mask) : Py.result (list (string * Q)) :=
  let total_pixels := size seg_mask in
  let areas : Py.dict nat :=
    fold_left
      (fun areas '(class_idx, label) =>
         let count := count_eq seg_mask class_idx in
         if decide (count = 0%nat ∨ label = "background") then areas
         else Py.dict_set areas label count)
      (Py.enumerate label_list) [] in
  items ← Py.traverse
             (fun '(label, count) =>
                coverage ← true_div count total_pixels; Py.Ok (label, coverage))
             areas;
  let ranked := Py.sorted_reverse (fun item : string * Q => item.2) items in
  Py.Ok (take 5 ranked).

Record FrameRecord : Type := {
  phase : string;
  phase_probabilities : Py.dict Q;
  segmentation_mask : mask;
  detected_objects : list (string * Q);
  importance_score : Q;
  phase_score : Q;
  object_score : Q;
}.

Definition analyze_frame (self : SurgicalSceneAnalyzer) (image : ndarray)
    (quality_score : Q) : Py.result FrameRecord :=
  tensor ← preprocess_image self image;
  seg_mask ← segmentation_model self tensor;
  phase_probs ← phase_model self tensor;
  phase_prob_dict ← _phase_probabilities_dict phase_probs;
  phase_label ← Py.max_by_key (Py.dict_get phase_prob_dict) (Py.keys phase_prob_dict);
  detected_objects ← _summarize_objects seg_mask;
  let phase_score := calculate_phase_score phase_prob_dict in
  let object_score := calculate_object_score (map fst detected_objects) in
  let importance := compute_importance quality_score phase_score object_score None in
  Py.Ok {| phase := phase_label;
           phase_probabilities := phase_prob_dict;
           segmentation_mask := seg_mask;
           detected_objects := detected_objects;
           importance_score := importance;
           phase_score := phase_score;
           object_score := object_score |}.

(** *** Preview rendering *)

Abbreviation rgb := (Z * Z * Z)%type.
Abbreviation image := (list (list rgb)).









End Inference.

(** ** [_summarize_objects] on IEEE binary64

    The object summary with the coverages as the floating-point numbers
    that Python computes, to see what rounding does to their sum. *)

Module Binary64Summary.
Import Config Inference.
Local Open Scope float_scope.

(** [float(n)], exact for [n] below [2^53]. *)
Definition of_nat (n : nat) : float := PrimFloat.of_uint63 (Uint63.of_Z (Z.of_nat n)).

(** [a / b] on two [int]s: the quotient rounded to the nearest float;
    for operands below [2^53] this is the quotient of the two floats. *)
Definition true_div (a b : nat) : Py.result float :=
  if decide (b = 0%nat) then Py.Raise Py.ZeroDivisionError
  else Py.Ok (of_nat a / of_nat b).

Fixpoint insert_desc {A} (key : A -> float) (x : A) (l : list A) : list A :=
  match l with
  | [] => [x]
  | y :: l' =>
      if PrimFloat.ltb (key x) (key y)
      then y :: insert_desc key x l'
      else x :: y :: l'
  end.

Fixpoint sorted_reverse {A} (key : A -> float) (l : list A) : list A :=
  match l with
  | [] => []
  | x :: l' => insert_desc key x (sorted_reverse key l')
  end.

Definition _summarize_objects (seg_mask : mask) : Py.result (list (string * float)) :=
  let total_pixels := size seg_mask in
  let areas : Py.dict nat :=
    fold_left
      (fun areas '(class_idx, label) =>
         let count := count_eq seg_mask class_idx in
         if decide (count = 0%nat \/ label = "background") then areas
         else Py.dict_set areas label count)
      (Py.enumerate label_list) [] in
  items ← Py.traverse
             (fun '(label, count) =>
                coverage ← true_div count total_pixels; Py.Ok (label, coverage))
             areas;
  let ranked := sorted_reverse (fun item : string * float => item.2) items in
  Py.Ok (take 5 ranked).

(** [sum(values)] as Python adds floats: from left to right. *)
Definition sum (values : list float) : float := fold_left PrimFloat.add values 0.0.

(** The rational number that a finite float is. *)
Definition to_Q (x : float) : Q :=
  match Prim2SF x with
  | S754_finite s m e =>
      ((if s then -1 else 1) * inject_Z (Z.pos m) * Qpower 2 e)%Q
  | _ => 0%Q
  end.

(** A mask of thirteen pixels with 4, 3, 3, 2 and 1 pixels of the classes
    [1] to [5]. *)
Definition thirteen_pixels : mask := [[1; 1; 1; 1; 2; 2; 2; 3; 3; 3; 4; 4; 5]]%Z.

End Binary64Summary.

(** ** Notions used to state the properties of [inference_service.py] *)

Module InferenceSpec.
Import Config Ranking Inference.
Local Open Scope Q_scope.

(** The entry at [i] is maximal in [d] and strictly above every earlier
    entry: the arg-max with ties going to the first occurrence. *)
Definition first_argmax (d : Py.dict Q) (i : nat) (k : string) (p : Q) : Prop :=
  d !! i = Some (k, p) /\
  forall j kj pj, d !! j = Some (kj, pj) -> pj <= p /\ ((j < i)%nat -> pj < p).

(** The class index of a label: its position in the label taxonomy. *)
Definition class_index (label : string) : option nat :=
  fst <$> list_find (fun l => l = label) label_list.

Definition class_rank (label : string) : nat := default 0%nat (class_index label).

(** Larger key first; equal keys in the order of [rank]. *)
Definition before {A} (key : A -> Q) (rank : A -> nat) (a b : A) : Prop :=
  key b < key a \/ (key a == key b /\ (rank a < rank b)%nat).

(** [a] is listed before [b]: larger coverage first, equal coverage by
    ascending class index. *)
Definition ranked_before (a b : string * Q) : Prop :=
  before (fun item => item.2) (fun item => class_rank item.1) a b.

(** An entry [(label, coverage)] of an object summary of [seg_mask] that
    names a class other than the background with at least one pixel and
    carries its share of the pixels. *)
Definition reported (seg_mask : mask) (item : string * Q) : Prop :=
  exists idx : nat,
    class_index item.1 = Some idx /\
    label_list !! idx = Some item.1 /\
    item.1 <> "background" /\
    (0 < count_eq seg_mask (Z.of_nat idx))%nat /\
    item.2 = inject_Z (Z.of_nat (count_eq seg_mask (Z.of_nat idx)))
             / inject_Z (Z.of_nat (size seg_mask)) /\
    0 < item.2 <= 1.

(** What one round of the loop over [enumerate(self.label_list)] adds to
    [areas], and the pair that the generator makes of an entry. *)
Definition area_entry (seg_mask : mask) (x : Z * string) : option (string * nat) :=
  let count := count_eq seg_mask x.1 in
  if decide (count = 0%nat \/ x.2 = "background") then None else Some (x.2, count).

Definition with_coverage (seg_mask : mask) (x : string * nat) : string * Q :=
  (x.1, inject_Z (Z.of_nat x.2) / inject_Z (Z.of_nat (size seg_mask))).

Definition coverage_items (seg_mask : mask) : list (string * Q) :=
  map (with_coverage seg_mask) (omap (area_entry seg_mask) (Py.enumerate label_list)).






(** A frame as the contract wants it: height by width by three channels. *)
Definition well_formed_frame (s : list nat) : Prop :=
  exists h w : nat, s = [h; w; 3%nat].

(** The advanced backend is not used: no checkpoint is configured, or
    the configured file does not exist, or the optional dependency is
    missing, or building the model raises. *)
Definition endovit_unavailable (w : World) (cfg : TrainingConfig) (dev : string)
    (num_classes : nat) : Prop :=
  match endovit_segmentation_checkpoint cfg with
  | None => True
  | Some ckpt =>
      path_exists w ckpt = false \/
      is_endovit_supported w = false \/
      exists e, EndoVITSemanticSegmenter w num_classes ckpt dev = Py.Raise e
  end.

(** The uniform distribution over the phase taxonomy. *)
Definition uniform_phase_probabilities (d : Py.dict Q) : Prop :=
  Py.keys d = map fst PHASE_DEFINITIONS /\
  Forall (fun kv => kv.2 == 1 / inject_Z (Z.of_nat (length PHASE_DEFINITIONS))) d.

End InferenceSpec.

(** ** Concrete analyzers for the examples *)

Module Demo.
Import Config Ranking Inference.
Local Open Scope Q_scope.

Definition demo_config : TrainingConfig :=
  {| artifacts_dir := "ml_pipeline/artifacts";
     image_size := 512;
     endovit_segmentation_checkpoint := None |}.

(** One pixel in ten is [cystic_artery] (class index 4). *)
Definition demo_mask : mask := [[4; 0; 0; 0; 0]; [0; 0; 0; 0; 0]]%Z.

(** An analyzer whose networks answer every frame with [demo_mask] and
    with the given phase probabilities. *)
Definition demo_analyzer (probs : list Q) : SurgicalSceneAnalyzer :=
  {| config := demo_config;
     device := "cpu";
     segmentation_backend := "unet";
     segmentation_model := fun _ => Py.Ok demo_mask;
     phase_model := fun _ => Py.Ok probs |}.

Definition one_hot_clip_and_divide : list Q := [0.0; 0.0; 0.0; 0.0; 1.0; 0.0].

Definition rgb_frame : ndarray :=
  {| nd_shape := [480; 640; 3]%nat; nd_data := []; nd_torch_error := None |}.
Definition one_channel_frame : ndarray :=
  {| nd_shape := [480; 640; 1]%nat; nd_data := []; nd_torch_error := None |}.
Definition rgba_frame : ndarray :=
  {| nd_shape := [480; 640; 4]%nat; nd_data := []; nd_torch_error := None |}.
Definition flat_frame : ndarray :=
  {| nd_shape := [480; 640]%nat; nd_data := []; nd_torch_error := None |}.

(** A world without the optional dependency and without any file. *)
Definition bare_world : World :=
  {| path_exists := fun _ => false;
     cuda_is_available := false;
     endovit_import_error := Some (Py.RuntimeError "No module named 'ml_pipeline.external'");
     EndoVITSemanticSegmenter := fun _ _ _ =>
       Py.Raise (Py.RuntimeError "EndoViT dependencies are unavailable. ");
     endovit_output := fun _ _ _ => [];
     UNetSegmenter := fun _ _ => Py.Ok (fun _ => Py.Ok demo_mask);
     PhaseClassifier := fun _ _ => Py.Ok (fun _ => Py.Ok one_hot_clip_and_divide);
     mkdir := fun _ => Py.Ok ();
     load_segmentation_state := fun seg _ _ => Py.Ok seg;
     load_phase_state := fun ph _ _ => Py.Ok ph |}.

(** A world in which the checkpoint exists and the dependency is there,
    but the checkpoint cannot be loaded. *)
Definition corrupt_checkpoint_world : World :=
  {| path_exists := fun p => bool_decide (p = "ml_pipeline/artifacts/endovit_seg.pth");
     cuda_is_available := false;
     endovit_import_error := None;
     EndoVITSemanticSegmenter := fun _ _ _ =>
       Py.Raise (Py.RuntimeError "invalid load key");
     endovit_output := fun _ _ _ => [];
     UNetSegmenter := fun _ _ => Py.Ok (fun _ => Py.Ok demo_mask);
     PhaseClassifier := fun _ _ => Py.Ok (fun _ => Py.Ok one_hot_clip_and_divide);
     mkdir := fun _ => Py.Ok ();
     load_segmentation_state := fun seg _ _ => Py.Ok seg;
     load_phase_state := fun ph _ _ => Py.Ok ph |}.

Definition endovit_config : TrainingConfig :=
  {| artifacts_dir := "ml_pipeline/artifacts";
     image_size := 512;
     endovit_segmentation_checkpoint := Some "ml_pipeline/artifacts/endovit_seg.pth" |}.

End Demo.

(** ** [ml_pipeline/config.py]: [TrainingConfig.__post_init__] *)

Module ConfigInit.
Import Config Inference.

(** [__post_init__] on the two optional checkpoint fields; the second
    one, [endovit_phase_checkpoint], is read nowhere else and is carried
    beside the configuration. *)
Definition __post_init__ (w : World) (cfg : TrainingConfig)
    (endovit_phase_checkpoint : option path) : TrainingConfig * option path :=
  let seg :=
    match endovit_segmentation_checkpoint cfg with
    | None =>
        let candidate := artifacts_dir cfg ++ "/endovit_seg.pth" in
        if path_exists w candidate then Some candidate else None
    | Some p => Some p
    end in
  let ph :=
    match endovit_phase_checkpoint with
    | None =>
        let candidate := artifacts_dir cfg ++ "/endovit_phase.pth" in
        if path_exists w candidate then Some candidate else None
    | Some p => Some p
    end in
  ({| artifacts_dir := artifacts_dir cfg;
      image_size := image_size cfg;
      endovit_segmentation_checkpoint := seg |}, ph).

End ConfigInit.

(** ** [ml_pipeline/utils.py] *)

Module Utils.
Local Open Scope Q_scope.

Record AverageMeter : Type := {
  name : string;
  value : Q;
  sum : Q;
  count : Z;
}.

(** [AverageMeter(name)] *)
Definition new (name : string) : AverageMeter :=
  {| name := name; value := 0; sum := 0; count := 0 |}.

(** [update(val, n=1)]; [None] stands for a call that does not pass [n]. *)
Definition update (m : AverageMeter) (val : Q) (n : option Z) : AverageMeter :=
  let n := default 1%Z n in
  {| name := name m;
     value := val;
     sum := sum m + val * inject_Z n;
     count := (count m + n)%Z |}.

Definition avg (m : AverageMeter) : Q :=
  sum m / inject_Z (Z.max 1 (count m)).

End Utils.

(** ** [ml_pipeline/dataset.py] *)

Module Dataset.
Import Config Inference.
Local Open Scope Q_scope.

Record Sample : Type := {
  image_path : path;
  mask_path : path;
  video_id : string;
  frame_index : nat;
  phase : string;
}.

(** The loop of [_phase_from_progress] from a given value of
    [cumulative]: [Some name] is [return name] inside the loop, [None]
    is the loop running to its end. *)
Fixpoint phase_loop (progress cumulative : Q) (defs : list (string * Q))
    : option string :=
  match defs with
  | [] => None
  | (name, share) :: defs' =>
      let cumulative := cumulative + share in
      if Qlt_le_dec cumulative progress
      then phase_loop progress cumulative defs'
      else Some name
  end.

(** [None] is the [IndexError] of [PHASE_DEFINITIONS[-1]] on an empty
    table. *)
Definition _phase_from_progress (progress : Q) : option string :=
  match phase_loop progress 0 PHASE_DEFINITIONS with
  | Some name => Some name
  | None => fst <$> last PHASE_DEFINITIONS
  end.

(** The last loop of [_gather_samples]: the samples of one video, from
    its [(image_path, mask_path)] pairs in sorted order. *)
Fixpoint label_frames (video_id : string) (total : Z) (idx : nat)
    (frames : list (path * path)) : option (list Sample) :=
  match frames with
  | [] => Some []
  | (image_path, mask_path) :: frames' =>
      let progress := inject_Z (Z.of_nat idx) / inject_Z (Z.max 1 (total - 1)) in
      match _phase_from_progress progress, label_frames video_id total (S idx) frames' with
      | Some phase, Some samples =>
          Some ({| image_path := image_path; mask_path := mask_path;
                   video_id := video_id; frame_index := idx; phase := phase |}
                :: samples)
      | _, _ => None
      end
  end.

Definition video_samples (video_id : string) (frames : list (path * path))
    : option (list Sample) :=
  let total := Z.of_nat (length frames) in
  if decide (total = 0%Z) then Some [] else label_frames video_id total 0 frames.

(** [encoded[mask == pixel_value] = class_idx] *)
Definition assign_eq (encoded raw : mask) (pixel_value class_idx : Z) : mask :=
  zip_with
    (zip_with (fun e v => if decide (v = pixel_value) then class_idx else e))
    encoded raw.

(** [np.zeros_like(mask)] *)
Definition zeros_like (raw : mask) : mask := map (map (fun _ => 0%Z)) raw.

(** [_encode_mask(mask)], with [raw] for the argument [mask]. *)
Definition _encode_mask (raw : mask) : mask :=
  fold_left
    (fun encoded '(class_idx, (pixel_value, _)) =>
       assign_eq encoded raw pixel_value class_idx)
    (Py.enumerate PIXEL_VALUE_TO_LABEL) (zeros_like raw).

(** [int(x)] on a float: truncation towards zero. *)
Definition int (x : Q) : Z := Z.quot (Qnum x) (Z.pos (Qden x)).

(** The bound [i] of a slice of a sequence of length [len]: a negative
    bound counts from the end, and every bound is clipped to the
    sequence. *)
Definition slice_bound (len i : Z) : Z :=
  if decide (i < 0)%Z then Z.max 0 (i + len) else Z.min i len.

(** [l[start:stop]] *)
Definition slice {A} (l : list A) (start stop : Z) : list A :=
  let len := Z.of_nat (length l) in
  let a := slice_bound len start in
  let b := slice_bound len stop in
  take (Z.to_nat (b - a)) (drop (Z.to_nat a) l).

Record Splits : Type := {
  train : list string;
  val : list string;
  test : list string;
}.

(** The [splits] dictionary of [_prepare_split_file], from the sorted and
    shuffled video names and the two split fractions of the
    configuration. *)
Definition make_splits (videos : list string) (val_split test_split : Q) : Splits :=
  let n_total := Z.of_nat (length videos) in
  let n_test := Z.max 1 (int (inject_Z n_total * test_split)) in
  let n_val := Z.max 1 (int (inject_Z n_total * val_split)) in
  let n_train := Z.max 1 (n_total - n_val - n_test) in
  {| train := slice videos 0 n_train;
     val := slice videos n_train (n_train + n_val);
     test := slice videos (n_train + n_val) (n_train + n_val + n_test) |}.

End Dataset.

(** ** [process_video.py] *)

Module ProcessVideo.
Import Inference.

Definition N_H : nat := 256.
Definition N_W : nat := 256.
Definition FPS : nat := 25.

(** The Python values that [_ensure_frame_list] tells apart: an array,
    a list or a tuple of values, and any other value. *)
Inductive pyitem : Type :=
| Array (a : ndarray)
| NotArray.

Inductive pyobj : Type :=
| Item (x : pyitem)
| PyList (items : list pyitem)
| PyTuple (items : list pyitem).

Definition ndim (a : ndarray) : nat := length (nd_shape a).

(** [[frame for frame in frames]] on an array: its sub-arrays along the
    first axis. *)
Definition unstack (a : ndarray) : list ndarray :=
  match nd_shape a with
  | [] => []
  | n :: inner =>
      let step := foldr Nat.mul 1%nat inner in
      map (fun i => {| nd_shape := inner;
                       nd_data := take step (drop (i * step) (nd_data a));
                       nd_torch_error := nd_torch_error a |})
          (seq 0 n)
  end.

(** The loop over [enumerate(frames_list)]. *)
Fixpoint check_frames (idx : nat) (frames_list : list pyitem) : Py.result () :=
  match frames_list with
  | [] => Py.Ok ()
  | Array a :: rest =>
      if decide (ndim a ≠ 3%nat)
      then Py.Raise (Py.ValueError ("Frame at index " ++ pretty idx ++ " must have rank 3."))
      else check_frames (S idx) rest
  | NotArray :: _ =>
      Py.Raise (Py.TypeError ("Frame at index " ++ pretty idx ++ " is not a numpy array."))
  end.

Definition _ensure_frame_list (frames : pyobj) : Py.result (list pyitem) :=
  frames_list ←
    match frames with
    | Item (Array a) =>
        if decide (ndim a = 3%nat) then Py.Ok [Array a]
        else if decide (ndim a = 4%nat) then Py.Ok (map Array (unstack a))
        else Py.Raise (Py.ValueError "Numpy frame input must have rank 3 or 4.")
    | PyList items | PyTuple items => Py.Ok items
    | Item NotArray =>
        Py.Raise (Py.TypeError "Frames must be a path, numpy array, or list/tuple of arrays.")
    end;
  match frames_list with
  | [] => Py.Raise (Py.ValueError "No frames provided for preprocessing.")
  | _ :: _ => _ ← check_frames 0 frames_list; Py.Ok frames_list
  end.

(** [w_left] and [w_right] of [preprocess], from the height and width of
    the first frame. *)
Definition crop_bounds (h_in w_in : nat) : Z * Z :=
  let center := (inject_Z (Z.of_nat w_in) / 2)%Q in
  let radius := (inject_Z (Z.of_nat h_in) / 2)%Q in
  (Dataset.int (center - radius)%Q, Dataset.int (center + radius)%Q).

(** The columns that [f[:, w_left:w_right, ::-1]] keeps of a frame that
    is [w] pixels wide. *)
Definition kept_columns (h_in w_in : nat) (w : nat) : list nat :=
  let '(w_left, w_right) := crop_bounds h_in w_in in
  Dataset.slice (seq 0 w) w_left w_right.

(** The loop of [extract_raw_frames] over what [vidcap.read()] returns
    from now on, with the current [count] and [res]. *)
Fixpoint read_loop {F} (count : nat) (reads : list (bool * option F))
    (res : list F) : list F :=
  match reads with
  | [] => res
  | (flag, frame) :: reads' =>
      match frame with
      | Some f =>
          let res := if decide (count mod FPS = 0)%nat then (res ++ [f])%list else res in
          if flag then read_loop (S count) reads' res else res
      | None => res
      end
  end.

(** A capture of the frames [video] answers [(True, frame)] for each of
    them and [(False, None)] afterwards. *)
Definition extract_raw_frames {F} (video : list F) : list F :=
  read_loop 0 (map (fun f => (true, Some f)) video ++ [(false, None)]) [].

End ProcessVideo.

(** ** The frame loop of [segmentation_phase_inference_fixed.py] *)

Module FrameLoop.
Import Inference.

Definition FRAME_SKIP : nat := 30.
Definition MAX_FRAMES : nat := 300.

(** The [while True] loop over the frames that [vidcap.read()] still
    delivers; [frame_numbers] and [results] are kept as one list of
    pairs. *)
Fixpoint process (analyzer : SurgicalSceneAnalyzer) (frames : list ndarray)
    (frame_count processed_count : nat) (results : list (nat * FrameRecord))
    : Py.result (list (nat * FrameRecord)) :=
  match frames with
  | [] => Py.Ok results
  | frame :: frames' =>
      if decide (frame_count mod FRAME_SKIP = 0)%nat then
        analysis ← analyze_frame analyzer frame 90.0%Q;
        let results := (results ++ [(frame_count, analysis)])%list in
        let processed_count := S processed_count in
        if decide (MAX_FRAMES ≠ 0 ∧ MAX_FRAMES ≤ processed_count)%nat
        then Py.Ok results
        else process analyzer frames' (S frame_count) processed_count results
      else process analyzer frames' (S frame_count) processed_count results
  end.

Definition process_video (analyzer : SurgicalSceneAnalyzer) (frames : list ndarray)
    : Py.result (list (nat * FrameRecord)) :=
  process analyzer frames 0 0 [].

End FrameLoop.

(** ** Further notions and examples *)

Module ExtraSpec.
Import Config Ranking Inference.
Local Open Scope Q_scope.

(** The class indices other than the background that have a pixel in the
    mask. *)
Definition present_classes (seg_mask : mask) : list nat :=
  filter (fun idx => (0 < count_eq seg_mask (Z.of_nat idx))%nat)
         (seq 1 (length label_list - 1)).

(** The class index that the pixel code [v] of a raw mask stands for. *)
Definition class_of_code (v : Z) : Z :=
  match list_find (fun kv : Z * string => kv.1 = v) PIXEL_VALUE_TO_LABEL with
  | Some (idx, _) => Z.of_nat idx
  | None => 0%Z
  end.

(** The lines that the constructor of the EndoViT model prints during
    backend selection: it is called when the checkpoint is configured
    and exists and the dependency is there. *)
Definition endovit_lines (w : World) (cfg : TrainingConfig) (dev : string)
    (num_classes : nat) : list string :=
  match endovit_segmentation_checkpoint cfg with
  | Some ckpt =>
      if path_exists w ckpt then
        if is_endovit_supported w then endovit_output w num_classes ckpt dev else []
      else []
  | None => []
  end.

(** The position of a phase in the taxonomy. *)
Definition phase_index (phase : string) : option nat :=
  fst <$> list_find (fun kv : string * Q => kv.1 = phase) PHASE_DEFINITIONS.

(** A frame with the channel axis reversed by slicing, [frame[:, :, ::-1]]:
    a view with a negative stride. *)
Definition flipped_frame : ndarray :=
  {| nd_shape := [480; 640; 3]%nat;
     nd_data := [];
     nd_torch_error :=
       Some (Py.ValueError "At least one stride in the given numpy array is negative") |}.

(** A world in which the EndoViT checkpoint exists and loads, with one
    key of the network missing from it. *)
Definition endovit_world : World :=
  {| path_exists := fun p => bool_decide (p = "ml_pipeline/artifacts/endovit_seg.pth");
     cuda_is_available := false;
     endovit_import_error := None;
     EndoVITSemanticSegmenter := fun _ _ _ => Py.Ok (fun _ => Py.Ok [[1; 1]]%Z);
     endovit_output := fun _ _ _ =>
       ["[EndoViT] Missing keys while loading: ['scratch.output_conv.4.bias']"];
     UNetSegmenter := fun _ _ => Py.Raise (Py.RuntimeError "out of memory");
     PhaseClassifier := fun _ _ => Py.Ok (fun _ => Py.Ok Demo.one_hot_clip_and_divide);
     mkdir := fun _ => Py.Ok ();
     load_segmentation_state := fun _ _ _ => Py.Raise (Py.RuntimeError "size mismatch");
     load_phase_state := fun ph _ _ => Py.Ok ph |}.

(** A world in which the UNet checkpoint exists and cannot be loaded. *)
Definition bad_unet_weights_world : World :=
  {| path_exists := fun p => bool_decide (p = "ml_pipeline/artifacts/segmentation_unet.pt");
     cuda_is_available := false;
     endovit_import_error := None;
     EndoVITSemanticSegmenter := fun _ _ _ => Py.Raise (Py.RuntimeError "no checkpoint");
     endovit_output := fun _ _ _ => [];
     UNetSegmenter := fun _ _ => Py.Ok (fun _ => Py.Ok Demo.demo_mask);
     PhaseClassifier := fun _ _ => Py.Ok (fun _ => Py.Ok Demo.one_hot_clip_and_divide);
     mkdir := fun _ => Py.Ok ();
     load_segmentation_state := fun _ _ _ => Py.Raise (Py.RuntimeError "size mismatch");
     load_phase_state := fun ph _ _ => Py.Ok ph |}.

End ExtraSpec.

(** ** Notions used to state the properties of [ranking.py] *)

Module RankingSpec.
Import Config Ranking.
Local Open Scope Q_scope.

(** The scenario of the specification. *)
Definition scenario_phase_probabilities : Py.dict Q :=
  [ ("pre_op", 0.0); ("port_setup", 0.0); ("exposure", 0.0);
    ("critical_dissection", 0.0); ("clip_and_divide", 1.0); ("closure", 0.0) ].

Definition scenario_detected_objects : list (string * Q) :=
  [ ("cystic_artery", 0.1) ].

Definition scenario_quality_score : Q := 80.

(** The scoring formulas in the words of the specification. *)
Definition weight (phase : string) : Q := default 0.3 (PHASE_WEIGHTS !! phase).
Definition priority (label : string) : Q := default 0.2 (OBJECT_PRIORITIES !! label).

Fixpoint Qsum (l : list Q) : Q :=
  match l with
  | [] => 0
  | x :: l' => x + Qsum l'
  end.

Definition clamp01 (x : Q) : Q := Qmax 0 (Qmin 1 x).

Definition spec_phase_score (phase_probabilities : Py.dict Q) : Q :=
  Qmin 1 (Qsum (map (fun '(phase, prob) => prob * weight phase) phase_probabilities)).

Definition spec_object_score (labels : list string) : Q :=
  Qmin 3 (Qsum (map priority (remove_dups labels))) / 3.

Definition spec_importance (quality_score phase_score object_score : Q) : Q :=
  clamp01 (0.4 * (quality_score / 100) + 0.35 * phase_score
           + 0.25 * object_score + 0.1) * 100.

End RankingSpec.

(** * Properties *)

(** ** Scoring *)

(** Division by a constant becomes multiplication by its inverse. *)
Ltac q_inv_consts :=
  repeat match goal with
         | |- context [Qinv (Qmake ?n ?d)] =>
             let v := eval vm_compute in (Qinv (Qmake n d)) in
             change (Qinv (Qmake n d)) with v in *
         | H : context [Qinv (Qmake ?n ?d)] |- _ =>
             let v := eval vm_compute in (Qinv (Qmake n d)) in
             change (Qinv (Qmake n d)) with v in *
         end.

(** Every [Qmin] and [Qmax] becomes a variable constrained by its
    specification. *)
Ltac q_name_minmax :=
  repeat match goal with
         | |- context [Qmin ?a ?b] =>
             let m := fresh "m" in
             pose proof (Q.min_spec a b); set (m := Qmin a b) in *; clearbody m
         | |- context [Qmax ?a ?b] =>
             let m := fresh "m" in
             pose proof (Q.max_spec a b); set (m := Qmax a b) in *; clearbody m
         | H : context [Qmin ?a ?b] |- _ =>
             let m := fresh "m" in
             pose proof (Q.min_spec a b); set (m := Qmin a b) in *; clearbody m
         | H : context [Qmax ?a ?b] |- _ =>
             let m := fresh "m" in
             pose proof (Q.max_spec a b); set (m := Qmax a b) in *; clearbody m
         end.

(** Case analysis on every [min] and [max] in sight, then linear
    arithmetic. *)
Ltac q_cases :=
  unfold Py.min, Py.max, Qdiv in *;
  q_inv_consts;
  q_name_minmax;
  repeat match goal with
         | |- context [Qlt_le_dec ?a ?b] => destruct (Qlt_le_dec a b)
         | H : context [Qlt_le_dec ?a ?b] |- _ => destruct (Qlt_le_dec a b)
         | H : _ \/ _ |- _ => destruct H
         | H : _ /\ _ |- _ => destruct H
         end;
  try lra.

Section RankingFacts.
Import Config Ranking RankingSpec.
Local Open Scope Q_scope.

Lemma py_min_Qmin a b : Py.min a b == Qmin a b.
Proof.
  unfold Py.min. destruct (Qlt_le_dec b a) as [Hlt | Hle].
  - symmetry. apply Q.min_r. lra.
  - symmetry. apply Q.min_l. exact Hle.
Qed.

Lemma py_max_Qmax a b : Py.max a b == Qmax a b.
Proof.
  unfold Py.max. destruct (Qlt_le_dec a b) as [Hlt | Hle].
  - symmetry. apply Q.max_r. lra.
  - symmetry. apply Q.max_l. exact Hle.
Qed.

Lemma sum_loop {A} (step : Q -> A -> Q) (f : A -> Q) (l : list A) (acc : Q) :
  (forall acc x, step acc x == acc + f x) ->
  fold_left step l acc == acc + Qsum (map f l).
Proof.
  intros Hstep. revert acc.
  induction l as [| x l IH]; intros acc; simpl.
  - lra.
  - rewrite IH, Hstep. lra.
Qed.

Lemma remove_dups_NoDup (l : list string) : NoDup l -> remove_dups l = l.
Proof.
  induction 1 as [| x l Hx Hl IH]; simpl; [reflexivity |].
  destruct (decide_rel elem_of x l) as [Hin | _]; [contradiction |].
  now rewrite IH.
Qed.

Lemma phase_score_sum (d : Py.dict Q) :
  calculate_phase_score d
  == Py.min (Qsum (map (fun '(phase, prob) => prob * weight phase) d)) 1.0.
Proof.
  unfold calculate_phase_score. cbv zeta.
  match goal with
  | |- context [fold_left ?step d 0] =>
      pose proof (sum_loop step (fun '(phase, prob) => prob * weight phase) d 0) as Hs;
      set (a := fold_left step d 0) in *
  end.
  set (b := Qsum _) in *.
  assert (Hab : a == 0 + b).
  { apply Hs. intros acc [phase prob]. reflexivity. }
  clear Hs. q_cases.
Qed.

Lemma object_score_sum (labels : list string) :
  calculate_object_score labels == Py.min (Qsum (map priority labels)) 3.0 / 3.0.
Proof.
  unfold calculate_object_score. cbv zeta.
  match goal with
  | |- context [fold_left ?step labels 0] =>
      pose proof (sum_loop step priority labels 0) as Hs;
      set (a := fold_left step labels 0) in *
  end.
  set (b := Qsum _) in *.
  assert (Hab : a == 0 + b).
  { apply Hs. intros acc x. reflexivity. }
  clear Hs. q_cases.
Qed.

End RankingFacts.

Section RankingTheorems.
Import Config Ranking RankingSpec.
Local Open Scope Q_scope.

(** C1 as the specification words it: in the scenario the importance
    would saturate at [100].  It does not: the weighted sum is
    [0.32 + 0.35 + 0.0833.. + 0.1 = 0.8533..], below the cap. *)
Lemma scenario_importance_is_not_100 :
  ~ (let phase_score := calculate_phase_score scenario_phase_probabilities in
     let object_score := calculate_object_score (map fst scenario_detected_objects) in
     phase_score == 1.0 /\
     object_score == Qmin 1.0 3.0 / 3.0 /\
     compute_importance scenario_quality_score phase_score object_score None == 100.0).
Proof.
  intros (_ & _ & H). vm_compute in H. discriminate H.
Qed.

(** C1 (amended): for [phase_probabilities = {"clip_and_divide": 1.0,
    others: 0.0}], [detected_objects = [("cystic_artery", 0.1)]] and
    [quality_score = 80] the scoring engine produces [phase_score = 1],
    [object_score = min(1, 3) / 3 = 1/3] and
    [importance_score = (0.4*0.8 + 0.35*1 + 0.25*(1/3) + 0.1) * 100
    = 256/3], about [85.33]; the clamp leaves the sum unchanged. *)
Theorem scenario_exact_scores :
  let phase_score := calculate_phase_score scenario_phase_probabilities in
  let object_score := calculate_object_score (map fst scenario_detected_objects) in
  let importance :=
    compute_importance scenario_quality_score phase_score object_score None in
  phase_score == 1.0 /\
  object_score == Qmin 1.0 3.0 / 3.0 /\
  object_score == 1 # 3 /\
  importance == (0.4 * 0.8 + 0.35 * 1.0 + 0.25 * (1 # 3) + 0.1) * 100 /\
  importance == 256 # 3 /\
  importance < 100.
Proof.
  vm_compute. repeat split; reflexivity.
Qed.

(** The scenario on binary64: the same scores up to rounding, and an
    importance of [85.33...], not [100.0]. *)
Example scenario_binary64 :
  let phase_score := Binary64.calculate_phase_score Binary64.scenario_phase_probabilities in
  let object_score := Binary64.calculate_object_score ["cystic_artery"] in
  let importance := Binary64.compute_importance 80 phase_score object_score None in
  phase_score = 1.0%float /\
  object_score = 0.33333333333333331%float /\
  importance = 85.333333333333343%float /\
  PrimFloat.ltb importance 100 = true.
Proof. vm_compute. repeat split; reflexivity. Qed.

(** The scoring functions against the formulas of the specification,
    for labels that are pairwise distinct. *)
Lemma scores_match_formulas (phase_probabilities : Py.dict Q)
    (detected_objects : list (string * Q)) (quality_score : Q) :
  NoDup (map fst detected_objects) ->
  let phase_score := calculate_phase_score phase_probabilities in
  let object_score := calculate_object_score (map fst detected_objects) in
  phase_score == spec_phase_score phase_probabilities /\
  object_score == spec_object_score (map fst detected_objects) /\
  compute_importance quality_score phase_score object_score None
  == spec_importance quality_score
       (spec_phase_score phase_probabilities)
       (spec_object_score (map fst detected_objects)).
Proof.
  intros Hnd. cbv zeta.
  pose proof (phase_score_sum phase_probabilities) as Hp.
  pose proof (object_score_sum (map fst detected_objects)) as Ho.
  unfold spec_phase_score, spec_object_score, spec_importance, clamp01.
  rewrite (remove_dups_NoDup _ Hnd).
  set (ps := calculate_phase_score _) in *.
  set (os := calculate_object_score _) in *.
  set (sp := Qsum (map _ phase_probabilities)) in *.
  set (so := Qsum (map priority _)) in *.
  unfold compute_importance. cbv zeta. simpl default.
  assert (Hps : ps == Qmin 1 sp) by (revert Hp; q_cases).
  assert (Hos : os == Qmin 3 so / 3) by (revert Ho; q_cases).
  split; [exact Hps |]. split; [exact Hos |].
  rewrite <- Hps, <- Hos.
  clearbody ps os. clear. q_cases.
Qed.

(** C9: [compute_importance] is non-decreasing in the quality score, in
    the phase score and in the object score, each with the other
    arguments fixed, and its result lies in [[0, 100]] for every
    rational quality score, also a negative one or one above [100]. *)
Theorem compute_importance_monotone_bounded
    (q1 q2 p1 p2 o1 o2 : Q) (ai_bonus : option Q) :
  (q1 <= q2 ->
   compute_importance q1 p1 o1 ai_bonus <= compute_importance q2 p1 o1 ai_bonus) /\
  (p1 <= p2 ->
   compute_importance q1 p1 o1 ai_bonus <= compute_importance q1 p2 o1 ai_bonus) /\
  (o1 <= o2 ->
   compute_importance q1 p1 o1 ai_bonus <= compute_importance q1 p1 o2 ai_bonus) /\
  0 <= compute_importance q1 p1 o1 ai_bonus <= 100.
Proof.
  unfold compute_importance. cbv zeta.
  set (b := default 0.1 ai_bonus). clearbody b.
  split; [intros Hle; q_cases |].
  split; [intros Hle; q_cases |].
  split; [intros Hle; q_cases |].
  split; q_cases.
Qed.

Lemma compute_importance_monotone_bounded_witness :
  compute_importance (-50) 0.5 0.5 None <= compute_importance 250 0.5 0.5 None /\
  compute_importance (-50) 0.5 0.5 None <= compute_importance (-50) 0.9 0.5 None /\
  compute_importance (-50) 0.5 0.5 None <= compute_importance (-50) 0.5 1 None /\
  0 <= compute_importance (-50) 0.5 0.5 None <= 100.
Proof.
  destruct (compute_importance_monotone_bounded (-50) 250 0.5 0.9 0.5 1 None)
    as (Hq & Hp & Ho & Hb).
  split; [apply Hq; vm_compute; discriminate |].
  split; [apply Hp; vm_compute; discriminate |].
  split; [apply Ho; vm_compute; discriminate |].
  exact Hb.
Defined.

End RankingTheorems.


(** ** Dictionaries, [max] and the error monad *)

Section PyFacts.
Import InferenceSpec.
Local Open Scope list_scope.
Local Open Scope Q_scope.

Lemma bind_Ok_inv {A B} (r : Py.result A) (k : A -> Py.result B) (b : B) :
  r ≫= k = Py.Ok b -> exists a, r = Py.Ok a /\ k a = Py.Ok b.
Proof.
  destruct r as [a | e]; simpl; intros H; [eauto | discriminate H].
Qed.

Lemma bind_Ok {A B} (r : Py.result A) (k : A -> Py.result B) (a : A) :
  r = Py.Ok a -> r ≫= k = k a.
Proof. intros ->. reflexivity. Qed.

Lemma bind_Raise {A B} (r : Py.result A) (k : A -> Py.result B) (e : Py.exn) :
  r = Py.Raise e -> r ≫= k = Py.Raise e.
Proof. intros ->. reflexivity. Qed.

Lemma dict_set_fresh {V} (d : Py.dict V) (k : string) (v : V) :
  k ∉ Py.keys d -> Py.dict_set d k v = d ++ [(k, v)].
Proof.
  induction d as [| [k' v'] d IH]; simpl; intros Hk; [reflexivity |].
  apply not_elem_of_cons in Hk as [Hne Hk].
  destruct (decide (k' = k)) as [-> | _]; [contradiction |].
  now rewrite IH.
Qed.

Lemma dict_fill_NoDup {V} (pairs : list (string * V)) (d : Py.dict V) :
  NoDup (Py.keys d ++ map fst pairs) ->
  fold_left (fun d kv => Py.dict_set d kv.1 kv.2) pairs d = d ++ pairs.
Proof.
  revert d. induction pairs as [| [k v] pairs IH]; intros d Hnd; simpl.
  - now rewrite app_nil_r.
  - simpl in Hnd. rewrite dict_set_fresh.
    + rewrite IH.
      * now rewrite <- app_assoc.
      * unfold Py.keys in *. rewrite map_app. simpl.
        now rewrite <- app_assoc.
    + apply NoDup_app in Hnd as (_ & Hdisj & _).
      intros Hin. apply (Hdisj k Hin). apply elem_of_cons. now left.
Qed.

Lemma dict_of_pairs_NoDup {V} (pairs : list (string * V)) :
  NoDup (map fst pairs) -> Py.dict_of_pairs pairs = pairs.
Proof.
  intros Hnd. unfold Py.dict_of_pairs. now rewrite dict_fill_NoDup.
Qed.

Lemma dict_get_lookup {V} (d : Py.dict V) (i : nat) (k : string) (v : V) :
  NoDup (Py.keys d) -> d !! i = Some (k, v) -> Py.dict_get d k = Some v.
Proof.
  revert i. induction d as [| [k' v'] d IH]; intros i Hnd Hi; [discriminate Hi |].
  simpl in Hnd. apply NoDup_cons in Hnd as [Hk' Hnd]. simpl.
  destruct i as [| i]; simpl in Hi.
  - injection Hi as -> ->. now rewrite decide_True.
  - destruct (decide (k' = k)) as [-> | _]; [| now apply (IH i)].
    exfalso. apply Hk'. apply list_elem_of_lookup_2 in Hi.
    apply (list_elem_of_fmap_2 fst) in Hi. exact Hi.
Qed.

Lemma max_loop_first_argmax (get : string -> option Q) (rest seen : Py.dict Q)
    (i : nat) (best : string) (best_key : Q) :
  Forall (fun kv => get kv.1 = Some kv.2) rest ->
  first_argmax seen i best best_key ->
  exists i' k p,
    Py.max_loop get best best_key (Py.keys rest) = Py.Ok k /\
    first_argmax (seen ++ rest) i' k p.
Proof.
  revert seen i best best_key.
  induction rest as [| [k v] rest IH]; intros seen i best best_key Hget Hbest.
  - exists i, best, best_key. rewrite app_nil_r. now split.
  - apply Forall_cons in Hget as [Hk Hget]. simpl in Hk. simpl. rewrite Hk.
    destruct Hbest as [Hi Hmax].
    assert (Hlen : (i < length seen)%nat) by (eapply lookup_lt_Some; eauto).
    replace (seen ++ (k, v) :: rest) with ((seen ++ [(k, v)]) ++ rest)
      by now rewrite <- app_assoc.
    destruct (Qlt_le_dec best_key v) as [Hlt | Hle].
    + apply (IH (seen ++ [(k, v)]) (length seen)); [exact Hget |]. split.
      * rewrite lookup_app_r by lia. now rewrite Nat.sub_diag.
      * intros j kj pj Hj.
        destruct (decide (j < length seen)%nat) as [Hjs | Hjs].
        -- rewrite lookup_app_l in Hj by exact Hjs.
           destruct (Hmax j kj pj Hj) as [Hle' _]. split; [lra |]. intros _. lra.
        -- rewrite lookup_app_r in Hj by lia.
           destruct (j - length seen)%nat as [| n] eqn:Hn; simpl in Hj;
             [| destruct n; discriminate Hj].
           injection Hj as _ <-. split; [lra | lia].
    + apply (IH (seen ++ [(k, v)]) i); [exact Hget |]. split.
      * rewrite lookup_app_l by exact Hlen. exact Hi.
      * intros j kj pj Hj.
        destruct (decide (j < length seen)%nat) as [Hjs | Hjs].
        -- rewrite lookup_app_l in Hj by exact Hjs. now apply (Hmax j kj).
        -- rewrite lookup_app_r in Hj by lia.
           destruct (j - length seen)%nat as [| n] eqn:Hn; simpl in Hj;
             [| destruct n; discriminate Hj].
           injection Hj as _ <-. split; [lra | lia].
Qed.

Lemma max_by_key_first_argmax (d : Py.dict Q) :
  d <> [] -> NoDup (Py.keys d) ->
  exists i k p,
    Py.max_by_key (Py.dict_get d) (Py.keys d) = Py.Ok k /\ first_argmax d i k p.
Proof.
  intros Hne Hnd. destruct d as [| [k v] rest]; [contradiction |].
  assert (Hget : Forall (fun kv => Py.dict_get ((k, v) :: rest) kv.1 = Some kv.2)
                   ((k, v) :: rest)).
  { apply Forall_lookup. intros i [ki vi] Hi. now apply (dict_get_lookup _ i). }
  apply Forall_cons in Hget as [Hk Hrest].
  unfold Py.max_by_key. cbn [Py.keys map fst]. cbn [fst snd] in Hk. rewrite Hk.
  apply (max_loop_first_argmax _ rest [(k, v)] 0%nat k v Hrest).
  split; [reflexivity |].
  intros [| j] kj pj Hj; simpl in Hj; [| discriminate Hj].
  injection Hj as _ <-. split; [lra | lia].
Qed.

End PyFacts.


(** ** Stable descending sort *)

Section StableSort.
Context {A : Type} (key : A -> Q) (rank : A -> nat).
Local Open Scope list_scope.
Local Open Scope Q_scope.

Local Abbreviation before := (InferenceSpec.before key rank).

Lemma before_key_le a b : before a b -> key b <= key a.
Proof. intros [Hlt | [Heq _]]; lra. Qed.

Lemma insert_desc_Permutation x l : Py.insert_desc key x l ≡ₚ x :: l.
Proof.
  induction l as [| y l IH]; simpl; [reflexivity |].
  destruct (Qlt_le_dec (key x) (key y)); [| reflexivity].
  rewrite IH. apply perm_swap.
Qed.

Lemma sorted_reverse_Permutation l : Py.sorted_reverse key l ≡ₚ l.
Proof.
  induction l as [| x l IH]; simpl; [reflexivity |].
  rewrite insert_desc_Permutation. now rewrite IH.
Qed.

Lemma insert_desc_sorted x l :
  StronglySorted before l ->
  Forall (fun y => (rank x < rank y)%nat) l ->
  StronglySorted before (Py.insert_desc key x l).
Proof.
  induction l as [| y l IH]; intros Hs Hr; simpl.
  - repeat constructor.
  - apply StronglySorted_inv in Hs as [Hs Hy].
    apply Forall_cons in Hr as [Hxy Hr].
    destruct (Qlt_le_dec (key x) (key y)) as [Hlt | Hle].
    + constructor; [now apply IH |].
      rewrite insert_desc_Permutation. constructor; [now left | exact Hy].
    + constructor; [now constructor |].
      constructor.
      * destruct (Qlt_le_dec (key y) (key x)) as [Hlt | Hle'];
          [now left | right; split; [lra | exact Hxy]].
      * rewrite Forall_forall in Hy, Hr |- *. intros z Hz.
        pose proof (before_key_le _ _ (Hy z Hz)) as Hzy.
        destruct (Qlt_le_dec (key z) (key x)) as [Hlt | Hle'];
          [now left | right; split; [lra | now apply Hr]].
Qed.

Lemma sorted_reverse_sorted l :
  StronglySorted (fun a b => (rank a < rank b)%nat) l ->
  StronglySorted before (Py.sorted_reverse key l).
Proof.
  induction l as [| x l IH]; intros Hs; simpl; [constructor |].
  apply StronglySorted_inv in Hs as [Hs Hx].
  apply insert_desc_sorted; [now apply IH |].
  now rewrite sorted_reverse_Permutation.
Qed.

Lemma StronglySorted_take (R : A -> A -> Prop) (n : nat) (l : list A) :
  StronglySorted R l -> StronglySorted R (take n l).
Proof.
  intros Hs. revert n. induction Hs as [| x l Hs IH Hx]; intros [| n]; simpl;
    try constructor; [apply IH | now apply Forall_take].
Qed.

End StableSort.


(** ** The object summarizer *)

Section Summarizer.
Import Config Ranking RankingSpec Inference InferenceSpec.
Local Open Scope list_scope.
Local Open Scope Q_scope.

Variable seg_mask : mask.

Local Abbreviation area_entry := (InferenceSpec.area_entry seg_mask).
Local Abbreviation with_coverage := (InferenceSpec.with_coverage seg_mask).

Lemma areas_loop (step : Py.dict nat -> Z * string -> Py.dict nat)
    (el : list (Z * string)) (areas : Py.dict nat) :
  (forall areas x,
      step areas x = match area_entry x with
                     | None => areas
                     | Some (label, count) => Py.dict_set areas label count
                     end) ->
  NoDup (Py.keys areas ++ map snd el) ->
  fold_left step el areas = areas ++ omap area_entry el.
Proof.
  intros Hstep. revert areas.
  induction el as [| [idx label] el IH]; intros areas Hnd; simpl.
  - now rewrite app_nil_r.
  - assert (Hnd' : NoDup (Py.keys areas ++ map snd el)).
    { apply NoDup_app in Hnd as (Ha & Hdisj & Hel). simpl in Hel.
      apply NoDup_cons in Hel as [_ Hel].
      apply NoDup_app. repeat split; [exact Ha | | exact Hel].
      intros k Hk Hin. apply (Hdisj k Hk). simpl. apply elem_of_cons. now right. }
    rewrite Hstep. destruct (area_entry (idx, label)) as [[label' count] |] eqn:He.
    + unfold InferenceSpec.area_entry in He. simpl in He.
      destruct (decide _) as [_ | _]; [discriminate He |].
      injection He as <- <-.
      assert (Hfresh : label ∉ Py.keys areas).
      { apply NoDup_app in Hnd as (_ & Hdisj & _). intros Hin.
        apply (Hdisj label Hin). simpl. apply elem_of_cons. now left. }
      rewrite dict_set_fresh by exact Hfresh.
      rewrite IH.
      * now rewrite <- app_assoc.
      * unfold Py.keys in *. rewrite map_app. simpl. rewrite <- app_assoc. exact Hnd.
    + now apply IH.
Qed.

Lemma count_eq_le_size (idx : Z) : (count_eq seg_mask idx <= size seg_mask)%nat.
Proof. unfold count_eq, size. apply length_filter. Qed.

Lemma traverse_Ok {B C} (f : B -> Py.result C) (g : B -> C) (l : list B) :
  Forall (fun x => f x = Py.Ok (g x)) l -> Py.traverse f l = Py.Ok (map g l).
Proof.
  induction 1 as [| x l Hx _ IH]; simpl; [reflexivity |].
  rewrite Hx. simpl. rewrite IH. reflexivity.
Qed.

Lemma label_list_NoDup : NoDup label_list.
Proof. apply (bool_decide_unpack _). vm_compute. exact I. Qed.

Lemma enumerate_snd {B} (l : list B) : map snd (Py.enumerate l) = l.
Proof.
  unfold Py.enumerate. apply list_eq. intros i.
  rewrite list_lookup_fmap, list_lookup_imap.
  now destruct (l !! i).
Qed.

(** The summary is the first five entries of the stably sorted
    [(label, coverage)] pairs of the classes that occur. *)
Lemma summarize_objects_eq :
  _summarize_objects seg_mask
  = Py.Ok (take 5 (Py.sorted_reverse (fun item : string * Q => item.2)
                     (coverage_items seg_mask))).
Proof.
  unfold _summarize_objects. cbv zeta.
  match goal with
  | |- context [fold_left ?step _ []] =>
      rewrite (areas_loop step (Py.enumerate label_list) [])
  end.
  - simpl app. unfold coverage_items.
    erewrite (bind_Ok (Py.traverse _ _)); [reflexivity |].
    apply traverse_Ok with (g := with_coverage).
    apply Forall_forall. intros [label count] Hin.
    apply list_elem_of_omap in Hin as ([idx label'] & _ & He).
    unfold InferenceSpec.area_entry in He. simpl in He.
    destruct (decide _) as [_ | Hn]; [discriminate He |].
    injection He as -> <-.
    pose proof (count_eq_le_size idx) as Hle.
    unfold true_div. destruct (decide (size seg_mask = 0%nat)) as [Hz | _].
    + exfalso. apply Hn. left. lia.
    + reflexivity.
  - intros areas [idx label]. unfold InferenceSpec.area_entry. simpl.
    now destruct (decide _).
  - change (NoDup (map snd (Py.enumerate label_list))).
    rewrite enumerate_snd. apply label_list_NoDup.
Qed.

Lemma class_index_lookup (i : nat) (label : string) :
  label_list !! i = Some label -> class_index label = Some i.
Proof.
  intros Hi.
  assert (Hlt : (i < 9)%nat) by (apply lookup_lt_Some in Hi; exact Hi).
  do 9 (destruct i as [| i]; [injection Hi as <-; reflexivity |]). lia.
Qed.

Lemma enumerate_elem {B} (l : list B) (idx : Z) (x : B) :
  (idx, x) ∈ Py.enumerate l -> exists i : nat, idx = Z.of_nat i /\ l !! i = Some x.
Proof.
  unfold Py.enumerate. intros Hin.
  apply elem_of_lookup_imap_1 in Hin as (i & y & Heq & Hi).
  injection Heq as -> ->. eauto.
Qed.

Lemma coverage_bounds (count total : nat) :
  (0 < count <= total)%nat ->
  0 < inject_Z (Z.of_nat count) / inject_Z (Z.of_nat total) <= 1.
Proof.
  intros [Hpos Hle].
  assert (Ht : 0 < inject_Z (Z.of_nat total)).
  { change 0 with (inject_Z 0). rewrite <- Zlt_Qlt. lia. }
  split.
  - apply Qlt_shift_div_l; [exact Ht |]. rewrite Qmult_0_l.
    change 0 with (inject_Z 0). rewrite <- Zlt_Qlt. lia.
  - apply Qle_shift_div_r; [exact Ht |]. rewrite Qmult_1_l.
    rewrite <- Zle_Qle. lia.
Qed.

Lemma coverage_items_reported : Forall (reported seg_mask) (coverage_items seg_mask).
Proof.
  apply Forall_forall. intros item Hin. unfold coverage_items in Hin.
  apply list_elem_of_fmap in Hin as ([label count] & -> & Hin).
  apply list_elem_of_omap in Hin as ([idx label'] & Hel & He).
  unfold InferenceSpec.area_entry in He. simpl in He.
  destruct (decide _) as [_ | Hn]; [discriminate He |].
  injection He as -> <-.
  apply enumerate_elem in Hel as (i & -> & Hi).
  assert (Hc : (0 < count_eq seg_mask (Z.of_nat i))%nat).
  { destruct (count_eq seg_mask (Z.of_nat i)); [exfalso; apply Hn; now left | lia]. }
  exists i. simpl. repeat split.
  - now apply class_index_lookup.
  - exact Hi.
  - intros Hbg. apply Hn. now right.
  - exact Hc.
  - apply coverage_bounds. split; [exact Hc | apply count_eq_le_size].
  - apply coverage_bounds. split; [exact Hc | apply count_eq_le_size].
Qed.

Lemma enumerate_label_list_ranked :
  StronglySorted (fun a b : Z * string => (class_rank a.2 < class_rank b.2)%nat)
    (Py.enumerate label_list).
Proof. apply (bool_decide_unpack _). vm_compute. exact I. Qed.

Lemma enumerate_label_list_indices : NoDup (map fst (Py.enumerate label_list)).
Proof. apply (bool_decide_unpack _). vm_compute. exact I. Qed.

Lemma omap_sorted {B C} (R : B -> B -> Prop) (R' : C -> C -> Prop)
    (f : B -> option C) (l : list B) :
  (forall a a' b b', f a = Some b -> f a' = Some b' -> R a a' -> R' b b') ->
  StronglySorted R l -> StronglySorted R' (omap f l).
Proof.
  intros Hf. induction 1 as [| x l Hs IH Hx]; simpl; [constructor |].
  destruct (f x) as [y |] eqn:Hy; [| exact IH].
  constructor; [exact IH |].
  apply Forall_forall. intros y' Hin.
  apply list_elem_of_omap in Hin as (x' & Hin & Hy').
  rewrite Forall_forall in Hx. eauto.
Qed.

Lemma coverage_items_ranked :
  StronglySorted (fun a b : string * Q => (class_rank a.1 < class_rank b.1)%nat)
    (coverage_items seg_mask).
Proof.
  unfold coverage_items. rewrite list_fmap_omap.
  eapply omap_sorted; [| exact enumerate_label_list_ranked].
  intros [idx label] [idx' label'] b b' Hb Hb' Hr.
  unfold InferenceSpec.area_entry in Hb, Hb'. simpl in Hb, Hb', Hr.
  destruct (decide _); [discriminate Hb |].
  destruct (decide _); [discriminate Hb' |].
  injection Hb as <-. injection Hb' as <-. exact Hr.
Qed.

(** Pixels of distinct classes are distinct pixels. *)
Lemma count_sum_le (flat : list Z) (idxs : list Z) :
  NoDup idxs ->
  (sum_list (map (fun idx => length (filter (fun v => v = idx) flat)) idxs)
   <= length flat)%nat.
Proof.
  intros Hnd. induction flat as [| v flat IH]; simpl.
  - induction idxs as [| idx idxs IHi]; simpl; [lia |].
    apply NoDup_cons in Hnd as [_ Hnd]. now apply IHi.
  - enough (Hstep :
      (sum_list (map (fun idx => length (filter (fun v => v = idx) (v :: flat))) idxs)
       <= (if decide (v ∈ idxs) then 1 else 0)
          + sum_list (map (fun idx => length (filter (fun v => v = idx) flat)) idxs))%nat).
    { destruct (decide (v ∈ idxs)); lia. }
    clear IH. induction idxs as [| idx idxs IHi]; simpl; [lia |].
    apply NoDup_cons in Hnd as [Hidx Hnd]. specialize (IHi Hnd).
    rewrite filter_cons. destruct (decide (v = idx)) as [-> | Hne]; simpl.
    + destruct (decide (idx ∈ idxs)) as [Hin | _]; [contradiction |].
      rewrite decide_True by (apply elem_of_cons; now left). simpl in IHi. lia.
    + destruct (decide (v ∈ idxs)) as [Hin | Hnin].
      * rewrite decide_True by (apply elem_of_cons; now right). lia.
      * rewrite decide_False; [lia |].
        intros [Heq | Hin]%elem_of_cons; [now apply Hne | now apply Hnin].
Qed.

Lemma Qsum_nonneg (l : list Q) : Forall (Qle 0) l -> 0 <= Qsum l.
Proof. induction 1 as [| x l Hx _ IH]; simpl; lra. Qed.

Lemma ranked_labels_NoDup (items : list (string * Q)) :
  StronglySorted (fun a b : string * Q => (class_rank a.1 < class_rank b.1)%nat) items ->
  NoDup (map fst items).
Proof.
  induction 1 as [| x l _ IH Hx]; simpl; constructor; [| exact IH].
  intros Hin. apply list_elem_of_fmap in Hin as (y & Hy & Hin).
  rewrite Forall_forall in Hx. specialize (Hx y Hin). rewrite Hy in Hx. lia.
Qed.

(** The labels of an object summary are pairwise distinct. *)
Lemma summary_labels_NoDup (objs : list (string * Q)) :
  _summarize_objects seg_mask = Py.Ok objs -> NoDup (map fst objs).
Proof.
  rewrite summarize_objects_eq. intros H. injection H as <-.
  set (ranked := Py.sorted_reverse _ _).
  assert (Hnd : NoDup (map fst ranked)).
  { assert (Hp : map fst ranked ≡ₚ map fst (coverage_items seg_mask))
      by apply Permutation_map, sorted_reverse_Permutation.
    rewrite Hp. apply ranked_labels_NoDup, coverage_items_ranked. }
  rewrite <- (take_drop 5 ranked), map_app in Hnd.
  now apply NoDup_app in Hnd as [Hnd _].
Qed.

Lemma summary_reported (objs : list (string * Q)) :
  _summarize_objects seg_mask = Py.Ok objs -> Forall (reported seg_mask) objs.
Proof.
  rewrite summarize_objects_eq. intros H. injection H as <-.
  apply Forall_take. rewrite sorted_reverse_Permutation.
  apply coverage_items_reported.
Qed.

(** The pixels counted for the classes of a summary are distinct pixels
    of the mask. *)
Lemma summary_counts_le (objs : list (string * Q)) :
  _summarize_objects seg_mask = Py.Ok objs ->
  (sum_list (map (fun o : string * Q => count_eq seg_mask (Z.of_nat (class_rank o.1)))
               objs)
   <= size seg_mask)%nat.
Proof.
  intros Hobjs.
  pose proof (summary_reported objs Hobjs) as Hrep.
  pose proof (summary_labels_NoDup objs Hobjs) as Hnd.
  assert (Hranks : NoDup (map (fun label => Z.of_nat (class_rank label))
                            (map fst objs))).
  { apply NoDup_fmap_2_strong; [| exact Hnd].
    intros x y Hx Hy Heq. apply Nat2Z.inj in Heq.
    apply list_elem_of_fmap in Hx as (a & -> & Ha).
    apply list_elem_of_fmap in Hy as (b & -> & Hb).
    rewrite Forall_forall in Hrep.
    destruct (Hrep a Ha) as (ia & Hia & Hla & _).
    destruct (Hrep b Hb) as (ib & Hib & Hlb & _).
    unfold class_rank in Heq. rewrite Hia, Hib in Heq. cbn in Heq. subst ib.
    rewrite Hla in Hlb. now injection Hlb. }
  pose proof (count_sum_le (concat seg_mask) _ Hranks) as Hle.
  rewrite !map_map in Hle. exact Hle.
Qed.

Lemma summarize_objects_returns :
  exists objs, _summarize_objects seg_mask = Py.Ok objs.
Proof. eexists. apply summarize_objects_eq. Qed.

End Summarizer.

Section SummarizerTheorems.
Import Config Ranking RankingSpec Inference InferenceSpec.
Local Open Scope list_scope.
Local Open Scope Q_scope.

(** C5 as the specification words it: the coverages of a summary add
    up to at most [1.0].  The coverages are rounded quotients, and the
    sum of the rounded numbers can exceed [1]: for thirteen pixels with
    4, 3, 3, 2 and 1 pixels of five classes, the five coverages that
    [_summarize_objects] returns in binary64 add up to
    [1.0000000000000002] when added from left to right, and their exact
    sum is [1 + 2^-54], which is [1 + 1/18014398509481984]. *)
Lemma coverage_sum_exceeds_one :
  exists objs : list (string * float),
    Binary64Summary._summarize_objects Binary64Summary.thirteen_pixels = Py.Ok objs /\
    map fst objs = ["liver"; "gallbladder"; "cystic_duct"; "cystic_artery";
                    "common_bile_duct"] /\
    PrimFloat.ltb 1%float (Binary64Summary.sum (map snd objs)) = true /\
    Qsum (map (fun o : string * float => Binary64Summary.to_Q o.2) objs)
    == 1 + (1 # 18014398509481984).
Proof.
  eexists. split; [vm_compute; reflexivity |].
  split; [reflexivity |]. split; vm_compute; reflexivity.
Qed.

(** C5 (amended): the object summary of any mask exists and lists only
    classes other than the background that have at least one pixel,
    each with its share of the pixels, a number in [(0, 1]] (so a class
    without pixels is left out rather than listed with coverage [0]);
    it has at most five entries; the pixel counts of the listed classes
    add up to at most the number of pixels of the mask, so that the
    coverages add up to at most [1] before rounding; and it is ordered
    by descending coverage with equal coverages in ascending order of
    the class index. *)
Theorem summarize_objects_invariants (seg_mask : mask) :
  exists objs : list (string * Q),
    _summarize_objects seg_mask = Py.Ok objs /\
    Forall (reported seg_mask) objs /\
    (length objs <= 5)%nat /\
    (sum_list (map (fun o : string * Q =>
                      count_eq seg_mask (Z.of_nat (class_rank o.1))) objs)
     <= size seg_mask)%nat /\
    StronglySorted ranked_before objs.
Proof.
  rename seg_mask into m.
  destruct (summarize_objects_returns m) as [objs Hobjs].
  exists objs. split; [exact Hobjs |].
  split; [now apply summary_reported |].
  split; [| split; [now apply summary_counts_le |]];
    rewrite summarize_objects_eq in Hobjs; injection Hobjs as <-.
  - rewrite length_take; lia.
  - apply StronglySorted_take.
    apply (sorted_reverse_sorted (fun item : string * Q => item.2)
             (fun item : string * Q => class_rank item.1)).
    apply coverage_items_ranked.
Qed.

End SummarizerTheorems.


(** ** Per-frame analysis *)

Section AnalyzeFrameFacts.
Import Config Ranking RankingSpec Inference InferenceSpec.
Local Open Scope list_scope.
Local Open Scope Q_scope.

Lemma phases_NoDup : NoDup (map fst PHASE_DEFINITIONS).
Proof. apply (bool_decide_unpack _). vm_compute. exact I. Qed.

Lemma empty_phase_probabilities_uniform :
  exists d, empty_phase_probabilities = Py.Ok d /\ uniform_phase_probabilities d.
Proof.
  eexists. split; [vm_compute; reflexivity |].
  split; [reflexivity |].
  repeat constructor.
Qed.

(** [_phase_probabilities_dict] never raises; its keys are the phase
    taxonomy in order, and its values are the given probabilities when
    there is one per phase. *)
Lemma phase_probabilities_dict_Ok (probs : list Q) :
  exists d,
    _phase_probabilities_dict probs = Py.Ok d /\
    Py.keys d = map fst PHASE_DEFINITIONS /\
    (length probs = length PHASE_DEFINITIONS -> map snd d = probs) /\
    (length probs <> length PHASE_DEFINITIONS -> uniform_phase_probabilities d).
Proof.
  unfold _phase_probabilities_dict. cbv zeta.
  destruct (decide (length probs <> length (map fst PHASE_DEFINITIONS))) as [Hne | Heq].
  - destruct empty_phase_probabilities_uniform as (d & Hd & Hu).
    exists d. rewrite length_map in Hne.
    repeat split; [exact Hd | apply Hu | contradiction | apply Hu | apply Hu].
  - apply dec_stable in Heq. rewrite length_map in Heq.
    assert (Hk : map fst (zip (map fst PHASE_DEFINITIONS) probs)
                 = map fst PHASE_DEFINITIONS).
    { apply fst_zip. rewrite length_map. lia. }
    eexists. split; [reflexivity |].
    rewrite dict_of_pairs_NoDup by (rewrite Hk; apply phases_NoDup).
    split; [exact Hk |]. split; [| contradiction].
    intros _. apply snd_zip. rewrite length_map. lia.
Qed.

Lemma phase_keys_nonempty (d : Py.dict Q) :
  Py.keys d = map fst PHASE_DEFINITIONS -> d <> [] /\ NoDup (Py.keys d).
Proof.
  intros Hk. split.
  - intros ->. discriminate Hk.
  - rewrite Hk. apply phases_NoDup.
Qed.

(** Once the frame is preprocessed and both networks have answered,
    [analyze_frame] returns a record. *)
Lemma analyze_frame_Ok (self : SurgicalSceneAnalyzer) (image : ndarray) (q : Q)
    (t : tensor) (m : mask) (probs : list Q) :
  preprocess_image self image = Py.Ok t ->
  segmentation_model self t = Py.Ok m ->
  phase_model self t = Py.Ok probs ->
  exists d label objs,
    _phase_probabilities_dict probs = Py.Ok d /\
    Py.max_by_key (Py.dict_get d) (Py.keys d) = Py.Ok label /\
    _summarize_objects m = Py.Ok objs /\
    analyze_frame self image q
    = Py.Ok {| phase := label;
               phase_probabilities := d;
               segmentation_mask := m;
               detected_objects := objs;
               importance_score :=
                 compute_importance q (calculate_phase_score d)
                   (calculate_object_score (map fst objs)) None;
               phase_score := calculate_phase_score d;
               object_score := calculate_object_score (map fst objs) |}.
Proof.
  intros Ht Hm Hp.
  destruct (phase_probabilities_dict_Ok probs) as (d & Hd & Hk & _).
  destruct (phase_keys_nonempty d Hk) as [Hne Hnd].
  destruct (max_by_key_first_argmax d Hne Hnd) as (i & label & p & Hl & _).
  destruct (summarize_objects_returns m) as (objs & Ho).
  exists d, label, objs. repeat split; try assumption.
  unfold analyze_frame.
  rewrite (bind_Ok _ _ _ Ht), (bind_Ok _ _ _ Hm), (bind_Ok _ _ _ Hp),
    (bind_Ok _ _ _ Hd), (bind_Ok _ _ _ Hl), (bind_Ok _ _ _ Ho).
  reflexivity.
Qed.

Lemma analyze_frame_inv (self : SurgicalSceneAnalyzer) (image : ndarray) (q : Q)
    (r : FrameRecord) :
  analyze_frame self image q = Py.Ok r ->
  exists t m probs d label objs,
    preprocess_image self image = Py.Ok t /\
    segmentation_model self t = Py.Ok m /\
    phase_model self t = Py.Ok probs /\
    _phase_probabilities_dict probs = Py.Ok d /\
    Py.max_by_key (Py.dict_get d) (Py.keys d) = Py.Ok label /\
    _summarize_objects m = Py.Ok objs /\
    r = {| phase := label;
           phase_probabilities := d;
           segmentation_mask := m;
           detected_objects := objs;
           importance_score :=
             compute_importance q (calculate_phase_score d)
               (calculate_object_score (map fst objs)) None;
           phase_score := calculate_phase_score d;
           object_score := calculate_object_score (map fst objs) |}.
Proof.
  unfold analyze_frame. intros H.
  apply bind_Ok_inv in H as (t & Ht & H).
  apply bind_Ok_inv in H as (m & Hm & H).
  apply bind_Ok_inv in H as (probs & Hp & H).
  apply bind_Ok_inv in H as (d & Hd & H).
  apply bind_Ok_inv in H as (label & Hl & H).
  apply bind_Ok_inv in H as (objs & Ho & H).
  injection H as <-.
  exists t, m, probs, d, label, objs. repeat split; assumption.
Qed.

Lemma weight_nonneg (phase : string) : 0 <= weight phase.
Proof.
  unfold weight. destruct (PHASE_WEIGHTS !! phase) as [w |] eqn:Hw; simpl; [| lra].
  unfold PHASE_WEIGHTS in Hw. apply elem_of_list_to_map_2 in Hw.
  repeat (apply elem_of_cons in Hw as [Hw | Hw]; [injection Hw as _ ->; lra |]).
  now apply elem_of_nil in Hw.
Qed.

Lemma priority_nonneg (label : string) : 0 <= priority label.
Proof.
  unfold priority. destruct (OBJECT_PRIORITIES !! label) as [w |] eqn:Hw; simpl; [| lra].
  unfold OBJECT_PRIORITIES in Hw. apply elem_of_list_to_map_2 in Hw.
  repeat (apply elem_of_cons in Hw as [Hw | Hw]; [injection Hw as _ ->; lra |]).
  now apply elem_of_nil in Hw.
Qed.

Lemma phase_score_bounds (d : Py.dict Q) :
  Forall (fun kv => 0 <= kv.2) d -> 0 <= calculate_phase_score d <= 1.
Proof.
  intros Hd. pose proof (phase_score_sum d) as Hs.
  assert (Hsum : 0 <= Qsum (map (fun '(phase, prob) => prob * weight phase) d)).
  { apply Qsum_nonneg. apply Forall_fmap. eapply Forall_impl; [exact Hd |].
    intros [phase prob] Hp. simpl in *. apply Qmult_le_0_compat; [exact Hp |].
    apply weight_nonneg. }
  set (x := calculate_phase_score d) in *. set (y := Qsum _) in *.
  clearbody x y. q_cases.
Qed.

Lemma object_score_bounds (labels : list string) :
  0 <= calculate_object_score labels <= 1.
Proof.
  pose proof (object_score_sum labels) as Hs.
  assert (Hsum : 0 <= Qsum (map priority labels)).
  { apply Qsum_nonneg. apply Forall_fmap. apply Forall_forall.
    intros label _. apply priority_nonneg. }
  set (x := calculate_object_score labels) in *. set (y := Qsum _) in *.
  clearbody x y. q_cases.
Qed.

Lemma importance_bounds (q p o : Q) (b : option Q) :
  0 <= compute_importance q p o b <= 100.
Proof.
  unfold compute_importance. cbv zeta.
  set (bonus := default 0.1 b). clearbody bonus. split; q_cases.
Qed.

Lemma phase_dict_nonneg (probs : list Q) (d : Py.dict Q) :
  Forall (Qle 0) probs ->
  _phase_probabilities_dict probs = Py.Ok d ->
  Forall (fun kv => 0 <= kv.2) d.
Proof.
  intros Hp Hd.
  destruct (phase_probabilities_dict_Ok probs) as (d' & Hd' & _ & Heq & Hne).
  rewrite Hd in Hd'. injection Hd' as <-.
  destruct (decide (length probs = length PHASE_DEFINITIONS)) as [Hl | Hl].
  - specialize (Heq Hl). rewrite <- Heq in Hp. rewrite List.Forall_map in Hp.
    exact Hp.
  - destruct (Hne Hl) as [_ Hu]. eapply Forall_impl; [exact Hu |].
    intros kv Hkv. simpl in Hkv. rewrite Hkv. vm_compute. discriminate.
Qed.

Lemma interpolate_bilinear_cases (n c h w : nat) (oh ow : Z) :
  (interpolate_bilinear [n; c; h; w] oh ow = Py.Ok [n; c; Z.to_nat oh; Z.to_nat ow]
   /\ c <> 0%nat /\ h <> 0%nat /\ w <> 0%nat /\ (0 < oh)%Z /\ (0 < ow)%Z)
  \/ (exists e, interpolate_bilinear [n; c; h; w] oh ow = Py.Raise e).
Proof.
  unfold interpolate_bilinear.
  destruct (decide (c <> 0%nat /\ h <> 0%nat /\ w <> 0%nat /\ (0 < oh)%Z /\ (0 < ow)%Z))
    as [H | H].
  - left. split; [reflexivity | exact H].
  - right. eexists. reflexivity.
Qed.

(** [preprocess_image] by the shape of the image. *)
Lemma preprocess_image_rank (self : SurgicalSceneAnalyzer) (image : ndarray) :
  length (nd_shape image) <> 3%nat ->
  exists e, preprocess_image self image = Py.Raise e.
Proof.
  unfold preprocess_image, from_numpy. cbv zeta.
  destruct (nd_torch_error image) as [e |]; [intros _; now exists e |].
  destruct (nd_shape image) as [| a [| b [| c [| d s]]]]; simpl; intros Hlen;
    try (eexists; reflexivity).
  lia.
Qed.

Lemma broadcast_channels_mismatch (n c : nat) :
  c <> 1%nat -> c <> 3%nat ->
  exists e, broadcast [1%nat; c; n; n] [1; 3; 1; 1]%nat = Py.Raise e.
Proof.
  intros H1 H3. unfold broadcast. cbn [rev app broadcast_rev].
  unfold mbind, Py.result_bind.
  destruct (broadcast_dim n 1) as [d | e]; [| eexists; reflexivity].
  cbn [Py.bind]. unfold broadcast_dim at 1.
  rewrite decide_False by exact H3. rewrite decide_False by exact H1.
  rewrite decide_False by lia.
  eexists; reflexivity.
Qed.

Lemma preprocess_image_channels (self : SurgicalSceneAnalyzer) (image : ndarray)
    (h w c : nat) :
  nd_shape image = [h; w; c] -> c <> 1%nat -> c <> 3%nat ->
  exists e, preprocess_image self image = Py.Raise e.
Proof.
  unfold preprocess_image, from_numpy. cbv zeta. intros -> H1 H3.
  destruct (nd_torch_error image) as [e |]; [now exists e |].
  cbn [permute_2_0_1]. unfold mbind, Py.result_bind, unsqueeze_0. cbn [Py.bind].
  destruct (interpolate_bilinear_cases 1 c h w (image_size (config self))
              (image_size (config self))) as [[-> _] | [e ->]];
    [| eexists; reflexivity].
  cbn [Py.bind].
  destruct (broadcast_channels_mismatch (Z.to_nat (image_size (config self))) c H1 H3)
    as [e ->].
  eexists; reflexivity.
Qed.

(** One channel is broadcast to three: a frame of shape [(h, w, 1)] gives
    a tensor of the same shape as a frame of shape [(h, w, 3)]. *)
Lemma preprocess_image_channel_ok (self : SurgicalSceneAnalyzer) (image : ndarray)
    (h w c : nat) :
  nd_torch_error image = None ->
  nd_shape image = [h; w; c] -> c = 1%nat \/ c = 3%nat ->
  h <> 0%nat -> w <> 0%nat -> (0 < image_size (config self))%Z ->
  preprocess_image self image
  = Py.Ok {| t_shape := [1%nat; 3%nat; Z.to_nat (image_size (config self));
                         Z.to_nat (image_size (config self))];
             t_image := image |}.
Proof.
  unfold preprocess_image, from_numpy. cbv zeta. intros -> -> Hc Hh Hw Hs.
  cbn [permute_2_0_1]. unfold mbind, Py.result_bind, unsqueeze_0. cbn [Py.bind].
  destruct (interpolate_bilinear_cases 1 c h w (image_size (config self))
              (image_size (config self))) as [[-> _] | [e He]].
  2: { unfold interpolate_bilinear in He.
       rewrite decide_True in He by (repeat split; lia). discriminate He. }
  cbn [Py.bind].
  set (n := Z.to_nat (image_size (config self))).
  assert (Hn : broadcast_dim n 1 = Py.Ok n).
  { unfold broadcast_dim. destruct (decide (n = 1%nat)) as [-> | Hn1]; reflexivity. }
  assert (Hb : forall c', c' = 1%nat \/ c' = 3%nat ->
            broadcast [1%nat; c'; n; n] [1; 3; 1; 1]%nat = Py.Ok [1%nat; 3%nat; n; n]).
  { intros c' Hc'. unfold broadcast. cbn [rev app broadcast_rev].
    unfold mbind, Py.result_bind. rewrite Hn. cbn [Py.bind].
    destruct Hc' as [-> | ->]; reflexivity. }
  rewrite (Hb c Hc). cbn [Py.bind]. rewrite (Hb 3%nat) by now right.
  reflexivity.
Qed.

End AnalyzeFrameFacts.

Section AnalyzeFrameTheorems.
Import Config Ranking RankingSpec Inference InferenceSpec Demo.
Local Open Scope list_scope.
Local Open Scope Q_scope.

(** C3: when the phase network yields non-negative probabilities (a
    softmax output), every record that [analyze_frame] returns has
    [0 <= importance_score <= 100], [0 <= phase_score <= 1] and
    [0 <= object_score <= 1], whatever the frame and the quality score;
    and a record is returned as soon as preprocessing and the two
    networks succeed. *)
Theorem analyze_frame_score_bounds (self : SurgicalSceneAnalyzer)
    (image : ndarray) (quality_score : Q) :
  (forall t probs, phase_model self t = Py.Ok probs -> Forall (Qle 0) probs) ->
  (forall r, analyze_frame self image quality_score = Py.Ok r ->
     0 <= importance_score r <= 100 /\
     0 <= phase_score r <= 1 /\
     0 <= object_score r <= 1) /\
  (forall t m probs,
     preprocess_image self image = Py.Ok t ->
     segmentation_model self t = Py.Ok m ->
     phase_model self t = Py.Ok probs ->
     exists r, analyze_frame self image quality_score = Py.Ok r).
Proof.
  intros Hsoftmax. split.
  - intros r Hr.
    apply analyze_frame_inv in Hr
      as (t & m & probs & d & label & objs & _ & _ & Hp & Hd & _ & _ & ->).
    cbn [importance_score phase_score object_score].
    split; [apply importance_bounds |].
    split; [| apply object_score_bounds].
    apply phase_score_bounds. apply (phase_dict_nonneg probs); [| exact Hd].
    now apply (Hsoftmax t).
  - intros t m probs Ht Hm Hp.
    destruct (analyze_frame_Ok self image quality_score t m probs Ht Hm Hp)
      as (d & label & objs & _ & _ & _ & Hr).
    eexists. exact Hr.
Qed.

Lemma analyze_frame_score_bounds_witness :
  exists r,
    analyze_frame (demo_analyzer one_hot_clip_and_divide) rgb_frame 80 = Py.Ok r /\
    0 <= importance_score r <= 100 /\
    0 <= phase_score r <= 1 /\
    0 <= object_score r <= 1.
Proof.
  assert (Hsoftmax : forall t probs,
             phase_model (demo_analyzer one_hot_clip_and_divide) t = Py.Ok probs ->
             Forall (Qle 0) probs).
  { intros t probs H. injection H as <-.
    repeat constructor; vm_compute; discriminate. }
  eexists. split; [vm_compute; reflexivity |].
  apply (proj1 (analyze_frame_score_bounds
                  (demo_analyzer one_hot_clip_and_divide) rgb_frame 80 Hsoftmax)).
  vm_compute. reflexivity.
Defined.

(** C4: when the phase network's output does not have one entry per
    phase of the taxonomy, [analyze_frame] still returns a record, and
    its [phase_probabilities] are the uniform fallback: the keys are the
    whole taxonomy, in order, and every value is [1/N] for the [N = 6]
    phases. *)
Theorem phase_shape_mismatch_uniform (self : SurgicalSceneAnalyzer)
    (image : ndarray) (quality_score : Q) (t : tensor) (m : mask) (probs : list Q) :
  preprocess_image self image = Py.Ok t ->
  segmentation_model self t = Py.Ok m ->
  phase_model self t = Py.Ok probs ->
  length probs <> length PHASE_DEFINITIONS ->
  _phase_probabilities_dict probs = empty_phase_probabilities /\
  exists r,
    analyze_frame self image quality_score = Py.Ok r /\
    Py.keys (phase_probabilities r) = map fst PHASE_DEFINITIONS /\
    Forall (fun kv => kv.2 == 1 / 6) (phase_probabilities r).
Proof.
  intros Ht Hm Hp Hlen. split.
  - unfold _phase_probabilities_dict. cbv zeta.
    rewrite decide_True; [reflexivity |]. now rewrite length_map.
  - destruct (analyze_frame_Ok self image quality_score t m probs Ht Hm Hp)
      as (d & label & objs & Hd & _ & _ & Hr).
    eexists. split; [exact Hr |]. cbn [phase_probabilities].
    destruct (phase_probabilities_dict_Ok probs) as (d' & Hd' & _ & _ & Hu).
    rewrite Hd in Hd'. injection Hd' as <-.
    destruct (Hu Hlen) as [Hk Hv]. split; [exact Hk | exact Hv].
Qed.

Lemma phase_shape_mismatch_uniform_witness :
  exists r,
    analyze_frame (demo_analyzer [0.5; 0.5]) rgb_frame 80 = Py.Ok r /\
    Py.keys (phase_probabilities r) = map fst PHASE_DEFINITIONS /\
    Forall (fun kv => kv.2 == 1 / 6) (phase_probabilities r).
Proof.
  refine (proj2 (phase_shape_mismatch_uniform (demo_analyzer [0.5; 0.5]) rgb_frame 80
                   {| t_shape := [1; 3; 512; 512]%nat; t_image := rgb_frame |}
                   demo_mask [0.5; 0.5] _ _ _ _)).
  - vm_compute. reflexivity.
  - reflexivity.
  - reflexivity.
  - vm_compute. discriminate.
Defined.

(** C7: the [phase] of a returned record is the key of
    [phase_probabilities], whose keys are the taxonomy in order, with the
    highest probability; among several phases with the highest
    probability it is the first in taxonomy order. *)
Theorem phase_label_first_argmax (self : SurgicalSceneAnalyzer)
    (image : ndarray) (quality_score : Q) (r : FrameRecord) :
  analyze_frame self image quality_score = Py.Ok r ->
  Py.keys (phase_probabilities r) = map fst PHASE_DEFINITIONS /\
  exists i p, first_argmax (phase_probabilities r) i (phase r) p.
Proof.
  intros Hr.
  apply analyze_frame_inv in Hr
    as (t & m & probs & d & label & objs & _ & _ & _ & Hd & Hl & _ & ->).
  cbn [phase phase_probabilities].
  destruct (phase_probabilities_dict_Ok probs) as (d' & Hd' & Hk & _).
  rewrite Hd in Hd'. injection Hd' as <-.
  split; [exact Hk |].
  destruct (phase_keys_nonempty d Hk) as [Hne Hnd].
  destruct (max_by_key_first_argmax d Hne Hnd) as (i & label' & p & Hl' & Hmax).
  rewrite Hl in Hl'. injection Hl' as <-.
  now exists i, p.
Qed.

Lemma phase_label_first_argmax_witness :
  exists i p,
    first_argmax
      [("pre_op", 0.1); ("port_setup", 0.3); ("exposure", 0.3);
       ("critical_dissection", 0.2); ("clip_and_divide", 0.05); ("closure", 0.05)]
      i "port_setup" p.
Proof.
  pose proof (phase_label_first_argmax
                (demo_analyzer [0.1; 0.3; 0.3; 0.2; 0.05; 0.05]) rgb_frame 80) as H.
  eapply (fun r Hr => proj2 (H r Hr)) with
    (r := {| phase := "port_setup";
             phase_probabilities := _;
             segmentation_mask := _;
             detected_objects := _;
             importance_score := _;
             phase_score := _;
             object_score := _ |}).
  vm_compute. reflexivity.
Defined.

(** C8 as the specification words it: every frame that is not an
    [H x W x 3] array is rejected.  An [H x W x 1] array is not: after
    [permute] and [interpolate] its shape is [(1, 1, S, S)], which
    broadcasts against the [(1, 3, 1, 1)] mean and standard deviation to
    [(1, 3, S, S)], and the networks analyse it like an RGB frame. *)
Lemma one_channel_frame_is_analysed :
  ~ (forall (self : SurgicalSceneAnalyzer) (image : ndarray) (quality_score : Q),
       ~ well_formed_frame (nd_shape image) ->
       exists e, analyze_frame self image quality_score = Py.Raise e).
Proof.
  intros H.
  destruct (H (demo_analyzer one_hot_clip_and_divide) one_channel_frame 80) as [e He].
  - intros (h & w & Heq). discriminate Heq.
  - vm_compute in He. discriminate He.
Qed.

(** C8 (amended): [analyze_frame] raises, and returns no record, for
    every pixel array whose rank is not three and for every
    three-dimensional array whose last extent is neither [3] nor [1];
    being a function of its arguments, it does so on every call. *)
Theorem malformed_frame_rejected (self : SurgicalSceneAnalyzer)
    (image : ndarray) (quality_score : Q) :
  length (nd_shape image) <> 3%nat \/
  (exists h w c : nat, nd_shape image = [h; w; c] /\ c <> 1%nat /\ c <> 3%nat) ->
  exists e,
    analyze_frame self image quality_score = Py.Raise e /\
    forall r, analyze_frame self image quality_score <> Py.Ok r.
Proof.
  intros Hbad.
  assert (Hpre : exists e, preprocess_image self image = Py.Raise e).
  { destruct Hbad as [Hrank | (h & w & c & Hs & H1 & H3)].
    - now apply preprocess_image_rank.
    - now apply (preprocess_image_channels self image h w c). }
  destruct Hpre as [e He]. exists e.
  assert (Hr : analyze_frame self image quality_score = Py.Raise e).
  { unfold analyze_frame. now rewrite (bind_Raise _ _ _ He). }
  split; [exact Hr |]. intros r Hok. rewrite Hr in Hok. discriminate Hok.
Qed.

Lemma malformed_frame_rejected_witness :
  (exists e, analyze_frame (demo_analyzer one_hot_clip_and_divide) flat_frame 80
             = Py.Raise e) /\
  (exists e, analyze_frame (demo_analyzer one_hot_clip_and_divide) rgba_frame 80
             = Py.Raise e).
Proof.
  split.
  - destruct (malformed_frame_rejected (demo_analyzer one_hot_clip_and_divide)
                flat_frame 80) as (e & He & _).
    + left. simpl. lia.
    + now exists e.
  - destruct (malformed_frame_rejected (demo_analyzer one_hot_clip_and_divide)
                rgba_frame 80) as (e & He & _).
    + right. exists 480%nat, 640%nat, 4%nat. repeat split; lia.
    + now exists e.
Defined.

(** C2: the three scoring functions compute the formulas of the
    specification: [phase_score = min(1, sum of probability * weight)]
    with weight [0.3] for unlisted phases,
    [object_score = min(3, sum of priorities of the distinct labels) / 3]
    with priority [0.2] for unknown labels and no use of the coverage,
    and [importance = clamp01(0.4 * quality/100 + 0.35 * phase_score
    + 0.25 * object_score + 0.1) * 100] when [ai_bonus] is not passed.
    This holds for every phase-probability mapping, every list of
    detected objects with pairwise distinct labels and every quality
    score, and so for every record of [analyze_frame], whose object
    labels are always distinct. *)
Theorem scoring_formulas (phase_probabilities : Py.dict Q)
    (detected_objects : list (string * Q)) (quality_score : Q) :
  NoDup (map fst detected_objects) ->
  let phase_score := calculate_phase_score phase_probabilities in
  let object_score := calculate_object_score (map fst detected_objects) in
  (phase_score == spec_phase_score phase_probabilities /\
   object_score == spec_object_score (map fst detected_objects) /\
   compute_importance quality_score phase_score object_score None
   == spec_importance quality_score
        (spec_phase_score phase_probabilities)
        (spec_object_score (map fst detected_objects))) /\
  (forall self image r,
     analyze_frame self image quality_score = Py.Ok r ->
     NoDup (map fst (Inference.detected_objects r)) /\
     Inference.phase_score r == spec_phase_score (Inference.phase_probabilities r) /\
     Inference.object_score r
     == spec_object_score (map fst (Inference.detected_objects r)) /\
     importance_score r
     == spec_importance quality_score
          (spec_phase_score (Inference.phase_probabilities r))
          (spec_object_score (map fst (Inference.detected_objects r)))).
Proof.
  intros Hnd. cbv zeta. split.
  - now apply scores_match_formulas.
  - intros self image r Hr.
    apply analyze_frame_inv in Hr
      as (t & m & probs & d & label & objs & _ & _ & _ & _ & _ & Ho & ->).
    cbn [Inference.detected_objects Inference.phase_score Inference.object_score
           importance_score Inference.phase_probabilities].
    pose proof (summary_labels_NoDup m objs Ho) as Hobjs.
    split; [exact Hobjs |].
    now apply scores_match_formulas.
Qed.

Lemma scoring_formulas_witness :
  NoDup (map fst scenario_detected_objects) /\
  calculate_phase_score scenario_phase_probabilities
  == spec_phase_score scenario_phase_probabilities /\
  calculate_object_score (map fst scenario_detected_objects)
  == spec_object_score (map fst scenario_detected_objects).
Proof.
  assert (Hnd : NoDup (map fst scenario_detected_objects)).
  { simpl. apply NoDup_cons. split; [apply not_elem_of_nil | apply NoDup_nil_2]. }
  split; [exact Hnd |].
  destruct (scoring_formulas scenario_phase_probabilities
              scenario_detected_objects scenario_quality_score Hnd)
    as [(Hp & Ho & _) _].
  split; [exact Hp | exact Ho].
Defined.

(** The scenario through the whole of [analyze_frame]: a mask with one
    pixel in ten of class [cystic_artery] and a one-hot phase output. *)
Example scenario_end_to_end :
  exists r,
    analyze_frame (demo_analyzer one_hot_clip_and_divide) rgb_frame 80 = Py.Ok r /\
    phase r = "clip_and_divide" /\
    Inference.detected_objects r = [("cystic_artery", 0.1)] /\
    Inference.phase_score r == 1 /\
    Inference.object_score r == 1 # 3 /\
    importance_score r == 256 # 3.
Proof.
  eexists. split; [vm_compute; reflexivity |].
  cbn [phase Inference.detected_objects Inference.phase_score
         Inference.object_score importance_score].
  repeat split.
Qed.

End AnalyzeFrameTheorems.


(** ** Preview rendering *)

Section PreviewFacts.
Import Config Ranking Inference InferenceSpec.
Local Open Scope list_scope.

Lemma zip_with_map_l {A B C} (f : A -> B -> C) (g : B -> A) (l : list B) :
  zip_with f (map g l) l = map (fun x => f (g x) x) l.
Proof. induction l as [| x l IH]; simpl; [reflexivity | now rewrite IH]. Qed.











End PreviewFacts.

Section PreviewTheorems.
Import Config Ranking Inference InferenceSpec.
Local Open Scope list_scope.




End PreviewTheorems.


(** ** Backend selection *)

Section BackendTheorems.
Import Config Ranking Inference InferenceSpec Demo.
Local Open Scope list_scope.

Lemma build_falls_back (w : World) (cfg : TrainingConfig) (dev : string)
    (num_classes : nat) (unet : segmentation_net) :
  endovit_unavailable w cfg dev num_classes ->
  UNetSegmenter w num_classes dev = Py.Ok unet ->
  exists log,
    _build_segmentation_model w cfg dev num_classes
    = Py.Ok {| built_model := unet; built_backend := "unet"; built_log := log |}.
Proof.
  unfold endovit_unavailable, _build_segmentation_model, build_unet.
  intros Hun Hunet. rewrite Hunet.
  destruct (endovit_segmentation_checkpoint cfg) as [ckpt |];
    [| eexists; reflexivity].
  destruct (path_exists w ckpt); [| eexists; reflexivity].
  destruct (is_endovit_supported w); [| eexists; reflexivity].
  destruct Hun as [H | [H | [e He]]]; try discriminate H.
  rewrite He. eexists; reflexivity.
Qed.

(** C6 as the specification words it: whenever the EndoViT checkpoint
    is missing, the analyzer is constructed and no exception reaches the
    caller.  It is not so: the fallback only replaces the EndoViT model
    by the UNet, and the steps that follow are not guarded.  With a
    configured EndoViT checkpoint that does not exist and a UNet
    checkpoint that exists and does not fit the network, the
    constructor raises the error of [load_state_dict]. *)
Lemma fallback_constructor_raises :
  endovit_segmentation_checkpoint endovit_config
  = Some "ml_pipeline/artifacts/endovit_seg.pth" /\
  path_exists ExtraSpec.bad_unet_weights_world "ml_pipeline/artifacts/endovit_seg.pth"
  = false /\
  __init__ ExtraSpec.bad_unet_weights_world endovit_config None
  = Py.Raise (Py.RuntimeError "size mismatch") /\
  ~ (forall (w : World) (cfg : TrainingConfig) (device_arg : option string),
       endovit_unavailable w cfg (device_or_default w device_arg)
         (length PIXEL_VALUE_TO_LABEL) ->
       exists self log, __init__ w cfg device_arg = Py.Ok (self, log)).
Proof.
  split; [reflexivity |]. split; [reflexivity |]. split; [reflexivity |].
  intros H.
  destruct (H ExtraSpec.bad_unet_weights_world endovit_config None)
    as (self & log & Hinit).
  - left. reflexivity.
  - discriminate Hinit.
Qed.

(** C6 (amended): when the EndoViT checkpoint does not exist on disk,
    or its dependencies are missing, or building it raises, backend
    selection does not raise provided that the default UNet can be
    built: it returns that UNet and leaves ["unet"] as the recorded
    backend; and the constructor returns an analyzer with
    [segmentation_backend = "unet"] provided that its other steps
    (creating the artifacts directory, building the phase classifier,
    loading the weights of the checkpoints that exist) succeed. *)
Theorem backend_fallback_to_unet (w : World) (cfg : TrainingConfig)
    (device_arg : option string) (unet : segmentation_net) :
  let dev := device_or_default w device_arg in
  let num_classes := length PIXEL_VALUE_TO_LABEL in
  endovit_unavailable w cfg dev num_classes ->
  UNetSegmenter w num_classes dev = Py.Ok unet ->
  (exists log,
     _build_segmentation_model w cfg dev num_classes
     = Py.Ok {| built_model := unet; built_backend := "unet"; built_log := log |}) /\
  (forall ph seg' ph',
     mkdir w (artifacts_dir cfg) = Py.Ok () ->
     PhaseClassifier w (length PHASE_DEFINITIONS) dev = Py.Ok ph ->
     _load_weights w cfg dev "unet" unet ph = Py.Ok (seg', ph') ->
     exists log,
       __init__ w cfg device_arg
       = Py.Ok ({| config := cfg; device := dev; segmentation_backend := "unet";
                   segmentation_model := seg'; phase_model := ph' |}, log)).
Proof.
  intros dev num_classes Hun Hunet.
  destruct (build_falls_back w cfg dev num_classes unet Hun Hunet) as [log Hb].
  split; [now exists log |].
  intros ph seg' ph' Hmk Hph Hload. exists log.
  unfold __init__. cbv zeta. fold dev. fold num_classes.
  rewrite (bind_Ok _ _ _ Hmk), (bind_Ok _ _ _ Hb), (bind_Ok _ _ _ Hph).
  cbn [built_backend built_model built_log].
  rewrite (bind_Ok _ _ _ Hload). reflexivity.
Qed.

Lemma backend_fallback_to_unet_witness :
  (exists self log,
     __init__ bare_world endovit_config None = Py.Ok (self, log) /\
     segmentation_backend self = "unet") /\
  (exists self log,
     __init__ corrupt_checkpoint_world endovit_config None = Py.Ok (self, log) /\
     segmentation_backend self = "unet").
Proof.
  split.
  - destruct (backend_fallback_to_unet bare_world endovit_config None
                (fun _ => Py.Ok demo_mask)) as [_ Hinit].
    + left. reflexivity.
    + reflexivity.
    + destruct (Hinit (fun _ => Py.Ok one_hot_clip_and_divide)
                  (fun _ => Py.Ok demo_mask)
                  (fun _ => Py.Ok one_hot_clip_and_divide)) as [log Hlog];
        try reflexivity.
      eexists _, log. split; [exact Hlog | reflexivity].
  - destruct (backend_fallback_to_unet corrupt_checkpoint_world endovit_config None
                (fun _ => Py.Ok demo_mask)) as [_ Hinit].
    + right. right. eexists. reflexivity.
    + reflexivity.
    + destruct (Hinit (fun _ => Py.Ok one_hot_clip_and_divide)
                  (fun _ => Py.Ok demo_mask)
                  (fun _ => Py.Ok one_hot_clip_and_divide)) as [log Hlog];
        try reflexivity.
      eexists _, log. split; [exact Hlog | reflexivity].
Defined.

End BackendTheorems.


(** * Further properties *)

(** ** Construction of the analyzer *)

Section ConstructionExtras.
Import Config Ranking Inference InferenceSpec Demo ExtraSpec.
Local Open Scope list_scope.

(** X1: backend selection returns the EndoViT model and records
    ["endovit"] whenever the checkpoint is configured and exists, the
    dependency is there and the model can be built; the UNet is then not
    built at all, and the only lines printed are those of the EndoViT
    constructor.  Every successful selection is either that one or the
    fallback to a UNet that could be built, with ["unet"] recorded. *)
Theorem backend_selection_cases (w : World) (cfg : TrainingConfig) (dev : string)
    (num_classes : nat) :
  (forall ckpt model,
     endovit_segmentation_checkpoint cfg = Some ckpt ->
     path_exists w ckpt = true ->
     is_endovit_supported w = true ->
     EndoVITSemanticSegmenter w num_classes ckpt dev = Py.Ok model ->
     _build_segmentation_model w cfg dev num_classes
     = Py.Ok {| built_model := model; built_backend := "endovit";
                built_log := endovit_output w num_classes ckpt dev |}) /\
  (forall b,
     _build_segmentation_model w cfg dev num_classes = Py.Ok b ->
     (built_backend b = "endovit" /\
      exists ckpt,
        endovit_segmentation_checkpoint cfg = Some ckpt /\
        path_exists w ckpt = true /\
        is_endovit_supported w = true /\
        EndoVITSemanticSegmenter w num_classes ckpt dev = Py.Ok (built_model b))
     \/
     (built_backend b = "unet" /\
      endovit_unavailable w cfg dev num_classes /\
      UNetSegmenter w num_classes dev = Py.Ok (built_model b))).
Proof.
  split.
  - intros ckpt model Hc He Hs Hm. unfold _build_segmentation_model.
    now rewrite Hc, He, Hs, Hm.
  - intros b. unfold _build_segmentation_model, endovit_unavailable, build_unet.
    destruct (endovit_segmentation_checkpoint cfg) as [ckpt |].
    + destruct (path_exists w ckpt) eqn:He.
      * destruct (is_endovit_supported w) eqn:Hs.
        -- destruct (EndoVITSemanticSegmenter w num_classes ckpt dev) as [model | exc] eqn:Hm.
           ++ intros H. injection H as <-. left. split; [reflexivity |].
              exists ckpt. now repeat split.
           ++ intros H. apply bind_Ok_inv in H as (unet & Hu & H). injection H as <-.
              right. repeat split; [| exact Hu]. right. right. now exists exc.
        -- intros H. apply bind_Ok_inv in H as (unet & Hu & H). injection H as <-.
           right. repeat split; [| exact Hu]. right. now left.
      * intros H. apply bind_Ok_inv in H as (unet & Hu & H). injection H as <-.
        right. repeat split; [| exact Hu]. now left.
    + intros H. apply bind_Ok_inv in H as (unet & Hu & H). injection H as <-.
      right. now repeat split.
Qed.

Lemma backend_selection_cases_witness :
  exists b,
    _build_segmentation_model endovit_world endovit_config "cpu" 9 = Py.Ok b /\
    built_backend b = "endovit" /\
    built_log b
    = ["[EndoViT] Missing keys while loading: ['scratch.output_conv.4.bias']"].
Proof.
  destruct (backend_selection_cases endovit_world endovit_config "cpu" 9) as [Hadv _].
  eexists. split.
  - apply (Hadv "ml_pipeline/artifacts/endovit_seg.pth" (fun _ => Py.Ok [[1; 1]]%Z));
      reflexivity.
  - split; reflexivity.
Defined.

(** X2: what is printed during backend selection is what the EndoViT
    constructor prints, if it is called, followed by at most one line of
    backend selection itself; that warning is printed exactly when a
    configured checkpoint file exists and the UNet is used all the same:
    a missing file and a missing setting fall back silently. *)
Theorem backend_warning_iff (w : World) (cfg : TrainingConfig) (dev : string)
    (num_classes : nat) (b : built) :
  _build_segmentation_model w cfg dev num_classes = Py.Ok b ->
  exists own,
    built_log b = endovit_lines w cfg dev num_classes ++ own /\
    (length own <= 1)%nat /\
    (own <> [] <->
     built_backend b = "unet" /\
     exists ckpt,
       endovit_segmentation_checkpoint cfg = Some ckpt /\ path_exists w ckpt = true).
Proof.
  unfold _build_segmentation_model, build_unet, endovit_lines.
  destruct (endovit_segmentation_checkpoint cfg) as [ckpt |].
  - destruct (path_exists w ckpt) eqn:He.
    + destruct (is_endovit_supported w) eqn:Hs.
      * cbv zeta.
        destruct (EndoVITSemanticSegmenter w num_classes ckpt dev) as [model | exc] eqn:Hm.
        -- intros H. injection H as <-. exists []. cbn [built_log built_backend].
           split; [now rewrite app_nil_r |]. split; [simpl; lia |].
           split; [congruence |]. intros [Hb _]. discriminate Hb.
        -- intros H. apply bind_Ok_inv in H as (unet & Hu & H). injection H as <-.
           eexists. cbn [built_log built_backend].
           split; [reflexivity |]. split; [simpl; lia |].
           split; [| discriminate]. intros _. split; [reflexivity |]. now exists ckpt.
      * intros H. apply bind_Ok_inv in H as (unet & Hu & H). injection H as <-.
        eexists. cbn [built_log built_backend].
        split; [reflexivity |]. split; [simpl; lia |].
        split; [| discriminate]. intros _. split; [reflexivity |]. now exists ckpt.
    + intros H. apply bind_Ok_inv in H as (unet & Hu & H). injection H as <-.
      exists []. cbn [built_log built_backend].
      split; [reflexivity |]. split; [simpl; lia |].
      split; [congruence |]. intros (_ & ckpt' & Hc & He').
      injection Hc as <-. congruence.
  - intros H. apply bind_Ok_inv in H as (unet & Hu & H). injection H as <-.
    exists []. cbn [built_log built_backend].
    split; [reflexivity |]. split; [simpl; lia |].
    split; [congruence |]. intros (_ & ckpt' & Hc & _). discriminate Hc.
Qed.

Lemma backend_warning_iff_witness :
  exists b own,
    _build_segmentation_model corrupt_checkpoint_world endovit_config "cpu" 9 = Py.Ok b /\
    built_log b = endovit_lines corrupt_checkpoint_world endovit_config "cpu" 9 ++ own /\
    own <> [].
Proof.
  destruct (backend_warning_iff corrupt_checkpoint_world endovit_config "cpu" 9 _
              eq_refl) as (own & Hlog & _ & Hiff).
  eexists _, own. split; [reflexivity |]. split; [exact Hlog |].
  apply Hiff. split; [reflexivity |].
  exists "ml_pipeline/artifacts/endovit_seg.pth". split; reflexivity.
Defined.

(** X3: where no file exists at all, the constructor raises nothing and
    returns an analyzer on the networks as they were built, without
    loading any weights, with the ["unet"] backend and no warning. *)
Theorem constructor_without_artifacts (w : World) (cfg : TrainingConfig)
    (device_arg : option string) (unet : segmentation_net) (ph : phase_net) :
  let dev := device_or_default w device_arg in
  (forall p, path_exists w p = false) ->
  mkdir w (artifacts_dir cfg) = Py.Ok () ->
  UNetSegmenter w (length PIXEL_VALUE_TO_LABEL) dev = Py.Ok unet ->
  PhaseClassifier w (length PHASE_DEFINITIONS) dev = Py.Ok ph ->
  __init__ w cfg device_arg
  = Py.Ok ({| config := cfg; device := dev; segmentation_backend := "unet";
              segmentation_model := unet; phase_model := ph |}, []).
Proof.
  intros dev Hno Hmk Hu Hp. unfold __init__. cbv zeta. fold dev.
  rewrite (bind_Ok _ _ _ Hmk).
  assert (Hb : _build_segmentation_model w cfg dev (length PIXEL_VALUE_TO_LABEL)
               = Py.Ok {| built_model := unet; built_backend := "unet"; built_log := [] |}).
  { unfold _build_segmentation_model, build_unet. rewrite Hu.
    destruct (endovit_segmentation_checkpoint cfg) as [ckpt |]; [| reflexivity].
    now rewrite Hno. }
  rewrite (bind_Ok _ _ _ Hb), (bind_Ok _ _ _ Hp).
  cbn [built_backend built_model built_log].
  unfold _load_weights. rewrite !Hno. rewrite decide_True by reflexivity.
  reflexivity.
Qed.

Lemma constructor_without_artifacts_witness :
  exists self,
    __init__ bare_world endovit_config None = Py.Ok (self, []) /\
    segmentation_backend self = "unet".
Proof.
  eexists. split.
  - apply (constructor_without_artifacts bare_world endovit_config None
             (fun _ => Py.Ok demo_mask) (fun _ => Py.Ok one_hot_clip_and_divide));
      reflexivity.
  - reflexivity.
Defined.

(** X4: with the UNet backend, an existing UNet checkpoint that cannot
    be loaded makes the constructor raise that error: unlike a failure to
    build the EndoViT model, it is not caught. *)
Theorem unet_weights_failure_is_fatal (w : World) (cfg : TrainingConfig)
    (device_arg : option string) (unet : segmentation_net) (ph : phase_net)
    (e : Py.exn) :
  let dev := device_or_default w device_arg in
  endovit_unavailable w cfg dev (length PIXEL_VALUE_TO_LABEL) ->
  mkdir w (artifacts_dir cfg) = Py.Ok () ->
  UNetSegmenter w (length PIXEL_VALUE_TO_LABEL) dev = Py.Ok unet ->
  PhaseClassifier w (length PHASE_DEFINITIONS) dev = Py.Ok ph ->
  path_exists w (segmentation_checkpoint cfg) = true ->
  load_segmentation_state w unet (segmentation_checkpoint cfg) dev = Py.Raise e ->
  __init__ w cfg device_arg = Py.Raise e.
Proof.
  intros dev Hun Hmk Hu Hp Hex Hload. unfold __init__. cbv zeta. fold dev.
  rewrite (bind_Ok _ _ _ Hmk).
  destruct (build_falls_back w cfg dev _ unet Hun Hu) as [log Hb].
  rewrite (bind_Ok _ _ _ Hb), (bind_Ok _ _ _ Hp).
  cbn [built_backend built_model built_log].
  unfold _load_weights. rewrite decide_True by reflexivity. rewrite Hex, Hload.
  reflexivity.
Qed.

Lemma unet_weights_failure_is_fatal_witness :
  __init__ bad_unet_weights_world demo_config None
  = Py.Raise (Py.RuntimeError "size mismatch").
Proof.
  apply (unet_weights_failure_is_fatal bad_unet_weights_world demo_config None
           (fun _ => Py.Ok demo_mask) (fun _ => Py.Ok one_hot_clip_and_divide));
    reflexivity.
Defined.



End ConstructionExtras.


(** ** Per-frame analysis, continued *)

Section AnalyzeFrameExtras.
Import Config Ranking RankingSpec Inference InferenceSpec Demo ExtraSpec.
Local Open Scope list_scope.
Local Open Scope Q_scope.

Lemma preprocess_image_Ok_inv (self : SurgicalSceneAnalyzer) (image : ndarray)
    (t : tensor) :
  preprocess_image self image = Py.Ok t ->
  nd_torch_error image = None /\
  exists h w c : nat,
    nd_shape image = [h; w; c] /\ h <> 0%nat /\ w <> 0%nat /\
    (c = 1%nat \/ c = 3%nat) /\ (0 < image_size (config self))%Z.
Proof.
  intros Hok.
  assert (Htorch : nd_torch_error image = None).
  { unfold preprocess_image, from_numpy in Hok.
    destruct (nd_torch_error image); [discriminate Hok | reflexivity]. }
  split; [exact Htorch |].
  destruct (decide (length (nd_shape image) = 3%nat)) as [Hlen | Hlen].
  2: { destruct (preprocess_image_rank self image Hlen) as [e He].
       rewrite He in Hok. discriminate Hok. }
  destruct (nd_shape image) as [| h [| w [| c [| d s]]]] eqn:Hs;
    try discriminate Hlen.
  exists h, w, c. split; [reflexivity |].
  assert (Hc : c = 1%nat \/ c = 3%nat).
  { destruct (decide (c = 1%nat)) as [-> | H1]; [now left |].
    destruct (decide (c = 3%nat)) as [-> | H3]; [now right |].
    destruct (preprocess_image_channels self image h w c Hs H1 H3) as [e He].
    rewrite He in Hok. discriminate Hok. }
  unfold preprocess_image, from_numpy in Hok. cbv zeta in Hok.
  rewrite Htorch, Hs in Hok.
  cbn [permute_2_0_1] in Hok. unfold mbind, Py.result_bind, unsqueeze_0 in Hok.
  cbn [Py.bind] in Hok.
  destruct (interpolate_bilinear_cases 1 c h w (image_size (config self))
              (image_size (config self))) as [(_ & _ & Hh & Hw & Hsz & _) | [e He]].
  - now repeat split.
  - rewrite He in Hok. discriminate Hok.
Qed.

(** X6: [preprocess_image] accepts exactly the arrays that
    [torch.from_numpy] takes and that have shape [(h, w, 3)] or
    [(h, w, 1)] with [h] and [w] positive, given a positive [image_size];
    what it returns always has shape [(1, 3, image_size, image_size)],
    whatever the height and width of the frame; and an array that
    [torch.from_numpy] refuses makes it raise that error, whatever its
    shape. *)
Theorem preprocess_image_accepts (self : SurgicalSceneAnalyzer) (image : ndarray) :
  ((exists t, preprocess_image self image = Py.Ok t) <->
   (nd_torch_error image = None /\
    exists h w c : nat,
      nd_shape image = [h; w; c] /\ h <> 0%nat /\ w <> 0%nat /\
      (c = 1%nat \/ c = 3%nat) /\ (0 < image_size (config self))%Z)) /\
  (forall t,
     preprocess_image self image = Py.Ok t ->
     t_shape t = [1%nat; 3%nat; Z.to_nat (image_size (config self));
                  Z.to_nat (image_size (config self))]) /\
  (forall e,
     nd_torch_error image = Some e -> preprocess_image self image = Py.Raise e).
Proof.
  split; [split | split].
  - intros [t Ht]. now apply (preprocess_image_Ok_inv self image t).
  - intros (Htorch & h & w & c & Hs & Hh & Hw & Hc & Hsz). eexists.
    now apply (preprocess_image_channel_ok self image h w c).
  - intros t Ht.
    destruct (preprocess_image_Ok_inv self image t Ht)
      as (Htorch & h & w & c & Hs & Hh & Hw & Hc & Hsz).
    rewrite (preprocess_image_channel_ok self image h w c Htorch Hs Hc Hh Hw Hsz) in Ht.
    injection Ht as <-. reflexivity.
  - intros e He. unfold preprocess_image, from_numpy. now rewrite He.
Qed.

Lemma preprocess_image_accepts_witness :
  (exists t,
     preprocess_image (demo_analyzer one_hot_clip_and_divide) rgb_frame = Py.Ok t /\
     t_shape t = [1; 3; 512; 512]%nat) /\
  (exists e,
     preprocess_image (demo_analyzer one_hot_clip_and_divide) flipped_frame
     = Py.Raise e).
Proof.
  split.
  - eexists. split; [reflexivity |].
    apply (proj1 (proj2 (preprocess_image_accepts
                           (demo_analyzer one_hot_clip_and_divide) rgb_frame))).
    reflexivity.
  - eexists.
    apply (proj2 (proj2 (preprocess_image_accepts
                           (demo_analyzer one_hot_clip_and_divide) flipped_frame))).
    reflexivity.
Defined.

(** X7: [analyze_frame] returns a record exactly when preprocessing and
    the two forward passes succeed; an error of preprocessing, of the
    segmentation network, or (after that one succeeded) of the phase
    network is the error of the call. *)
Theorem analyze_frame_failure_sources (self : SurgicalSceneAnalyzer)
    (image : ndarray) (quality_score : Q) :
  ((exists r, analyze_frame self image quality_score = Py.Ok r) <->
   (exists t m probs,
      preprocess_image self image = Py.Ok t /\
      segmentation_model self t = Py.Ok m /\
      phase_model self t = Py.Ok probs)) /\
  (forall e, preprocess_image self image = Py.Raise e ->
             analyze_frame self image quality_score = Py.Raise e) /\
  (forall t e, preprocess_image self image = Py.Ok t ->
               segmentation_model self t = Py.Raise e ->
               analyze_frame self image quality_score = Py.Raise e) /\
  (forall t m e, preprocess_image self image = Py.Ok t ->
                 segmentation_model self t = Py.Ok m ->
                 phase_model self t = Py.Raise e ->
                 analyze_frame self image quality_score = Py.Raise e).
Proof.
  split; [split |].
  - intros [r Hr]. apply analyze_frame_inv in Hr
      as (t & m & probs & _ & _ & _ & Ht & Hm & Hp & _).
    now exists t, m, probs.
  - intros (t & m & probs & Ht & Hm & Hp).
    destruct (analyze_frame_Ok self image quality_score t m probs Ht Hm Hp)
      as (d & label & objs & _ & _ & _ & Hr).
    eexists. exact Hr.
  - unfold analyze_frame. repeat split.
    + intros e He. now rewrite (bind_Raise _ _ _ He).
    + intros t e Ht He. rewrite (bind_Ok _ _ _ Ht). now rewrite (bind_Raise _ _ _ He).
    + intros t m e Ht Hm He. rewrite (bind_Ok _ _ _ Ht), (bind_Ok _ _ _ Hm).
      now rewrite (bind_Raise _ _ _ He).
Qed.

Lemma analyze_frame_failure_sources_witness :
  exists e,
    analyze_frame {| config := demo_config; device := "cpu";
                     segmentation_backend := "unet";
                     segmentation_model := fun _ => Py.Raise (Py.RuntimeError "out of memory");
                     phase_model := fun _ => Py.Ok one_hot_clip_and_divide |}
                  rgb_frame 80 = Py.Raise e.
Proof.
  eexists.
  eapply (proj1 (proj2 (proj2 (analyze_frame_failure_sources _ rgb_frame 80)))).
  - reflexivity.
  - reflexivity.
Defined.

Lemma fallback_dict (probs : list Q) :
  length probs <> length PHASE_DEFINITIONS ->
  _phase_probabilities_dict probs
  = Py.Ok [("pre_op", 10 # 60); ("port_setup", 10 # 60); ("exposure", 10 # 60);
           ("critical_dissection", 10 # 60); ("clip_and_divide", 10 # 60);
           ("closure", 10 # 60)].
Proof.
  intros Hlen. unfold _phase_probabilities_dict. cbv zeta.
  rewrite decide_True by now rewrite length_map.
  vm_compute. reflexivity.
Qed.

(** X8: in a returned record the mask is the one the segmentation
    network gave; the keys of the probabilities are the six phases of
    the taxonomy, in its order, whatever the phase network gave; the
    phase is one of them; and the probabilities are those of the phase
    network when there are six of them. *)
Theorem record_probabilities (self : SurgicalSceneAnalyzer) (image : ndarray)
    (quality_score : Q) (r : FrameRecord) :
  analyze_frame self image quality_score = Py.Ok r ->
  exists t probs,
    preprocess_image self image = Py.Ok t /\
    segmentation_model self t = Py.Ok (segmentation_mask r) /\
    phase_model self t = Py.Ok probs /\
    Py.keys (phase_probabilities r) = map fst PHASE_DEFINITIONS /\
    phase r ∈ map fst PHASE_DEFINITIONS /\
    (length probs = length PHASE_DEFINITIONS ->
     map snd (phase_probabilities r) = probs).
Proof.
  intros Hr. apply analyze_frame_inv in Hr
    as (t & m & probs & d & label & objs & Ht & Hm & Hp & Hd & Hl & _ & ->).
  exists t, probs. cbn [segmentation_mask phase phase_probabilities].
  destruct (phase_probabilities_dict_Ok probs) as (d' & Hd' & Hk & Heq & _).
  rewrite Hd in Hd'. injection Hd' as <-.
  repeat split; try assumption.
  destruct (phase_keys_nonempty d Hk) as [Hne Hnd].
  destruct (max_by_key_first_argmax d Hne Hnd) as (i & label' & p & Hl' & Hi & _).
  rewrite Hl in Hl'. injection Hl' as <-.
  rewrite <- Hk. apply list_elem_of_lookup_2 in Hi.
  now apply (list_elem_of_fmap_2 fst) in Hi.
Qed.

Lemma record_probabilities_witness :
  exists r,
    analyze_frame (demo_analyzer one_hot_clip_and_divide) rgb_frame 80 = Py.Ok r /\
    map snd (phase_probabilities r) = one_hot_clip_and_divide.
Proof.
  eexists. split; [vm_compute; reflexivity |].
  destruct (record_probabilities (demo_analyzer one_hot_clip_and_divide) rgb_frame 80
              _ eq_refl)
    as (t & probs & _ & _ & Hp & _ & _ & Heq).
  injection Hp as <-. apply Heq. reflexivity.
Defined.

(** X9: whenever the phase network's output does not have six entries,
    the record names the first phase, ["pre_op"], and its [phase_score]
    is [0.6], the mean of the six phase weights, whatever the frame. *)
Theorem fallback_phase_and_score (self : SurgicalSceneAnalyzer) (image : ndarray)
    (quality_score : Q) (t : tensor) (probs : list Q) (r : FrameRecord) :
  preprocess_image self image = Py.Ok t ->
  phase_model self t = Py.Ok probs ->
  length probs <> length PHASE_DEFINITIONS ->
  analyze_frame self image quality_score = Py.Ok r ->
  phase r = "pre_op" /\ phase_score r == 0.6.
Proof.
  intros Ht Hp Hlen Hr. apply analyze_frame_inv in Hr
    as (t' & m & probs' & d & label & objs & Ht' & _ & Hp' & Hd & Hl & _ & ->).
  rewrite Ht in Ht'. injection Ht' as <-.
  rewrite Hp in Hp'. injection Hp' as <-.
  rewrite (fallback_dict probs Hlen) in Hd. injection Hd as <-.
  cbn [phase phase_score]. split.
  - vm_compute in Hl. now injection Hl as <-.
  - vm_compute. reflexivity.
Qed.

Lemma fallback_phase_and_score_witness :
  exists r,
    analyze_frame (demo_analyzer [0.5; 0.5]) rgb_frame 80 = Py.Ok r /\
    phase r = "pre_op" /\ phase_score r == 0.6.
Proof.
  eexists. split; [vm_compute; reflexivity |].
  apply (fallback_phase_and_score (demo_analyzer [0.5; 0.5]) rgb_frame 80
           {| t_shape := [1; 3; 512; 512]%nat; t_image := rgb_frame |} [0.5; 0.5]).
  - reflexivity.
  - reflexivity.
  - vm_compute. discriminate.
  - vm_compute. reflexivity.
Defined.

(** X10: the importance of a record lies between the two values that
    [compute_importance] gives to its quality score together with the
    scores [0] and [0] and together with the scores [1] and [1] (the
    lower one for non-negative phase probabilities): the phase and the
    objects move the importance only within the band that the quality
    leaves. *)
Theorem importance_confined_by_quality (self : SurgicalSceneAnalyzer)
    (image : ndarray) (quality_score : Q) (r : FrameRecord) :
  analyze_frame self image quality_score = Py.Ok r ->
  importance_score r <= compute_importance quality_score 1 1 None /\
  ((forall t probs, phase_model self t = Py.Ok probs -> Forall (Qle 0) probs) ->
   compute_importance quality_score 0 0 None <= importance_score r).
Proof.
  intros Hr. apply analyze_frame_inv in Hr
    as (t & m & probs & d & label & objs & _ & _ & Hp & Hd & _ & _ & ->).
  cbn [importance_score].
  pose proof (phase_score_sum d) as Hsum.
  pose proof (object_score_bounds (map fst objs)) as Hos.
  split.
  - set (ps := calculate_phase_score d) in *.
    set (os := calculate_object_score (map fst objs)) in *.
    set (y := Qsum _) in *.
    clearbody ps os y. unfold compute_importance. cbv zeta. simpl default.
    q_cases.
  - intros Hsoftmax.
    pose proof (phase_score_bounds d
                  (phase_dict_nonneg probs d (Hsoftmax t probs Hp) Hd)) as Hps.
    clear Hsum.
    set (ps := calculate_phase_score d) in *.
    set (os := calculate_object_score (map fst objs)) in *.
    clearbody ps os. unfold compute_importance. cbv zeta. simpl default.
    q_cases.
Qed.

Lemma importance_confined_by_quality_witness :
  exists r,
    analyze_frame (demo_analyzer one_hot_clip_and_divide) rgb_frame 50 = Py.Ok r /\
    30 <= importance_score r <= 90.
Proof.
  assert (Hsoftmax : forall t probs,
             phase_model (demo_analyzer one_hot_clip_and_divide) t = Py.Ok probs ->
             Forall (Qle 0) probs).
  { intros t probs H. injection H as <-.
    repeat constructor; vm_compute; discriminate. }
  eexists. split; [vm_compute; reflexivity |].
  destruct (importance_confined_by_quality
              (demo_analyzer one_hot_clip_and_divide) rgb_frame 50 _ eq_refl)
    as [Hhi Hlo].
  split.
  - eapply Qle_trans; [| exact (Hlo Hsoftmax)]. vm_compute. discriminate.
  - eapply Qle_trans; [exact Hhi |]. vm_compute. discriminate.
Defined.

End AnalyzeFrameExtras.


(** ** The object summarizer, continued *)

Section SummarizerExtras.
Import Config Ranking RankingSpec Inference InferenceSpec Demo ExtraSpec.
Local Open Scope list_scope.
Local Open Scope Q_scope.

Lemma count_eq_zero (m : mask) (idx : Z) :
  count_eq m idx = 0%nat <-> Forall (fun v => v <> idx) (concat m).
Proof.
  unfold count_eq. induction (concat m) as [| v l IH]; simpl.
  - split; [constructor | reflexivity].
  - rewrite filter_cons. destruct (decide (v = idx)) as [-> | Hne]; simpl.
    + split; [discriminate |]. intros H. apply Forall_cons in H as [H _]. contradiction.
    + rewrite IH. split; [now constructor |]. intros H. now apply Forall_cons in H as [_ H].
Qed.

Lemma enumerate_label_list_tail :
  Py.enumerate label_list
  = (0%Z, "background")
    :: map (fun idx => (Z.of_nat idx, default "" (label_list !! idx)))
         (seq 1 (length label_list - 1)).
Proof. reflexivity. Qed.

Lemma area_entries_filter (m : mask) (l : list nat) :
  Forall (fun idx => default "" (label_list !! idx) <> "background") l ->
  omap (area_entry m)
    (map (fun idx => (Z.of_nat idx, default "" (label_list !! idx))) l)
  = map (fun idx => (default "" (label_list !! idx), count_eq m (Z.of_nat idx)))
      (filter (fun idx => (0 < count_eq m (Z.of_nat idx))%nat) l).
Proof.
  induction 1 as [| idx l Hidx _ IH]; [reflexivity |].
  rewrite filter_cons. cbn [map omap list_omap]. rewrite IH.
  unfold area_entry at 1. cbn [fst snd].
  destruct (decide (count_eq m (Z.of_nat idx) = 0%nat \/ _)) as [[Hz | Hbg] | Hn].
  - rewrite decide_False by lia. reflexivity.
  - contradiction.
  - rewrite decide_True; [reflexivity |].
    destruct (count_eq m (Z.of_nat idx)); [exfalso; apply Hn; now left | lia].
Qed.

(** The entries of [areas] are those of the classes that are present, in
    the order of their class indices. *)
Lemma area_entries_present (m : mask) :
  omap (area_entry m) (Py.enumerate label_list)
  = map (fun idx => (default "" (label_list !! idx), count_eq m (Z.of_nat idx)))
      (present_classes m).
Proof.
  rewrite enumerate_label_list_tail. cbn [omap list_omap].
  unfold area_entry at 1. cbn [fst snd].
  rewrite decide_True by now right.
  apply area_entries_filter.
  apply (bool_decide_unpack _). vm_compute. exact I.
Qed.

Lemma take_nil_inv {A} (n : nat) (l : list A) : take (S n) l = [] -> l = [].
Proof. destruct l; [reflexivity | discriminate]. Qed.

Lemma summarize_nil_iff (m : mask) :
  _summarize_objects m = Py.Ok [] <-> present_classes m = [].
Proof.
  rewrite summarize_objects_eq. unfold coverage_items. rewrite area_entries_present.
  split.
  - intros H. injection H as H. apply take_nil_inv in H.
    pose proof (sorted_reverse_Permutation (fun item : string * Q => item.2)
                  (map (with_coverage m)
                     (map (fun idx => (default "" (label_list !! idx),
                                       count_eq m (Z.of_nat idx)))
                        (present_classes m)))) as Hp.
    rewrite H in Hp. apply Permutation_nil in Hp.
    destruct (present_classes m); [reflexivity | discriminate Hp].
  - intros ->. reflexivity.
Qed.

Lemma present_classes_nil_iff (m : mask) :
  present_classes m = [] <-> Forall (fun v => ~ (1 <= v < 9)%Z) (concat m).
Proof.
  unfold present_classes. change (length label_list - 1)%nat with 8%nat.
  split.
  - intros Hnil. apply Forall_forall. intros v Hv Hrange.
    assert (Hin : Z.to_nat v ∈ filter (fun idx => (0 < count_eq m (Z.of_nat idx))%nat)
                                 (seq 1 8)).
    { apply list_elem_of_filter. split.
      - rewrite Z2Nat.id by lia.
        destruct (count_eq m v) eqn:Hc; [| lia].
        apply count_eq_zero in Hc. rewrite Forall_forall in Hc.
        exfalso. now apply (Hc v Hv).
      - apply elem_of_seq. lia. }
    rewrite Hnil in Hin. now apply elem_of_nil in Hin.
  - intros Hall.
    destruct (filter _ (seq 1 8)) as [| idx l] eqn:Hf; [reflexivity |].
    assert (Hin : idx ∈ filter (fun idx => (0 < count_eq m (Z.of_nat idx))%nat) (seq 1 8))
      by (rewrite Hf; apply elem_of_cons; now left).
    apply list_elem_of_filter in Hin as [Hpos Hseq]. apply elem_of_seq in Hseq.
    assert (Hz : count_eq m (Z.of_nat idx) = 0%nat).
    { apply count_eq_zero. eapply Forall_impl; [exact Hall |].
      intros v Hv ->. apply Hv. lia. }
    lia.
Qed.

(** X11: the object summary is empty exactly when no pixel of the mask
    has a class index from [1] to [8], in particular for an all-background
    mask and for a mask without pixels (no division by zero); a record
    with such a mask has no detected objects and an [object_score] of
    [0]. *)
Theorem empty_summary_iff (seg_mask : mask) :
  (_summarize_objects seg_mask = Py.Ok [] <->
   Forall (fun v => ~ (1 <= v < 9)%Z) (concat seg_mask)) /\
  (forall self image quality_score r,
     analyze_frame self image quality_score = Py.Ok r ->
     segmentation_mask r = seg_mask ->
     Forall (fun v => ~ (1 <= v < 9)%Z) (concat seg_mask) ->
     detected_objects r = [] /\ object_score r == 0).
Proof.
  split.
  - rewrite summarize_nil_iff. apply present_classes_nil_iff.
  - intros self image q r Hr Hm Hall. apply analyze_frame_inv in Hr
      as (t & m & probs & d & label & objs & _ & _ & _ & _ & _ & Ho & ->).
    cbn [segmentation_mask] in Hm. subst m.
    cbn [detected_objects object_score].
    assert (Hnil : _summarize_objects seg_mask = Py.Ok []).
    { apply summarize_nil_iff. now apply present_classes_nil_iff. }
    rewrite Ho in Hnil. injection Hnil as ->.
    split; [reflexivity |]. vm_compute. reflexivity.
Qed.

Lemma empty_summary_iff_witness :
  _summarize_objects [[0; 0]; [0; 9]]%Z = Py.Ok [] /\ _summarize_objects [] = Py.Ok [].
Proof.
  split.
  - apply (proj2 (proj1 (empty_summary_iff [[0; 0]; [0; 9]]%Z))).
    repeat (constructor; [lia |]). constructor.
  - apply (proj2 (proj1 (empty_summary_iff []))). constructor.
Defined.

(** X12: the summary lists [min(5, k)] classes when [k] classes other
    than the background are present, and a present class that is left out
    has a coverage no larger than that of any listed class: the summary
    is a top five by coverage, and complete when at most five classes
    are present. *)
Theorem summary_is_top_five (seg_mask : mask) :
  exists objs : list (string * Q),
    _summarize_objects seg_mask = Py.Ok objs /\
    length objs = Nat.min 5 (length (present_classes seg_mask)) /\
    forall idx label,
      idx ∈ present_classes seg_mask ->
      label_list !! idx = Some label ->
      let coverage := inject_Z (Z.of_nat (count_eq seg_mask (Z.of_nat idx)))
                      / inject_Z (Z.of_nat (size seg_mask)) in
      (label, coverage) ∈ objs \/
      (length objs = 5%nat /\ Forall (fun o => coverage <= o.2) objs).
Proof.
  eexists. split; [apply summarize_objects_eq |].
  set (ranked := Py.sorted_reverse _ _).
  assert (Hperm : ranked ≡ₚ coverage_items seg_mask)
    by apply sorted_reverse_Permutation.
  assert (Hlen : length ranked = length (present_classes seg_mask)).
  { rewrite Hperm. unfold coverage_items. rewrite area_entries_present.
    now rewrite !length_map. }
  split; [rewrite length_take; lia |].
  intros idx label Hidx Hlabel coverage.
  assert (Hin : (label, coverage) ∈ ranked).
  { rewrite Hperm. unfold coverage_items. rewrite area_entries_present.
    apply list_elem_of_fmap. eexists. split; [| apply list_elem_of_fmap_2; exact Hidx].
    unfold with_coverage. cbn [fst snd]. now rewrite Hlabel. }
  assert (Hsorted : StronglySorted ranked_before ranked).
  { apply (sorted_reverse_sorted (fun item : string * Q => item.2)
             (fun item : string * Q => class_rank item.1)).
    apply coverage_items_ranked. }
  rewrite <- (take_drop 5 ranked) in Hin, Hsorted.
  apply elem_of_app in Hin as [Hin | Hin]; [now left | right].
  split.
  - rewrite length_take. apply list_elem_of_lookup in Hin as [i Hi].
    apply lookup_lt_Some in Hi. rewrite length_drop in Hi. lia.
  - apply Forall_forall. intros o Ho.
    pose proof (StronglySorted_app_1_elem_of _ _ _ _ _ Hsorted Ho Hin) as Hb.
    apply (before_key_le (fun item : string * Q => item.2)
             (fun item : string * Q => class_rank item.1)) in Hb.
    exact Hb.
Qed.

Lemma summary_is_top_five_witness :
  exists objs : list (string * Q),
    _summarize_objects demo_mask = Py.Ok objs /\
    ("cystic_artery", 1 # 10) ∈ objs.
Proof.
  destruct (summary_is_top_five demo_mask) as (objs & Hobjs & Hlen & Hall).
  exists objs. split; [exact Hobjs |].
  destruct (Hall 4%nat "cystic_artery") as [Hin | [H5 _]].
  - apply (bool_decide_unpack _). vm_compute. exact I.
  - reflexivity.
  - vm_compute in Hin |- *. exact Hin.
  - rewrite Hlen in H5. vm_compute in H5. discriminate H5.
Defined.

End SummarizerExtras.


(** ** The scoring functions, continued *)

Section RankingExtras.
Import Config Ranking RankingSpec Inference InferenceSpec Demo ExtraSpec.
Local Open Scope list_scope.
Local Open Scope Q_scope.

Lemma weight_bounds (phase : string) : 0.2 <= weight phase <= 1.
Proof.
  unfold weight. destruct (PHASE_WEIGHTS !! phase) as [w |] eqn:Hw; simpl; [| lra].
  unfold PHASE_WEIGHTS in Hw. apply elem_of_list_to_map_2 in Hw.
  repeat (apply elem_of_cons in Hw as [Hw | Hw]; [injection Hw as _ ->; lra |]).
  now apply elem_of_nil in Hw.
Qed.

Lemma priority_bounds (label : string) : 0.2 <= priority label <= 1.
Proof.
  unfold priority. destruct (OBJECT_PRIORITIES !! label) as [w |] eqn:Hw; simpl; [| lra].
  unfold OBJECT_PRIORITIES in Hw. apply elem_of_list_to_map_2 in Hw.
  repeat (apply elem_of_cons in Hw as [Hw | Hw]; [injection Hw as _ ->; lra |]).
  now apply elem_of_nil in Hw.
Qed.

Lemma Qsum_app (l l' : list Q) : Qsum (l ++ l') == Qsum l + Qsum l'.
Proof. induction l as [| x l IH]; simpl; [lra | rewrite IH; lra]. Qed.

Lemma priority_sum_le_length (labels : list string) :
  Qsum (map priority labels) <= inject_Z (Z.of_nat (length labels)).
Proof.
  induction labels as [| label labels IH]; [vm_compute; discriminate |].
  cbn [map Qsum length]. rewrite Nat2Z.inj_succ, <- Z.add_1_r, inject_Z_plus.
  pose proof (priority_bounds label). change (inject_Z 1) with 1. lra.
Qed.

(** X13: a further object never lowers the object score, whether it is
    added at the end or at the front, and the score of [n] objects is at
    most [n / 3]: fewer than three objects cannot reach the full score. *)
Theorem object_score_grows (objects : list string) (obj : string) :
  calculate_object_score objects <= calculate_object_score (objects ++ [obj]) /\
  calculate_object_score objects <= calculate_object_score (obj :: objects) /\
  calculate_object_score objects <= inject_Z (Z.of_nat (length objects)) / 3.
Proof.
  pose proof (object_score_sum objects) as H0.
  pose proof (object_score_sum (objects ++ [obj])) as H1.
  pose proof (object_score_sum (obj :: objects)) as H2.
  rewrite map_app in H1.
  pose proof (Qsum_app (map priority objects) (map priority [obj])) as Happ.
  cbn [map Qsum] in H1, H2, Happ.
  set (s' := Qsum (map priority objects ++ [priority obj])) in *.
  pose proof (priority_bounds obj) as Hp.
  pose proof (priority_sum_le_length objects) as Hn.
  set (n := inject_Z (Z.of_nat (length objects))) in *.
  set (a := calculate_object_score objects) in *.
  set (b := calculate_object_score (objects ++ [obj])) in *.
  set (c := calculate_object_score (obj :: objects)) in *.
  set (s := Qsum (map priority objects)) in *.
  set (p := priority obj) in *.
  clearbody n a b c s s' p.
  repeat split; q_cases.
Qed.

Lemma one_hot_sum (d : Py.dict Q) (hot : string) :
  NoDup (Py.keys d) ->
  Forall (fun kv : string * Q => kv.2 == (if decide (kv.1 = hot) then 1 else 0)) d ->
  Qsum (map (fun '(phase, prob) => prob * weight phase) d)
  == (if decide (hot ∈ Py.keys d) then weight hot else 0).
Proof.
  unfold Py.keys. intros Hnd Hall.
  induction Hall as [| [k p] d Hp _ IH]; [reflexivity |].
  cbn [map fst Qsum] in *. apply NoDup_cons in Hnd as [Hk Hnd].
  specialize (IH Hnd). cbn [fst snd] in Hp.
  destruct (decide (k = hot)) as [-> | Hne].
  - rewrite (decide_True (P := hot ∈ hot :: map fst d))
      by (apply elem_of_cons; now left).
    rewrite (decide_False (P := hot ∈ map fst d)) in IH by exact Hk.
    rewrite IH, Hp. lra.
  - rewrite IH, Hp.
    destruct (decide (hot ∈ map fst d)) as [Hin | Hnin].
    + rewrite (decide_True (P := hot ∈ k :: map fst d))
        by (apply elem_of_cons; now right).
      lra.
    + rewrite (decide_False (P := hot ∈ k :: map fst d)); [lra |].
      intros [Heq | Hin]%elem_of_cons; [now apply Hne | now apply Hnin].
Qed.

(** X14: when one phase has the probability [1.0] and every other phase
    the probability [0.0], the phase score is the weight of that phase,
    the default [0.3] for a phase without a weight: a number between
    [0.2] and [1], so that the cap at [1.0] is not active. *)
Theorem phase_score_of_one_hot (phase_probabilities : Py.dict Q) (hot : string) :
  NoDup (Py.keys phase_probabilities) ->
  hot ∈ Py.keys phase_probabilities ->
  Forall (fun kv : string * Q => kv.2 == (if decide (kv.1 = hot) then 1 else 0))
    phase_probabilities ->
  calculate_phase_score phase_probabilities == default 0.3 (PHASE_WEIGHTS !! hot) /\
  0.2 <= calculate_phase_score phase_probabilities <= 1.
Proof.
  intros Hnd Hin Hall.
  pose proof (phase_score_sum phase_probabilities) as Hs.
  pose proof (one_hot_sum phase_probabilities hot Hnd Hall) as Hsum.
  rewrite decide_True in Hsum by exact Hin.
  pose proof (weight_bounds hot) as Hw.
  fold (weight hot).
  set (x := calculate_phase_score phase_probabilities) in *.
  set (y := Qsum _) in *. set (wh := weight hot) in *.
  clearbody x y wh.
  repeat split; q_cases.
Qed.

Lemma phase_score_of_one_hot_witness :
  calculate_phase_score scenario_phase_probabilities == 1.
Proof.
  destruct (phase_score_of_one_hot scenario_phase_probabilities "clip_and_divide")
    as [Heq _].
  - apply (bool_decide_unpack _). vm_compute. exact I.
  - apply (bool_decide_unpack _). vm_compute. exact I.
  - repeat constructor.
  - rewrite Heq. vm_compute. reflexivity.
Defined.

Lemma reported_label_known (m : mask) (item : string * Q) :
  reported m item -> 0.4 <= priority item.1 /\ is_Some (OBJECT_PRIORITIES !! item.1).
Proof.
  intros (idx & _ & Hi & Hbg & _).
  apply list_elem_of_lookup_2 in Hi.
  change label_list
    with ["background"; "liver"; "gallbladder"; "cystic_duct"; "cystic_artery";
          "common_bile_duct"; "grasper"; "hook"; "scissors"] in Hi.
  repeat (apply elem_of_cons in Hi as [Hi | Hi];
          [rewrite Hi in *; first [contradiction
                                  | split; [vm_compute; discriminate
                                           | eexists; vm_compute; reflexivity]] |]).
  now apply elem_of_nil in Hi.
Qed.

Lemma phase_key_known (phase : string) :
  phase ∈ map fst PHASE_DEFINITIONS -> is_Some (PHASE_WEIGHTS !! phase).
Proof.
  intros Hi.
  change (map fst PHASE_DEFINITIONS)
    with ["pre_op"; "port_setup"; "exposure"; "critical_dissection";
          "clip_and_divide"; "closure"] in Hi.
  repeat (apply elem_of_cons in Hi as [-> | Hi];
          [eexists; vm_compute; reflexivity |]).
  now apply elem_of_nil in Hi.
Qed.

(** X15: the two score tables cover the two taxonomies: every object of
    a frame record has an entry in [OBJECT_PRIORITIES] and every phase of
    its probabilities has one in [PHASE_WEIGHTS], so the defaults [0.2]
    and [0.3] play no part in [analyze_frame]; and a record with a
    detected object has an object score of at least [0.4 / 3]. *)
Theorem score_tables_cover_taxonomies (self : SurgicalSceneAnalyzer)
    (image : ndarray) (quality_score : Q) (r : FrameRecord) :
  analyze_frame self image quality_score = Py.Ok r ->
  Forall (fun o => is_Some (OBJECT_PRIORITIES !! o.1)) (detected_objects r) /\
  Forall (fun kv => is_Some (PHASE_WEIGHTS !! kv.1)) (Inference.phase_probabilities r) /\
  (detected_objects r <> [] -> 0.4 / 3 <= object_score r).
Proof.
  intros Hr. apply analyze_frame_inv in Hr
    as (t & m & probs & d & label & objs & _ & _ & _ & Hd & _ & Ho & ->).
  cbn [detected_objects Inference.phase_probabilities object_score].
  assert (Hrep : Forall (reported m) objs).
  { rewrite summarize_objects_eq in Ho. injection Ho as <-.
    apply Forall_take. rewrite sorted_reverse_Permutation.
    apply coverage_items_reported. }
  split; [| split].
  - eapply Forall_impl; [exact Hrep |]. intros item Hitem.
    now apply (reported_label_known m).
  - destruct (phase_probabilities_dict_Ok probs) as (d' & Hd' & Hk & _).
    rewrite Hd in Hd'. injection Hd' as <-.
    apply Forall_forall. intros kv Hkv. apply phase_key_known.
    rewrite <- Hk. unfold Py.keys. now apply list_elem_of_fmap_2.
  - intros Hne. destruct objs as [| o objs]; [contradiction |].
    apply Forall_cons in Hrep as [Ho1 Hrest].
    pose proof (object_score_sum (map fst (o :: objs))) as Hs.
    cbn [map Qsum] in Hs |- *.
    destruct (reported_label_known m o Ho1) as [Hp _].
    assert (Hsum : 0 <= Qsum (map priority (map fst objs))).
    { apply Qsum_nonneg. apply Forall_fmap. apply Forall_forall.
      intros l _. apply priority_nonneg. }
    set (x := calculate_object_score (o.1 :: map fst objs)) in *.
    set (y := Qsum _) in *. set (p := priority o.1) in *.
    clearbody x y p. q_cases.
Qed.

Lemma score_tables_cover_taxonomies_witness :
  exists r,
    analyze_frame (demo_analyzer one_hot_clip_and_divide) rgb_frame 80 = Py.Ok r /\
    0.4 / 3 <= object_score r.
Proof.
  eexists. split; [vm_compute; reflexivity |].
  apply (score_tables_cover_taxonomies
           (demo_analyzer one_hot_clip_and_divide) rgb_frame 80 _ eq_refl).
  discriminate.
Defined.

End RankingExtras.


(** ** [ml_pipeline/dataset.py] *)

Section DatasetExtras.
Import Config Inference InferenceSpec Dataset ExtraSpec RankingSpec.
Local Open Scope list_scope.
Local Open Scope Q_scope.

(** The phase of a progress value, by the cumulative shares of the
    taxonomy. *)
Lemma phase_from_progress_rank (progress : Q) :
  (progress <= 0.1 /\ _phase_from_progress progress = Some "pre_op") \/
  (0.1 < progress <= 0.2 /\ _phase_from_progress progress = Some "port_setup") \/
  (0.2 < progress <= 0.4 /\ _phase_from_progress progress = Some "exposure") \/
  (0.4 < progress <= 0.75 /\
   _phase_from_progress progress = Some "critical_dissection") \/
  (0.75 < progress <= 0.9 /\ _phase_from_progress progress = Some "clip_and_divide") \/
  (0.9 < progress /\ _phase_from_progress progress = Some "closure").
Proof.
  unfold _phase_from_progress, PHASE_DEFINITIONS. cbn [phase_loop].
  repeat match goal with
         | |- context [Qlt_le_dec ?a ?b] => destruct (Qlt_le_dec a b)
         end;
    cbn [fmap option_fmap option_map last fst];
    solve [ repeat first [ split; [lra | reflexivity]
                         | left; split; [lra | reflexivity]
                         | right ] ].
Qed.

Lemma phase_from_progress_ranks (p q : Q) :
  p <= q ->
  exists a b i j,
    _phase_from_progress p = Some a /\ _phase_from_progress q = Some b /\
    phase_index a = Some i /\ phase_index b = Some j /\ (i <= j)%nat.
Proof.
  intros Hpq.
  destruct (phase_from_progress_rank p)
    as [[Hp Ep] | [[Hp Ep] | [[Hp Ep] | [[Hp Ep] | [[Hp Ep] | [Hp Ep]]]]]];
    destruct (phase_from_progress_rank q)
      as [[Hq Eq] | [[Hq Eq] | [[Hq Eq] | [[Hq Eq] | [[Hq Eq] | [Hq Eq]]]]]];
    rewrite Ep, Eq;
    first [ exfalso; lra
          | do 4 eexists; split; [reflexivity |]; split; [reflexivity |];
            split; [vm_compute; reflexivity |];
            split; [vm_compute; reflexivity | lia] ].
Qed.

(** X16: [_phase_from_progress] always returns a phase, the one whose
    cumulative share is the first to reach the progress value: the
    boundaries are [0.1], [0.2], [0.4], [0.75] and [0.9], each belonging
    to the earlier phase; a progress below [0] is [pre_op] and a progress
    above [1] is [closure]. *)
Theorem phase_from_progress_thresholds (progress : Q) :
  (progress <= 0.1 -> _phase_from_progress progress = Some "pre_op") /\
  (0.1 < progress <= 0.2 -> _phase_from_progress progress = Some "port_setup") /\
  (0.2 < progress <= 0.4 -> _phase_from_progress progress = Some "exposure") /\
  (0.4 < progress <= 0.75 ->
   _phase_from_progress progress = Some "critical_dissection") /\
  (0.75 < progress <= 0.9 ->
   _phase_from_progress progress = Some "clip_and_divide") /\
  (0.9 < progress -> _phase_from_progress progress = Some "closure").
Proof.
  destruct (phase_from_progress_rank progress)
    as [[Hp Ep] | [[Hp Ep] | [[Hp Ep] | [[Hp Ep] | [[Hp Ep] | [Hp Ep]]]]]];
    rewrite Ep; repeat split; intros H; first [reflexivity | exfalso; lra].
Qed.

Lemma phase_from_progress_thresholds_witness :
  _phase_from_progress 0.4 = Some "exposure" /\
  _phase_from_progress 0.5 = Some "critical_dissection" /\
  _phase_from_progress 7 = Some "closure".
Proof.
  split; [| split].
  - apply (proj1 (proj2 (proj2 (phase_from_progress_thresholds 0.4)))). lra.
  - apply (proj1 (proj2 (proj2 (proj2 (phase_from_progress_thresholds 0.5))))). lra.
  - apply (proj2 (proj2 (proj2 (proj2 (proj2 (phase_from_progress_thresholds 7)))))). lra.
Defined.

(** X17: the phase grows with the progress: for [p <= q] the phase of
    [p] comes no later in the taxonomy than the phase of [q]. *)
Theorem phase_from_progress_monotone (p q : Q) :
  p <= q ->
  exists a b i j,
    _phase_from_progress p = Some a /\ _phase_from_progress q = Some b /\
    phase_index a = Some i /\ phase_index b = Some j /\ (i <= j)%nat.
Proof. apply phase_from_progress_ranks. Qed.

Lemma phase_from_progress_monotone_witness :
  exists a b i j,
    _phase_from_progress 0.3 = Some a /\ _phase_from_progress 0.8 = Some b /\
    phase_index a = Some i /\ phase_index b = Some j /\ (i <= j)%nat.
Proof. apply (phase_from_progress_monotone 0.3 0.8). lra. Defined.

Lemma phase_from_progress_total (progress : Q) :
  exists name, _phase_from_progress progress = Some name.
Proof.
  destruct (phase_from_progress_rank progress)
    as [[_ E] | [[_ E] | [[_ E] | [[_ E] | [[_ E] | [_ E]]]]]]; eauto.
Qed.

Lemma label_frames_spec (vid : string) (total : Z) (idx : nat)
    (frames : list (path * path)) :
  exists samples,
    label_frames vid total idx frames = Some samples /\
    map (fun s => (image_path s, mask_path s)) samples = frames /\
    map frame_index samples = seq idx (length frames) /\
    Forall (fun s =>
              Dataset.video_id s = vid /\
              _phase_from_progress
                (inject_Z (Z.of_nat (frame_index s)) / inject_Z (Z.max 1 (total - 1)))
              = Some (Dataset.phase s)) samples.
Proof.
  revert idx. induction frames as [| [ip mp] frames IH]; intros idx.
  - exists []. repeat split. constructor.
  - destruct (IH (S idx)) as (samples & E & Hp & Hi & Hall).
    destruct (phase_from_progress_total
                (inject_Z (Z.of_nat idx) / inject_Z (Z.max 1 (total - 1))))
      as [name Hname].
    cbn [label_frames]. cbv zeta. rewrite Hname, E.
    eexists. split; [reflexivity |]. cbn [map length seq].
    rewrite Hp, Hi. repeat split.
    constructor; [| exact Hall]. cbn. split; [reflexivity | exact Hname].
Qed.

Lemma frame_progress_le (total : Z) (i j : nat) :
  (i <= j)%nat ->
  inject_Z (Z.of_nat i) / inject_Z (Z.max 1 (total - 1))
  <= inject_Z (Z.of_nat j) / inject_Z (Z.max 1 (total - 1)).
Proof.
  intros Hij. unfold Qdiv. apply Qmult_le_compat_r.
  - rewrite <- Zle_Qle. lia.
  - apply Qinv_le_0_compat. change 0 with (inject_Z 0). rewrite <- Zle_Qle. lia.
Qed.

(** X18: the samples of a video are its frames in order, numbered from
    [0]; the first one is labelled [pre_op], the last one of a video with
    two or more frames [closure] (the only frame of a one-frame video is
    [pre_op]), and along the video the phase never goes back in the
    taxonomy. *)
Theorem video_samples_labelled (video : string) (frames : list (path * path)) :
  exists samples,
    video_samples video frames = Some samples /\
    map (fun s => (image_path s, mask_path s)) samples = frames /\
    map frame_index samples = seq 0 (length frames) /\
    Forall (fun s => Dataset.video_id s = video) samples /\
    (forall s, head samples = Some s -> Dataset.phase s = "pre_op") /\
    ((2 <= length frames)%nat ->
     forall s, last samples = Some s -> Dataset.phase s = "closure") /\
    (forall i j si sj,
       (i <= j)%nat -> samples !! i = Some si -> samples !! j = Some sj ->
       exists a b,
         phase_index (Dataset.phase si) = Some a /\
         phase_index (Dataset.phase sj) = Some b /\ (a <= b)%nat).
Proof.
  unfold video_samples. cbv zeta.
  destruct (decide (Z.of_nat (length frames) = 0%Z)) as [Hz | Hnz].
  - destruct frames; [| discriminate Hz].
    exists []. repeat split; try constructor; try discriminate.
  - destruct (label_frames_spec video (Z.of_nat (length frames)) 0 frames)
      as (samples & E & Hp & Hi & Hall).
    exists samples. split; [exact E |]. split; [exact Hp |]. split; [exact Hi |].
    set (total := Z.of_nat (length frames)) in *.
    assert (Hlen : length samples = length frames).
    { rewrite <- (length_map frame_index), Hi. apply length_seq. }
    assert (Hidx : forall i s, samples !! i = Some s -> frame_index s = i).
    { intros i s Hs.
      assert (H : map frame_index samples !! i = Some (frame_index s))
        by (rewrite list_lookup_fmap, Hs; reflexivity).
      rewrite Hi in H. apply lookup_seq in H as [H _]. exact H. }
    assert (Hph : forall i s, samples !! i = Some s ->
              _phase_from_progress
                (inject_Z (Z.of_nat i) / inject_Z (Z.max 1 (total - 1)))
              = Some (Dataset.phase s)).
    { intros i s Hs. rewrite Forall_forall in Hall.
      destruct (Hall s (list_elem_of_lookup_2 _ _ _ Hs)) as [_ H].
      now rewrite (Hidx i s Hs) in H. }
    split; [| split; [| split]].
    + eapply Forall_impl; [exact Hall |]. now intros s [H _].
    + intros s Hs. rewrite head_lookup in Hs. apply Hph in Hs.
      assert (H0 : inject_Z (Z.of_nat 0) / inject_Z (Z.max 1 (total - 1)) == 0).
      { unfold Qdiv. apply Qmult_0_l. }
      set (x := inject_Z (Z.of_nat 0) / _) in *.
      destruct (phase_from_progress_rank x)
        as [[Hx Ex] | [[Hx Ex] | [[Hx Ex] | [[Hx Ex] | [[Hx Ex] | [Hx Ex]]]]]];
        first [ congruence | exfalso; clearbody x; lra ].
    + intros Htwo s Hs. rewrite last_lookup in Hs. apply Hph in Hs.
      rewrite Hlen in Hs.
      assert (H1 : inject_Z (Z.of_nat (pred (length frames)))
                   / inject_Z (Z.max 1 (total - 1)) == 1).
      { replace (Z.max 1 (total - 1)) with (Z.of_nat (pred (length frames)))
          by (unfold total; lia).
        unfold Qdiv. apply Qmult_inv_r.
        unfold Qeq. simpl. lia. }
      set (x := inject_Z (Z.of_nat (pred (length frames))) / _) in *.
      destruct (phase_from_progress_rank x)
        as [[Hx Ex] | [[Hx Ex] | [[Hx Ex] | [[Hx Ex] | [[Hx Ex] | [Hx Ex]]]]]];
        first [ congruence | exfalso; clearbody x; lra ].
    + intros i j si sj Hij Hsi Hsj.
      apply Hph in Hsi. apply Hph in Hsj.
      destruct (phase_from_progress_ranks _ _ (frame_progress_le total i j Hij))
        as (a & b & ia & ib & Ha & Hb & Hia & Hib & Hle).
      rewrite Hsi in Ha. rewrite Hsj in Hb.
      injection Ha as <-. injection Hb as <-.
      exists ia, ib. auto.
Qed.

Lemma video_samples_labelled_witness :
  exists samples,
    video_samples "video01" [("a_endo.png", "a_endo_mask.png");
                             ("b_endo.png", "b_endo_mask.png");
                             ("c_endo.png", "c_endo_mask.png")] = Some samples /\
    map Dataset.phase samples = ["pre_op"; "critical_dissection"; "closure"] /\
    forall s, last samples = Some s -> Dataset.phase s = "closure".
Proof.
  destruct (video_samples_labelled "video01"
              [("a_endo.png", "a_endo_mask.png");
               ("b_endo.png", "b_endo_mask.png");
               ("c_endo.png", "c_endo_mask.png")])
    as (samples & E & _ & _ & _ & _ & Hlast & _).
  exists samples. split; [exact E |].
  split; [| apply Hlast; simpl; lia].
  vm_compute in E. injection E as <-. reflexivity.
Defined.

Lemma assign_eq_map (g : Z -> Z) (raw : mask) (pixel_value class_idx : Z) :
  assign_eq (map (map g) raw) raw pixel_value class_idx
  = map (map (fun v => if decide (v = pixel_value) then class_idx else g v)) raw.
Proof.
  unfold assign_eq. rewrite zip_with_map_l. apply map_ext. intros row.
  apply zip_with_map_l.
Qed.

Lemma class_of_code_cases (v : Z) :
  (if decide (v = 50) then 8
   else if decide (v = 32) then 7
   else if decide (v = 31) then 6
   else if decide (v = 23) then 5
   else if decide (v = 22) then 4
   else if decide (v = 21) then 3
   else if decide (v = 12) then 2
   else if decide (v = 11) then 1
   else if decide (v = 0) then 0 else 0)%Z
  = class_of_code v.
Proof.
  repeat match goal with
         | |- context [decide (v = ?k)] =>
             destruct (decide (v = k)) as [-> | ?]; [reflexivity |]
         end.
  unfold class_of_code, PIXEL_VALUE_TO_LABEL. cbn [list_find fst].
  repeat (rewrite decide_False by (intros H; symmetry in H; contradiction)).
  reflexivity.
Qed.

Lemma encode_mask_eq (raw : mask) : _encode_mask raw = map (map class_of_code) raw.
Proof.
  unfold _encode_mask, zeros_like.
  change (Py.enumerate PIXEL_VALUE_TO_LABEL)
    with [(0, (0, "background")); (1, (11, "liver")); (2, (12, "gallbladder"));
          (3, (21, "cystic_duct")); (4, (22, "cystic_artery"));
          (5, (23, "common_bile_duct")); (6, (31, "grasper")); (7, (32, "hook"));
          (8, (50, "scissors"))]%Z.
  cbn [fold_left]. rewrite !assign_eq_map.
  apply map_ext. intros row. apply map_ext. intros v.
  apply class_of_code_cases.
Qed.

Lemma code_of_class (idx : nat) (v : Z) (label : string) :
  PIXEL_VALUE_TO_LABEL !! idx = Some (v, label) ->
  class_of_code v = Z.of_nat idx /\
  (idx <> 0%nat -> forall x, class_of_code x = Z.of_nat idx <-> x = v).
Proof.
  intros Hl.
  do 9 (destruct idx as [| idx];
        [injection Hl as <- <-; split; [reflexivity |];
         intros Hidx x; try contradiction;
         rewrite <- class_of_code_cases;
         repeat match goal with
                | |- context [decide (x = ?k)] => destruct (decide (x = k)) as [-> | ?]
                end; split; intros H; first [reflexivity | discriminate H | lia]
        |]).
  discriminate Hl.
Qed.

Lemma filter_map_length {A B} (f : A -> B) (P : B -> Prop) `{!forall y, Decision (P y)}
    (l : list A) :
  length (filter P (map f l)) = length (filter (fun x => P (f x)) l).
Proof.
  induction l as [| x l IH]; [reflexivity |].
  cbn [map]. rewrite !filter_cons. destruct (decide (P (f x))); simpl; now rewrite IH.
Qed.

Lemma filter_ext_length {A} (P Q : A -> Prop) `{!forall y, Decision (P y)}
    `{!forall y, Decision (Q y)} (l : list A) :
  (forall x, P x <-> Q x) -> length (filter P l) = length (filter Q l).
Proof.
  intros HPQ. induction l as [| x l IH]; [reflexivity |].
  rewrite !filter_cons.
  destruct (decide (P x)) as [Hp | Hp], (decide (Q x)) as [Hq | Hq]; simpl;
    first [now rewrite IH | exfalso; apply HPQ in Hp; contradiction
          | exfalso; apply HPQ in Hq; contradiction].
Qed.

Lemma concat_map_map {A B} (f : A -> B) (m : list (list A)) :
  concat (map (map f) m) = map f (concat m).
Proof.
  induction m as [| row m IH]; [reflexivity |].
  cbn [map concat]. now rewrite IH, map_app.
Qed.

(** X19: [_encode_mask] replaces each pixel code of the raw mask by the
    position of the code in [PIXEL_VALUE_TO_LABEL] and every other value
    by [0], the background; the encoded mask has the shape of the raw
    one, and for each class other than the background the number of
    pixels that the object summarizer counts in the encoded mask is the
    number of pixels with the code of that class in the raw mask. *)
Theorem encode_mask_classes (raw : mask) :
  _encode_mask raw = map (map class_of_code) raw /\
  (forall idx v label,
     PIXEL_VALUE_TO_LABEL !! idx = Some (v, label) ->
     class_of_code v = Z.of_nat idx /\
     (idx <> 0%nat -> count_eq (_encode_mask raw) (Z.of_nat idx) = count_eq raw v)) /\
  (forall v, v ∉ map fst PIXEL_VALUE_TO_LABEL -> class_of_code v = 0%Z).
Proof.
  split; [apply encode_mask_eq |]. split.
  - intros idx v label Hl. destruct (code_of_class idx v label Hl) as [Hc Hiff].
    split; [exact Hc |]. intros Hidx.
    rewrite encode_mask_eq. unfold count_eq.
    rewrite concat_map_map, filter_map_length.
    apply filter_ext_length. intros x. now apply Hiff.
  - intros v Hv. rewrite <- class_of_code_cases.
    repeat match goal with
           | |- context [decide (v = ?k)] =>
               destruct (decide (v = k)) as [-> | ?];
               [exfalso; apply Hv; apply (bool_decide_unpack _); vm_compute; exact I |]
           end.
    reflexivity.
Qed.

Lemma encode_mask_classes_witness :
  _encode_mask [[0; 11; 12; 13]; [50; 255; 32]]%Z = [[0; 1; 2; 0]; [8; 0; 7]]%Z /\
  count_eq (_encode_mask [[0; 11; 12; 13]; [50; 255; 32]]%Z) 8
  = count_eq [[0; 11; 12; 13]; [50; 255; 32]]%Z 50 /\
  class_of_code 255 = 0%Z.
Proof.
  destruct (encode_mask_classes [[0; 11; 12; 13]; [50; 255; 32]]%Z)
    as (Heq & Hcodes & Hother).
  split; [rewrite Heq; reflexivity |]. split.
  - apply (proj2 (Hcodes 8%nat 50%Z "scissors" eq_refl)). discriminate.
  - apply Hother. apply (bool_decide_unpack _). vm_compute. exact I.
Defined.

Lemma slice_take_drop {A} (l : list A) (a b : Z) :
  (0 <= a <= b)%Z ->
  slice l a b = take (Z.to_nat b - Z.to_nat a) (drop (Z.to_nat a) l).
Proof.
  intros Hab. unfold slice, slice_bound. cbv zeta.
  rewrite !decide_False by lia.
  destruct (decide (Z.of_nat (length l) < a)%Z) as [Hlen | Hlen].
  - rewrite (drop_ge l (Z.to_nat a)) by lia. rewrite take_nil.
    replace (Z.to_nat (Z.min b (Z.of_nat (length l)) - Z.min a (Z.of_nat (length l))))
      with 0%nat by lia.
    reflexivity.
  - replace (Z.min a (Z.of_nat (length l))) with a by lia.
    destruct (decide (Z.of_nat (length l) < b)%Z) as [Hb | Hb].
    + rewrite !take_ge by (rewrite length_drop; lia). reflexivity.
    + f_equal. lia.
Qed.

Lemma three_pieces {A} (l : list A) (t v u : nat) :
  (length l <= t + v + u)%nat ->
  take t l ++ take v (drop t l) ++ take u (drop (t + v) l) = l.
Proof.
  intros Hlen.
  rewrite (take_ge (drop (t + v) l)) by (rewrite length_drop; lia).
  rewrite <- drop_drop. rewrite take_drop. apply take_drop.
Qed.

(** X20: the three splits are consecutive pieces of the shuffled video
    list and together make up all of it, whatever the two fractions are;
    they share no video when the names are distinct; [train] is empty
    only when there is no video; and with one or two videos [test] is
    empty, with a single video [val] as well. *)
Theorem splits_partition (videos : list string) (val_split test_split : Q) :
  let s := make_splits videos val_split test_split in
  train s ++ val s ++ test s = videos /\
  (videos <> [] -> train s <> []) /\
  ((length videos <= 2)%nat -> test s = []) /\
  ((length videos <= 1)%nat -> val s = []) /\
  (NoDup videos ->
   forall x, (x ∈ train s -> (x ∉ val s) /\ (x ∉ test s)) /\ (x ∈ val s -> x ∉ test s)).
Proof.
  unfold make_splits. cbv zeta. cbn [train val test].
  set (n_total := Z.of_nat (length videos)).
  set (n_test := Z.max 1 (int (inject_Z n_total * test_split))).
  set (n_val := Z.max 1 (int (inject_Z n_total * val_split))).
  set (n_train := Z.max 1 (n_total - n_val - n_test)).
  assert (Htest : (1 <= n_test)%Z) by apply Z.le_max_l.
  assert (Hval : (1 <= n_val)%Z) by apply Z.le_max_l.
  assert (Htrain : (1 <= n_train)%Z) by apply Z.le_max_l.
  assert (Hsum : (n_total <= n_train + n_val + n_test)%Z) by (unfold n_train; lia).
  clearbody n_test n_val n_train.
  rewrite !slice_take_drop by lia.
  replace (Z.to_nat n_train - Z.to_nat 0)%nat with (Z.to_nat n_train) by lia.
  replace (Z.to_nat (n_train + n_val) - Z.to_nat n_train)%nat
    with (Z.to_nat n_val) by lia.
  replace (Z.to_nat (n_train + n_val + n_test) - Z.to_nat (n_train + n_val))%nat
    with (Z.to_nat n_test) by lia.
  replace (Z.to_nat (n_train + n_val))
    with (Z.to_nat n_train + Z.to_nat n_val)%nat by lia.
  change (Z.to_nat 0) with 0%nat. rewrite drop_0.
  assert (Hall : take (Z.to_nat n_train) videos
                 ++ take (Z.to_nat n_val) (drop (Z.to_nat n_train) videos)
                 ++ take (Z.to_nat n_test)
                      (drop (Z.to_nat n_train + Z.to_nat n_val) videos)
                 = videos)
    by (apply three_pieces; unfold n_total in Hsum; lia).
  split; [exact Hall |]. split; [| split; [| split]].
  - intros Hne. destruct videos as [| x videos]; [contradiction |].
    destruct (Z.to_nat n_train) eqn:Ht; [lia | discriminate].
  - intros Hlen. rewrite drop_ge by lia. apply take_nil.
  - intros Hlen. rewrite drop_ge by lia. apply take_nil.
  - intros Hnd x. rewrite <- Hall in Hnd.
    apply NoDup_app in Hnd as (_ & Htv & Hnd).
    apply NoDup_app in Hnd as (_ & Hvt & _).
    split.
    + intros Hx. specialize (Htv x Hx). rewrite elem_of_app in Htv. tauto.
    + intros Hx. now apply Hvt.
Qed.

Lemma splits_partition_witness :
  let s := make_splits ["video01"; "video09"; "video12"; "video17"] 0.1 0.1 in
  train s = ["video01"; "video09"] /\ val s = ["video12"] /\ test s = ["video17"] /\
  forall x, (x ∈ train s -> (x ∉ val s) /\ (x ∉ test s)) /\ (x ∈ val s -> x ∉ test s).
Proof.
  split; [reflexivity |]. split; [reflexivity |]. split; [reflexivity |].
  apply (splits_partition ["video01"; "video09"; "video12"; "video17"] 0.1 0.1).
  apply (bool_decide_unpack _). vm_compute. exact I.
Defined.

End DatasetExtras.

(** ** [ml_pipeline/utils.py] and [TrainingConfig.__post_init__] *)

Section UtilsExtras.
Import Config Inference Utils ConfigInit RankingSpec Demo ExtraSpec.
Local Open Scope list_scope.
Local Open Scope Q_scope.

Lemma updates_from (m0 : AverageMeter) (updates : list (Q * option Z)) :
  let m := fold_left (fun m '(val, n) => update m val n) updates m0 in
  count m = (count m0 + foldr Z.add 0 (map (fun '(_, n) => default 1 n) updates))%Z /\
  name m = name m0 /\
  value m = default (value m0) (last (map fst updates)).
Proof.
  cbv zeta. revert m0.
  induction updates as [| [val n] updates IH]; intros m0.
  - cbn. repeat split. lia.
  - cbn [fold_left map foldr fst].
    destruct (IH (update m0 val n)) as (Hc & Hn & Hv).
    rewrite Hc, Hn, Hv. cbn [update count name value].
    repeat split; [lia |].
    destruct updates as [| u updates]; [reflexivity |].
    cbn [map last].
    destruct (last (u.1 :: map fst updates)) eqn:E; [reflexivity |].
    apply last_None in E. discriminate E.
Qed.

(** X21: a meter that was never updated has the average [0]: the
    divisor is [max(1, count)], so that nothing is divided by zero.
    After any updates the [count] of a meter is the sum of the weights,
    a missing weight being [1], its [value] is the value of the last
    update, and its [name] is the one it was made with; and while the
    count is at most [1], the average is the [sum] itself. *)
Theorem average_meter_state (meter_name : string) (updates : list (Q * option Z)) :
  let m := fold_left (fun m '(val, n) => update m val n) updates (new meter_name) in
  avg (new meter_name) == 0 /\
  count m = foldr Z.add 0%Z (map (fun '(_, n) => default 1%Z n) updates) /\
  value m = default 0 (last (map fst updates)) /\
  name m = meter_name /\
  ((count m <= 1)%Z -> avg m == sum m).
Proof.
  cbv zeta.
  destruct (updates_from (new meter_name) updates) as (Hc & Hn & Hv).
  cbn [new count name value] in Hc, Hn, Hv. rewrite Z.add_0_l in Hc.
  split; [reflexivity |]. split; [exact Hc |]. split; [exact Hv |].
  split; [exact Hn |].
  intros Hle. unfold avg. rewrite Z.max_l by exact Hle.
  unfold Qdiv. change (/ inject_Z 1) with 1. apply Qmult_1_r.
Qed.

Lemma average_meter_state_witness :
  let m := fold_left (fun m '(val, n) => update m val n)
             [(0.5, None)] (new "train_loss") in
  count m = 1%Z /\ avg m == sum m.
Proof.
  destruct (average_meter_state "train_loss" [(0.5, None)])
    as (_ & Hc & _ & _ & Havg).
  cbv zeta. split; [exact Hc |]. apply Havg. rewrite Hc. reflexivity.
Defined.

(** X22: [__post_init__] keeps a checkpoint path that was given, fills
    a missing one only with a file that exists, namely
    [endovit_seg.pth] resp. [endovit_phase.pth] in the artifacts
    directory, leaves the other fields alone, and changes nothing when
    it is run again. *)
Theorem post_init_detects_checkpoints (w : World) (cfg : TrainingConfig)
    (endovit_phase_checkpoint : option path) :
  let '(cfg', phase') := __post_init__ w cfg endovit_phase_checkpoint in
  artifacts_dir cfg' = artifacts_dir cfg /\
  image_size cfg' = image_size cfg /\
  (forall p, endovit_segmentation_checkpoint cfg = Some p ->
             endovit_segmentation_checkpoint cfg' = Some p) /\
  (forall p, endovit_phase_checkpoint = Some p -> phase' = Some p) /\
  (endovit_segmentation_checkpoint cfg = None ->
   endovit_segmentation_checkpoint cfg'
   = if path_exists w (artifacts_dir cfg ++ "/endovit_seg.pth")%string
     then Some (artifacts_dir cfg ++ "/endovit_seg.pth")%string else None) /\
  (endovit_phase_checkpoint = None ->
   phase'
   = if path_exists w (artifacts_dir cfg ++ "/endovit_phase.pth")%string
     then Some (artifacts_dir cfg ++ "/endovit_phase.pth")%string else None) /\
  __post_init__ w cfg' phase' = (cfg', phase').
Proof.
  unfold __post_init__. cbv zeta.
  cbn [artifacts_dir image_size endovit_segmentation_checkpoint].
  destruct (endovit_segmentation_checkpoint cfg) as [p |],
           endovit_phase_checkpoint as [q |];
    repeat split; try congruence;
    repeat match goal with
           | |- context [path_exists w ?c] => destruct (path_exists w c) eqn:?
           end;
    try congruence;
    repeat match goal with
           | H : path_exists w ?c = _ |- context [path_exists w ?c] => rewrite H
           end;
    congruence.
Qed.

Lemma post_init_detects_checkpoints_witness :
  (__post_init__ corrupt_checkpoint_world demo_config None).1 = endovit_config /\
  (__post_init__ corrupt_checkpoint_world demo_config None).2 = None.
Proof.
  pose proof (post_init_detects_checkpoints corrupt_checkpoint_world demo_config None)
    as H.
  destruct (__post_init__ corrupt_checkpoint_world demo_config None) as [cfg' phase'].
  destruct H as (Ha & Hi & _ & _ & Hseg & Hph & _).
  specialize (Hseg eq_refl). specialize (Hph eq_refl).
  destruct cfg' as [a i c]. cbn in *. subst. split; reflexivity.
Defined.

End UtilsExtras.

(** ** [process_video.py] *)

Section ProcessVideoExtras.
Import Inference ProcessVideo.
Local Open Scope list_scope.

Lemma check_frames_Ok (idx : nat) (frames_list : list pyitem) :
  check_frames idx frames_list = Py.Ok () <->
  Forall (fun x => match x with Array a => ndim a = 3%nat | NotArray => False end)
    frames_list.
Proof.
  revert idx. induction frames_list as [| [a |] l IH]; intros idx; cbn [check_frames].
  - split; [constructor | reflexivity].
  - destruct (decide (ndim a <> 3%nat)) as [Hne | Heq].
    + split; [discriminate |]. intros H. apply Forall_cons in H as [H _]. contradiction.
    + apply dec_stable in Heq. rewrite IH. split; [now constructor |].
      intros H. now apply Forall_cons in H as [_ H].
  - split; [discriminate |]. intros H. apply Forall_cons in H as [[] _].
Qed.

Lemma unstack_frames (a : ndarray) :
  length (unstack a) = hd 0%nat (nd_shape a) /\
  Forall (fun f => S (ndim f) = ndim a) (unstack a).
Proof.
  unfold unstack, ndim. destruct (nd_shape a) as [| n inner]; cbn [hd].
  - split; [reflexivity | constructor].
  - split; [now rewrite length_map, length_seq |].
    apply Forall_fmap. apply Forall_forall. intros i _. reflexivity.
Qed.

(** X23: what [_ensure_frame_list] returns is never empty and holds
    only arrays of rank 3; a list or a tuple is accepted exactly when it
    is such a list, and is returned as it is; an array of rank 3 becomes
    a list of one frame, and an array of rank 4 the list of its
    sub-arrays along the first axis, unless that axis has length [0],
    which is an error. *)
Theorem ensure_frame_list_accepts (frames : pyobj) :
  let is_frame := fun x => match x with Array a => ndim a = 3%nat | NotArray => False end in
  (forall l, _ensure_frame_list frames = Py.Ok l -> l <> [] /\ Forall is_frame l) /\
  (forall items, frames = PyList items \/ frames = PyTuple items ->
     (_ensure_frame_list frames = Py.Ok items <-> items <> [] /\ Forall is_frame items) /\
     (forall l, _ensure_frame_list frames = Py.Ok l -> l = items)) /\
  (forall a, frames = Item (Array a) ->
     (ndim a = 3%nat -> _ensure_frame_list frames = Py.Ok [Array a]) /\
     (ndim a = 4%nat -> hd 0%nat (nd_shape a) <> 0%nat ->
      _ensure_frame_list frames = Py.Ok (map Array (unstack a))) /\
     (ndim a = 4%nat -> hd 0%nat (nd_shape a) = 0%nat ->
      _ensure_frame_list frames
      = Py.Raise (Py.ValueError "No frames provided for preprocessing.")) /\
     (ndim a <> 3%nat -> ndim a <> 4%nat ->
      _ensure_frame_list frames
      = Py.Raise (Py.ValueError "Numpy frame input must have rank 3 or 4."))).
Proof.
  cbv zeta.
  assert (Hlist : forall items l,
            match items with
            | [] => Py.Raise (Py.ValueError "No frames provided for preprocessing.")
            | _ :: _ => _ ← check_frames 0 items; Py.Ok items
            end = Py.Ok l ->
            l = items /\ items <> [] /\
            Forall (fun x => match x with Array a => ndim a = 3%nat | NotArray => False end)
              items).
  { intros items l H. destruct items as [| x items]; [discriminate H |].
    destruct (check_frames 0 (x :: items)) as [[] | e] eqn:Hc; [| discriminate H].
    injection H as <-. split; [reflexivity |]. split; [discriminate |].
    now apply (check_frames_Ok 0). }
  assert (Hback : forall items,
            items <> [] ->
            Forall (fun x => match x with Array a => ndim a = 3%nat | NotArray => False end)
              items ->
            match items with
            | [] => Py.Raise (Py.ValueError "No frames provided for preprocessing.")
            | _ :: _ => _ ← check_frames 0 items; Py.Ok items
            end = Py.Ok items).
  { intros items Hne Hall. destruct items as [| x items]; [contradiction |].
    apply (check_frames_Ok 0) in Hall. now rewrite Hall. }
  split; [| split].
  - intros l H. unfold _ensure_frame_list in H.
    apply bind_Ok_inv in H as (fl & _ & H). cbv beta in H.
    apply Hlist in H as (-> & Hne & Hall). now split.
  - intros items [-> | ->]; unfold _ensure_frame_list; cbv beta iota;
      erewrite bind_Ok by reflexivity; cbv beta; (split; [split |]).
    + intros H. apply Hlist in H as (_ & Hne & Hall). now split.
    + intros [Hne Hall]. now apply Hback.
    + intros l H. now apply Hlist in H as (-> & _).
    + intros H. apply Hlist in H as (_ & Hne & Hall). now split.
    + intros [Hne Hall]. now apply Hback.
    + intros l H. now apply Hlist in H as (-> & _).
  - intros a ->. unfold _ensure_frame_list. cbv beta iota.
    destruct (unstack_frames a) as [Hlen Hall].
    split; [| split; [| split]].
    + intros H3. rewrite decide_True by exact H3.
      erewrite bind_Ok by reflexivity. cbv beta iota. cbn [check_frames].
      rewrite decide_False by (intros H; apply H; exact H3). reflexivity.
    + intros H4 Hn. rewrite decide_False by lia. rewrite decide_True by exact H4.
      erewrite bind_Ok by reflexivity. cbv beta. apply Hback.
      * intros Hnil. apply (f_equal length) in Hnil.
        rewrite length_map, Hlen in Hnil. contradiction.
      * apply Forall_fmap. eapply Forall_impl; [exact Hall |].
        intros f Hf. unfold compose. cbv beta iota in Hf |- *. lia.
    + intros H4 Hz. rewrite decide_False by lia. rewrite decide_True by exact H4.
      erewrite bind_Ok by reflexivity. cbv beta.
      destruct (unstack a) as [| f l]; [reflexivity |].
      cbn in Hlen. lia.
    + intros H3 H4. rewrite !decide_False by assumption. reflexivity.
Qed.

Lemma ensure_frame_list_accepts_witness :
  _ensure_frame_list
    (Item (Array {| nd_shape := [2; 4; 6; 3]%nat; nd_data := []; nd_torch_error := None |}))
  = Py.Ok [Array {| nd_shape := [4; 6; 3]%nat; nd_data := []; nd_torch_error := None |};
           Array {| nd_shape := [4; 6; 3]%nat; nd_data := []; nd_torch_error := None |}]
  /\
  _ensure_frame_list (PyList [Array Demo.rgb_frame; NotArray])
  <> Py.Ok [Array Demo.rgb_frame; NotArray].
Proof.
  pose proof (ensure_frame_list_accepts
                (Item (Array {| nd_shape := [2; 4; 6; 3]%nat; nd_data := []; nd_torch_error := None |})))
    as (_ & _ & Harr).
  pose proof (ensure_frame_list_accepts (PyList [Array Demo.rgb_frame; NotArray]))
    as (_ & Hlist & _).
  split.
  - destruct (Harr _ eq_refl) as (_ & H4 & _).
    rewrite H4; [reflexivity | reflexivity | discriminate].
  - intros H. destruct (Hlist _ (or_introl eq_refl)) as [Hiff _].
    apply Hiff in H as [_ Hall].
    apply Forall_cons in Hall as [_ Hall]. apply Forall_cons in Hall as [[] _].
Defined.

Lemma int_Qeq (x y : Q) : (x == y)%Q -> Dataset.int x = Dataset.int y.
Proof.
  unfold Dataset.int, Qeq. intros H.
  rewrite <- (Z.quot_mul_cancel_r (Qnum x) (Z.pos (Qden x)) (Z.pos (Qden y))) by lia.
  rewrite H, (Z.mul_comm (Z.pos (Qden x))).
  apply Z.quot_mul_cancel_r; lia.
Qed.

Lemma crop_bounds_eq (h_in w_in : nat) :
  crop_bounds h_in w_in
  = (Z.quot (Z.of_nat w_in - Z.of_nat h_in) 2, Z.quot (Z.of_nat w_in + Z.of_nat h_in) 2).
Proof.
  unfold crop_bounds. cbv zeta. f_equal.
  - rewrite (int_Qeq _ ((Z.of_nat w_in - Z.of_nat h_in) # 2)); [reflexivity |].
    unfold Qeq, Qdiv, Qminus, Qplus, Qopp, Qmult, Qinv, inject_Z. simpl. lia.
  - rewrite (int_Qeq _ ((Z.of_nat w_in + Z.of_nat h_in) # 2)); [reflexivity |].
    unfold Qeq, Qdiv, Qminus, Qplus, Qopp, Qmult, Qinv, inject_Z. simpl. lia.
Qed.

Lemma slice_seq (w : nat) (a b : Z) :
  Dataset.slice (seq 0 w) a b
  = seq (Z.to_nat (Dataset.slice_bound (Z.of_nat w) a))
        (Z.to_nat (Dataset.slice_bound (Z.of_nat w) b
                   - Dataset.slice_bound (Z.of_nat w) a)).
Proof.
  unfold Dataset.slice. cbv zeta. rewrite length_seq, drop_seq, take_seq.
  assert (Ha : (0 <= Dataset.slice_bound (Z.of_nat w) a <= Z.of_nat w)%Z)
    by (unfold Dataset.slice_bound; destruct (decide (a < 0)%Z); lia).
  assert (Hb : (0 <= Dataset.slice_bound (Z.of_nat w) b <= Z.of_nat w)%Z)
    by (unfold Dataset.slice_bound; destruct (decide (b < 0)%Z); lia).
  f_equal; lia.
Qed.

(** X24: of a frame that is at least as wide as it is high,
    [preprocess] keeps the [h] central columns, a square; a frame that is
    one pixel higher than wide is kept whole; and of a frame that is
    higher than that, only the last [(h - w) / 2] columns are kept (all
    of them when that is more than [w]), because a negative left bound
    counts from the right edge. *)
Theorem kept_columns_cases (h w : nat) :
  ((h <= w)%nat -> kept_columns h w w = seq ((w - h) / 2) h) /\
  (h = S w -> kept_columns h w w = seq 0 w) /\
  ((w + 2 <= h)%nat ->
   kept_columns h w w = seq (w - Nat.min w ((h - w) / 2)) (Nat.min w ((h - w) / 2))).
Proof.
  unfold kept_columns. rewrite crop_bounds_eq. rewrite slice_seq.
  unfold Dataset.slice_bound.
  split; [| split]; intros H.
  - assert (Hl : ((Z.of_nat w - Z.of_nat h) ÷ 2)%Z = Z.of_nat ((w - h) / 2)).
    { rewrite Z.quot_div_nonneg by lia. rewrite Nat2Z.inj_div. f_equal. lia. }
    assert (Hr : ((Z.of_nat w + Z.of_nat h) ÷ 2)%Z = (Z.of_nat ((w - h) / 2) + Z.of_nat h)%Z).
    { rewrite Z.quot_div_nonneg by lia. rewrite Nat2Z.inj_div.
      replace (Z.of_nat w + Z.of_nat h)%Z
        with (Z.of_nat (w - h) + Z.of_nat h * 2)%Z by lia.
      rewrite Z.div_add by lia. reflexivity. }
    rewrite Hl, Hr.
    assert (Hle : ((w - h) / 2 + h <= w)%nat).
    { pose proof (Nat.Div0.div_le_upper_bound (w - h) 2 (w - h)). lia. }
    rewrite !decide_False by lia. f_equal; lia.
  - subst h.
    replace (Z.of_nat w - Z.of_nat (S w))%Z with (-1)%Z by lia.
    change ((-1) ÷ 2)%Z with 0%Z.
    assert (Hr : (Z.of_nat w <= (Z.of_nat w + Z.of_nat (S w)) ÷ 2)%Z).
    { rewrite Z.quot_div_nonneg by lia. apply Z.div_le_lower_bound; lia. }
    rewrite !decide_False by lia. f_equal; lia.
  - assert (Hl : ((Z.of_nat w - Z.of_nat h) ÷ 2)%Z = (- Z.of_nat ((h - w) / 2))%Z).
    { replace (Z.of_nat w - Z.of_nat h)%Z with (- Z.of_nat (h - w))%Z by lia.
      rewrite Z.quot_opp_l by lia. rewrite Z.quot_div_nonneg by lia.
      now rewrite Nat2Z.inj_div. }
    assert (Hk : (1 <= (h - w) / 2)%nat).
    { apply Nat.div_le_lower_bound; lia. }
    assert (Hr : (Z.of_nat w <= (Z.of_nat w + Z.of_nat h) ÷ 2)%Z).
    { rewrite Z.quot_div_nonneg by lia. apply Z.div_le_lower_bound; lia. }
    rewrite Hl.
    rewrite (decide_True (P := (- Z.of_nat ((h - w) / 2) < 0)%Z)) by lia.
    rewrite decide_False by lia.
    f_equal; lia.
Qed.

Lemma kept_columns_cases_witness :
  kept_columns 480 640 640 = seq 80 480 /\ kept_columns 5 2 2 = [1%nat].
Proof.
  split.
  - rewrite (proj1 (kept_columns_cases 480 640)) by lia. reflexivity.
  - rewrite (proj2 (proj2 (kept_columns_cases 5 2))) by lia. reflexivity.
Defined.

Lemma read_loop_filter {F} (video : list F) (count : nat) (res : list F) :
  read_loop count (map (fun f => (true, Some f)) video ++ [(false, None)]) res
  = res ++ map snd (filter (fun p : nat * F => p.1 mod FPS = 0)%nat
                      (zip (seq count (length video)) video)).
Proof.
  revert count res. induction video as [| f video IH]; intros count res.
  - cbn. now rewrite app_nil_r.
  - cbn [map app read_loop length seq zip zip_with]. cbv zeta.
    rewrite IH, filter_cons. cbn [fst].
    destruct (decide (count mod FPS = 0)%nat); [| reflexivity].
    cbn [map snd]. now rewrite <- app_assoc.
Qed.

(** The [k]-th of the elements whose position is a multiple of [step],
    in a list whose first element has position [c]. *)
Lemma sampled_lookup {F} (step : nat) (video : list F) (c off k : nat) :
  step <> 0%nat -> (off < step)%nat -> (exists q, c + off = step * q)%nat ->
  map snd (filter (fun p : nat * F => p.1 mod step = 0)%nat
             (zip (seq c (length video)) video)) !! k
  = video !! (off + step * k)%nat.
Proof.
  intros Hstep. revert c off k.
  induction video as [| f video IH]; intros c off k Hoff [q Hq].
  - cbn. now rewrite !lookup_nil.
  - cbn [length seq zip zip_with]. rewrite filter_cons. cbn [fst].
    destruct (decide (c mod step = 0)%nat) as [Hc | Hc].
    + apply Nat.Div0.mod_divides in Hc as [q' Hq'].
      assert (off = 0%nat).
      { destruct (le_lt_dec q q') as [Hle | Hlt].
        - pose proof (Nat.mul_le_mono_l q q' step Hle). lia.
        - pose proof (Nat.mul_le_mono_l (S q') q step Hlt) as Hm.
          rewrite Nat.mul_succ_r in Hm. lia. }
      subst off.
      cbn [map snd]. destruct k as [| k]; [now rewrite Nat.mul_0_r |].
      rewrite lookup_cons.
      rewrite (IH (S c) (step - 1)%nat k)
        by (try lia; exists (S q'); rewrite Nat.mul_succ_r; lia).
      replace (0 + step * S k)%nat with (S (step - 1 + step * k))
        by (rewrite Nat.mul_succ_r; lia).
      reflexivity.
    + assert (off <> 0%nat).
      { intros ->. apply Hc. rewrite Nat.add_0_r in Hq. subst c.
        rewrite Nat.mul_comm. apply Nat.Div0.mod_mul. }
      rewrite (IH (S c) (off - 1)%nat k) by (try lia; exists q; lia).
      replace (off + step * k)%nat with (S (off - 1 + step * k)) by lia.
      reflexivity.
Qed.

(** X25: [extract_raw_frames] keeps the frames number [0], [25], [50]
    and so on of the video, in this order: its [k]-th frame is frame
    [25 k], and of [n] frames it keeps [n / 25] rounded up. *)
Theorem extract_raw_frames_samples {F} (video : list F) :
  (forall k, extract_raw_frames video !! k = video !! (FPS * k)%nat) /\
  length (extract_raw_frames video) = ((length video + 24) / 25)%nat.
Proof.
  assert (Hk : forall k, extract_raw_frames video !! k = video !! (FPS * k)%nat).
  { intros k. unfold extract_raw_frames. rewrite read_loop_filter. cbn [app].
    apply (sampled_lookup FPS video 0 0 k); [discriminate | unfold FPS; lia |].
    exists 0%nat. lia. }
  split; [exact Hk |].
  set (l := extract_raw_frames video) in *.
  assert (Hhi : (length video <= FPS * length l)%nat).
  { apply lookup_ge_None. rewrite <- Hk. now apply lookup_ge_None. }
  assert (Hlo : (length l = 0 \/ FPS * (length l - 1) < length video)%nat).
  { destruct (length l) as [| m] eqn:Hm; [now left | right].
    apply lookup_lt_is_Some. rewrite <- Hk. apply lookup_lt_is_Some. lia. }
  unfold FPS in *.
  apply (Nat.div_unique _ 25 _ (length video + 24 - 25 * length l)); lia.
Qed.

End ProcessVideoExtras.

(** ** The frame loop of [segmentation_phase_inference_fixed.py] *)

Section FrameLoopExtras.
Import Inference FrameLoop Demo.
Local Open Scope list_scope.

Lemma process_spec (analyzer : SurgicalSceneAnalyzer) (frames : list ndarray) :
  forall (fc pc : nat) (results : list (nat * FrameRecord)) (off : nat)
         (out : list (nat * FrameRecord)),
    (off < FRAME_SKIP)%nat ->
    (exists q, fc + off = FRAME_SKIP * q)%nat ->
    (pc < MAX_FRAMES)%nat ->
    process analyzer frames fc pc results = Py.Ok out ->
    exists new,
      out = results ++ new /\
      length new = Nat.min (MAX_FRAMES - pc) ((length frames + 29 - off) / 30) /\
      forall k n r,
        new !! k = Some (n, r) ->
        n = (fc + off + FRAME_SKIP * k)%nat /\
        exists frame,
          frames !! (off + FRAME_SKIP * k)%nat = Some frame /\
          analyze_frame analyzer frame 90.0%Q = Py.Ok r.
Proof.
  induction frames as [| frame frames IH];
    intros fc pc results off out Hoff [q Hq] Hpc H.
  - cbn in H. injection H as <-. exists []. rewrite app_nil_r.
    split; [reflexivity |]. split.
    + cbn [length]. unfold FRAME_SKIP in *.
      rewrite Nat.div_small by lia. lia.
    + intros k n r Hk. now rewrite lookup_nil in Hk.
  - cbn [process] in H.
    destruct (decide (fc mod FRAME_SKIP = 0)%nat) as [Hc | Hc].
    + apply Nat.Div0.mod_divides in Hc as [q' Hq'].
      assert (off = 0%nat) by (unfold FRAME_SKIP in *; lia). subst off.
      apply bind_Ok_inv in H as (analysis & Ha & H). cbv beta zeta in H.
      destruct (decide (MAX_FRAMES <> 0 /\ MAX_FRAMES <= S pc)%nat) as [Hmax | Hmax].
      * injection H as <-. exists [(fc, analysis)].
        split; [reflexivity |]. split.
        -- cbn [length].
           assert (1 <= (S (length frames) + 29 - 0) / 30)%nat
             by (apply Nat.div_le_lower_bound; lia).
           unfold MAX_FRAMES in *. lia.
        -- intros [| k] n r Hk; cbn in Hk; [| discriminate Hk].
           injection Hk as <- <-. split; [unfold FRAME_SKIP; lia |].
           exists frame. split; [reflexivity | exact Ha].
      * destruct (IH (S fc) (S pc) (results ++ [(fc, analysis)]) 29%nat out)
          as (new & Hout & Hlen & Hlook);
          [unfold FRAME_SKIP; lia
          | exists (S q'); unfold FRAME_SKIP in *; lia
          | unfold MAX_FRAMES in *; lia
          | exact H |].
        exists ((fc, analysis) :: new).
        split; [rewrite Hout, <- app_assoc; reflexivity |]. split.
        -- cbn [length]. rewrite Hlen.
           replace (length frames + 29 - 29)%nat with (length frames) by lia.
           replace (S (length frames) + 29 - 0)%nat
             with (length frames + 1 * 30)%nat by lia.
           rewrite Nat.div_add by lia. unfold MAX_FRAMES in *. lia.
        -- intros [| k] n r Hk.
           ++ cbn in Hk. injection Hk as <- <-. split; [unfold FRAME_SKIP; lia |].
              exists frame. split; [reflexivity | exact Ha].
           ++ rewrite lookup_cons in Hk.
              apply Hlook in Hk as (Hn & frame' & Hf & Hr).
              split; [unfold FRAME_SKIP in *; lia |].
              exists frame'. split; [| exact Hr].
              replace (0 + FRAME_SKIP * S k)%nat with (S (29 + FRAME_SKIP * k))
                by (unfold FRAME_SKIP; lia).
              exact Hf.
    + assert (off <> 0%nat).
      { intros ->. apply Hc. rewrite Nat.add_0_r in Hq. subst fc.
        rewrite Nat.mul_comm. apply Nat.Div0.mod_mul. }
      destruct (IH (S fc) pc results (off - 1)%nat out)
        as (new & Hout & Hlen & Hlook);
        [lia | exists q; lia | exact Hpc | exact H |].
      exists new. split; [exact Hout |]. split.
      * rewrite Hlen. cbn [length]. f_equal. f_equal. lia.
      * intros k n r Hk. apply Hlook in Hk as (Hn & frame' & Hf & Hr).
        split; [lia |]. exists frame'. split; [| exact Hr].
        replace (off + FRAME_SKIP * k)%nat with (S (off - 1 + FRAME_SKIP * k)) by lia.
        exact Hf.
Qed.

Lemma process_returns (analyzer : SurgicalSceneAnalyzer) (frames : list ndarray) :
  Forall (fun frame => exists r, analyze_frame analyzer frame 90.0%Q = Py.Ok r) frames ->
  forall fc pc results, exists out, process analyzer frames fc pc results = Py.Ok out.
Proof.
  induction 1 as [| frame frames [r Hr] _ IH]; intros fc pc results.
  - eexists. reflexivity.
  - cbn [process]. destruct (decide (fc mod FRAME_SKIP = 0)%nat); [| apply IH].
    rewrite Hr. cbn. destruct (decide _); [eexists; reflexivity | apply IH].
Qed.

(** X26: when the frame loop comes to its end, its [k]-th result is the
    analysis, with quality score [90], of frame number [30 k] of the
    video, and of [n] frames it holds [n / 30] rounded up, but at most
    [300]; and the loop comes to its end when [analyze_frame] accepts
    the frames. *)
Theorem process_video_samples (analyzer : SurgicalSceneAnalyzer)
    (frames : list ndarray) :
  (forall results,
     process_video analyzer frames = Py.Ok results ->
     length results = Nat.min MAX_FRAMES ((length frames + 29) / 30) /\
     forall k n r,
       results !! k = Some (n, r) ->
       n = (FRAME_SKIP * k)%nat /\
       exists frame,
         frames !! n = Some frame /\
         analyze_frame analyzer frame 90.0%Q = Py.Ok r) /\
  (Forall (fun frame => exists r, analyze_frame analyzer frame 90.0%Q = Py.Ok r) frames ->
   exists results, process_video analyzer frames = Py.Ok results).
Proof.
  split.
  - intros results H. unfold process_video in H.
    destruct (process_spec analyzer frames 0 0 [] 0 results)
      as (new & Hout & Hlen & Hlook);
      [unfold FRAME_SKIP; lia | exists 0%nat; lia | unfold MAX_FRAMES; lia | exact H |].
    cbn [app] in Hout. subst new. split.
    + rewrite Hlen. now rewrite Nat.sub_0_r, Nat.sub_0_r.
    + intros k n r Hk. apply Hlook in Hk as (Hn & frame & Hf & Hr).
      cbn [Nat.add] in Hn, Hf. subst n. split; [reflexivity |].
      exists frame. now split.
  - intros Hall. apply (process_returns analyzer frames Hall).
Qed.

Lemma process_video_samples_witness :
  exists results,
    process_video (demo_analyzer one_hot_clip_and_divide) (replicate 61 rgb_frame)
    = Py.Ok results /\
    map fst results = [0; 30; 60]%nat.
Proof.
  destruct (proj2 (process_video_samples (demo_analyzer one_hot_clip_and_divide)
                     (replicate 61 rgb_frame))) as [results H].
  - apply Forall_forall. intros f Hf. apply elem_of_replicate in Hf as [-> _].
    eexists. vm_compute. reflexivity.
  - exists results. split; [exact H |].
    vm_compute in H. injection H as <-. reflexivity.
Defined.

End FrameLoopExtras.

(** ** The mask preview, continued *)

Section PreviewExtras.
Import Config Inference InferenceSpec Demo.
Local Open Scope list_scope.



End PreviewExtras.
